(** * CampuSupport: ticket lifecycle, authorization and reporting

    A shallow embedding of the request handlers of [app/main.py], the
    column declarations of [app/models.py], the request bodies of
    [app/schemas.py] and the keyword heuristics of
    [agent_service/main.py], followed by the properties of the ticket
    state machine.

    Conventions.
    - Primary keys and foreign keys are Python [int]s: [Z].
    - A [datetime] is a number of microseconds since the epoch: [Z].
      Every call of [datetime.utcnow()] is a separate reading of the
      clock; each reading a handler makes is an explicit argument.
    - A nullable column or an [Optional] field is an [option].
    - A table is a finite map from primary key to row.
    - A handler either returns a value or raises an [HTTPException];
      a request that raises leaves the store as it was. *)

From stdpp Require Import gmap strings list fin_maps sorting.
From Stdlib Require Import ZArith QArith Qminmax Ascii String.

Local Open Scope Z_scope.
Local Open Scope string_scope.

Abbreviation datetime := Z (only parsing).
Abbreviation date := Z (only parsing).

(** ** models.py *)

Inductive RoleEnum := student | support | department | admin.
Inductive TicketStatus := open | in_progress | resolved | closed.
Inductive TicketPriority := low | medium | high.

#[global] Instance RoleEnum_eq_dec : EqDecision RoleEnum.
Proof. solve_decision. Defined.
#[global] Instance TicketStatus_eq_dec : EqDecision TicketStatus.
Proof. solve_decision. Defined.
#[global] Instance TicketPriority_eq_dec : EqDecision TicketPriority.
Proof. solve_decision. Defined.

Record Department := {
  d_id : Z;
  d_name : string;
  d_description : option string
}.

Record User := {
  u_id : Z;
  u_email : string;
  u_full_name : option string;
  u_hashed_password : string;
  u_role : RoleEnum;
  u_department_id : option Z;
  u_is_active : bool;
  u_created_at : option datetime
}.

Record Ticket := {
  t_id : Z;
  t_title : string;
  t_description : string;
  t_category : option string;
  t_assigned_unit : option string;
  t_priority : TicketPriority;
  t_status : TicketStatus;
  t_department_id : Z;
  t_created_by_id : Z;
  t_assigned_to_id : option Z;
  t_created_at : option datetime;
  t_updated_at : option datetime;
  t_first_response_at : option datetime;
  t_resolved_at : option datetime;
  t_closed_at : option datetime;
  t_assigned_at : option datetime
}.

Record Comment := {
  c_id : Z;
  c_ticket_id : Z;
  c_author_id : Z;
  c_content : string;
  c_created_at : option datetime
}.

#[global] Instance Ticket_eq_dec : EqDecision Ticket.
Proof. solve_decision. Defined.

(** Attribute assignment [ticket.field = v]. *)

Definition set_title (v : string) (t : Ticket) : Ticket :=
  let (i, ti, de, ca, au, pr, st, dp, cb, ato, cr, up, fr, rs, cl, asg) := t in
  Build_Ticket i v de ca au pr st dp cb ato cr up fr rs cl asg.
Definition set_description (v : string) (t : Ticket) : Ticket :=
  let (i, ti, de, ca, au, pr, st, dp, cb, ato, cr, up, fr, rs, cl, asg) := t in
  Build_Ticket i ti v ca au pr st dp cb ato cr up fr rs cl asg.
Definition set_category (v : option string) (t : Ticket) : Ticket :=
  let (i, ti, de, ca, au, pr, st, dp, cb, ato, cr, up, fr, rs, cl, asg) := t in
  Build_Ticket i ti de v au pr st dp cb ato cr up fr rs cl asg.
Definition set_assigned_unit (v : option string) (t : Ticket) : Ticket :=
  let (i, ti, de, ca, au, pr, st, dp, cb, ato, cr, up, fr, rs, cl, asg) := t in
  Build_Ticket i ti de ca v pr st dp cb ato cr up fr rs cl asg.
Definition set_priority (v : TicketPriority) (t : Ticket) : Ticket :=
  let (i, ti, de, ca, au, pr, st, dp, cb, ato, cr, up, fr, rs, cl, asg) := t in
  Build_Ticket i ti de ca au v st dp cb ato cr up fr rs cl asg.
Definition set_status (v : TicketStatus) (t : Ticket) : Ticket :=
  let (i, ti, de, ca, au, pr, st, dp, cb, ato, cr, up, fr, rs, cl, asg) := t in
  Build_Ticket i ti de ca au pr v dp cb ato cr up fr rs cl asg.
Definition set_assigned_to_id (v : option Z) (t : Ticket) : Ticket :=
  let (i, ti, de, ca, au, pr, st, dp, cb, ato, cr, up, fr, rs, cl, asg) := t in
  Build_Ticket i ti de ca au pr st dp cb v cr up fr rs cl asg.
Definition set_updated_at (v : option datetime) (t : Ticket) : Ticket :=
  let (i, ti, de, ca, au, pr, st, dp, cb, ato, cr, up, fr, rs, cl, asg) := t in
  Build_Ticket i ti de ca au pr st dp cb ato cr v fr rs cl asg.
Definition set_first_response_at (v : option datetime) (t : Ticket) : Ticket :=
  let (i, ti, de, ca, au, pr, st, dp, cb, ato, cr, up, fr, rs, cl, asg) := t in
  Build_Ticket i ti de ca au pr st dp cb ato cr up v rs cl asg.
Definition set_resolved_at (v : option datetime) (t : Ticket) : Ticket :=
  let (i, ti, de, ca, au, pr, st, dp, cb, ato, cr, up, fr, rs, cl, asg) := t in
  Build_Ticket i ti de ca au pr st dp cb ato cr up fr v cl asg.
Definition set_closed_at (v : option datetime) (t : Ticket) : Ticket :=
  let (i, ti, de, ca, au, pr, st, dp, cb, ato, cr, up, fr, rs, cl, asg) := t in
  Build_Ticket i ti de ca au pr st dp cb ato cr up fr rs v asg.
Definition set_assigned_at (v : option datetime) (t : Ticket) : Ticket :=
  let (i, ti, de, ca, au, pr, st, dp, cb, ato, cr, up, fr, rs, cl, asg) := t in
  Build_Ticket i ti de ca au pr st dp cb ato cr up fr rs cl v.

(** ** The store and the session *)

Record DB := {
  departments : gmap Z Department;
  users : gmap Z User;
  tickets : gmap Z Ticket;
  comments : gmap Z Comment
}.

Definition with_tickets (m : gmap Z Ticket) (db : DB) : DB :=
  {| departments := departments db; users := users db;
     tickets := m; comments := comments db |}.
Definition with_comments (m : gmap Z Comment) (db : DB) : DB :=
  {| departments := departments db; users := users db;
     tickets := tickets db; comments := m |}.

(** The flush of one ticket row. [loaded] is the row as read from the
    store, [pending] the object after the handler's assignments. An UPDATE
    is emitted only when some column of [pending] differs from [loaded],
    and its SET clause holds the columns that differ. [Ticket.updated_at]
    is declared with [onupdate=datetime.utcnow] (models.py, class
    [Ticket]): when the UPDATE is emitted and [updated_at] is not in its
    SET clause, the column receives a reading of the clock made at the
    flush. *)
Definition flush_ticket (flush_now : datetime) (loaded pending : Ticket) : Ticket :=
  if decide (pending = loaded) then pending
  else if decide (t_updated_at pending = t_updated_at loaded)
       then set_updated_at (Some flush_now) pending
       else pending.

(** [db.commit()] after changes to the ticket row loaded under [key]. *)
Definition commit_ticket (flush_now : datetime) (key : Z) (loaded pending : Ticket) (db : DB) : DB :=
  with_tickets (<[key := flush_ticket flush_now loaded pending]> (tickets db)) db.

(** The primary key the engine gives a new row: one that is not in use. *)
Definition new_id {A} (m : gmap Z A) : Z := fresh (dom m).

(** ** Handler results *)

Record HTTPException := { status_code : Z; detail : string }.

Inductive Result (A : Type) :=
| Ok (a : A)
| Raise (e : HTTPException).
Arguments Ok {A} a.
Arguments Raise {A} e.

#[global] Instance Result_ret : MRet Result := fun _ a => Ok a.
#[global] Instance Result_bind : MBind Result := fun _ _ k r =>
  match r with
  | Ok a => k a
  | Raise e => Raise e
  end.

Definition HTTP_400_BAD_REQUEST := 400.
Definition HTTP_403_FORBIDDEN := 403.
Definition HTTP_404_NOT_FOUND := 404.
Definition HTTP_500_INTERNAL_SERVER_ERROR := 500.

(** The error taxonomy of the specification, read off a result: a status
    code and, where two errors share a code, the [detail] of the source. *)
Definition raises {A} (code : Z) (r : Result A) : Prop :=
  match r with
  | Ok _ => False
  | Raise e => status_code e = code
  end.

Definition raises_detail {A} (code : Z) (msgs : list string) (r : Result A) : Prop :=
  match r with
  | Ok _ => False
  | Raise e => status_code e = code /\ In (detail e) msgs
  end.

Definition NotFound {A} (r : Result A) : Prop := raises HTTP_404_NOT_FOUND r.
Definition Forbidden {A} (r : Result A) : Prop := raises HTTP_403_FORBIDDEN r.
Definition InvalidState {A} (r : Result A) : Prop :=
  raises_detail HTTP_400_BAD_REQUEST ["Closed tickets cannot be edited"] r.
Definition InvalidAssignment {A} (r : Result A) : Prop :=
  raises_detail HTTP_400_BAD_REQUEST
    ["Support user not found"; "Support user is in a different department"] r.

Definition succeeds {A} (r : Result A) : Prop :=
  match r with
  | Ok _ => True
  | Raise _ => False
  end.

(** The store once the request is over. *)
Definition db_after {A} (db : DB) (r : Result (DB * A)) : DB :=
  match r with
  | Ok (db', _) => db'
  | Raise _ => db
  end.

(** [db.get(models.Ticket, ticket_id)] followed by the 404 guard. *)
Definition get_or_404 {A} (m : gmap Z A) (key : Z) (what : string) : Result A :=
  match m !! key with
  | Some row => Ok row
  | None => Raise {| status_code := HTTP_404_NOT_FOUND; detail := what |}
  end.

Definition forbid {A} (msg : string) : Result A :=
  Raise {| status_code := HTTP_403_FORBIDDEN; detail := msg |}.
Definition bad_request {A} (msg : string) : Result A :=
  Raise {| status_code := HTTP_400_BAD_REQUEST; detail := msg |}.

(** An exception that is not an [HTTPException] reaches
    [unhandled_exception_handler]. *)
Definition internal_server_error {A} : Result A :=
  Raise {| status_code := HTTP_500_INTERNAL_SERVER_ERROR; detail := "Internal server error" |}.

(** ** schemas.py: request bodies

    [payload.model_dump(exclude_unset=True)] keeps the fields the request
    set, a JSON [null] included. A field of an update body is therefore
    [None] when unset, [Some None] when set to null and [Some (Some v)]
    otherwise. *)

Record TicketCreate := {
  tc_title : string;
  tc_description : string;
  tc_department_id : Z;
  tc_priority : TicketPriority;
  tc_category : option string;
  tc_assigned_unit : option string
}.

Record TicketUpdate := {
  tu_title : option (option string);
  tu_description : option (option string);
  tu_priority : option (option TicketPriority);
  tu_category : option (option string);
  tu_assigned_unit : option (option string)
}.

Record AgentUpdate := {
  au_priority : option (option TicketPriority);
  au_category : option (option string);
  au_assigned_unit : option (option string);
  au_message : option string
}.

(** ** app/main.py: handlers

    [current_user] is the user [get_current_active_user] resolved from the
    bearer token. A handler that answers with [build_ticket_payload(ticket)]
    returns the refreshed row here: the payload is a projection of it. *)

Definition ensure_ticket_visibility (ticket : Ticket) (user : User) : Result unit :=
  if decide (u_role user = admin) then Ok tt
  else if decide (t_created_by_id ticket = u_id user) then Ok tt
  else if decide ((u_role user = department \/ u_role user = support)
                  /\ u_department_id user = Some (t_department_id ticket)) then Ok tt
  else forbid "You cannot view this ticket".

Definition create_ticket (db : DB) (current_user : User) (ticket_in : TicketCreate)
    (created_now updated_now : datetime) : Result (DB * Ticket) :=
  if decide (u_role current_user = support) then forbid "Support users cannot create tickets"
  else
    _ ← get_or_404 (departments db) (tc_department_id ticket_in) "Department not found";
    let ticket := {|
      t_id := new_id (tickets db);
      t_title := tc_title ticket_in;
      t_description := tc_description ticket_in;
      t_category := tc_category ticket_in;
      t_assigned_unit := tc_assigned_unit ticket_in;
      t_priority := tc_priority ticket_in;
      t_status := open;
      t_department_id := tc_department_id ticket_in;
      t_created_by_id := u_id current_user;
      t_assigned_to_id := None;
      t_created_at := Some created_now;
      t_updated_at := Some updated_now;
      t_first_response_at := None;
      t_resolved_at := None;
      t_closed_at := None;
      t_assigned_at := None |} in
    Ok (with_tickets (<[t_id ticket := ticket]> (tickets db)) db, ticket).

Definition get_ticket (db : DB) (current_user : User) (ticket_id : Z) : Result Ticket :=
  ticket ← get_or_404 (tickets db) ticket_id "Ticket not found";
  _ ← ensure_ticket_visibility ticket current_user;
  Ok ticket.

(** [if not updates]: no field was set. *)
Definition no_updates (payload : TicketUpdate) : bool :=
  match tu_title payload, tu_description payload, tu_priority payload,
        tu_category payload, tu_assigned_unit payload with
  | None, None, None, None, None => true
  | _, _, _, _, _ => false
  end.

(** [title], [description] and [priority] are [nullable=False]: after
    [setattr(ticket, field, None)] on one of them the UPDATE of the commit
    fails, nothing is stored and the request is answered 500. *)
Definition violates_not_null (payload : TicketUpdate) : bool :=
  bool_decide (tu_title payload = Some None \/ tu_description payload = Some None
               \/ tu_priority payload = Some None).

Definition setattr {A} (set : A -> Ticket -> Ticket) (v : option A) (t : Ticket) : Ticket :=
  match v with
  | Some x => set x t
  | None => t
  end.

(** [for field, value in updates.items(): setattr(ticket, field, value)] on
    a body that passes [violates_not_null]. *)
Definition apply_updates (payload : TicketUpdate) (t : Ticket) : Ticket :=
  let t := setattr set_title (mjoin (tu_title payload)) t in
  let t := setattr set_description (mjoin (tu_description payload)) t in
  let t := setattr set_priority (mjoin (tu_priority payload)) t in
  let t := setattr set_category (tu_category payload) t in
  setattr set_assigned_unit (tu_assigned_unit payload) t.

Definition update_ticket (db : DB) (current_user : User) (ticket_id : Z)
    (payload : TicketUpdate) (now flush_now : datetime) : Result (DB * Ticket) :=
  ticket ← get_or_404 (tickets db) ticket_id "Ticket not found";
  if decide (u_role current_user = support) then forbid "Support users cannot edit tickets"
  else if decide (u_role current_user = student /\ t_created_by_id ticket <> u_id current_user)
  then forbid "You can only edit your tickets"
  else if decide (u_role current_user = department
                  /\ Some (t_department_id ticket) <> u_department_id current_user)
  then forbid "Not your department"
  else if decide (t_status ticket = closed) then bad_request "Closed tickets cannot be edited"
  else if no_updates payload then Ok (db, ticket)
  else if violates_not_null payload then internal_server_error
  else
    let pending := set_updated_at (Some now) (apply_updates payload ticket) in
    Ok (commit_ticket flush_now ticket_id ticket pending db,
        flush_ticket flush_now ticket pending).

Definition assign_ticket (db : DB) (current_user : User) (ticket_id : Z)
    (support_user_id : Z) (now flush_now : datetime) : Result (DB * Ticket) :=
  if decide (u_role current_user <> department /\ u_role current_user <> admin)
  then forbid "Only department/admin can assign tickets"
  else
    ticket ← get_or_404 (tickets db) ticket_id "Ticket not found";
    if decide (u_role current_user = department
               /\ Some (t_department_id ticket) <> u_department_id current_user)
    then forbid "Ticket is not in your department"
    else
      match users db !! support_user_id with
      | None => bad_request "Support user not found"
      | Some support_user =>
          if decide (u_role support_user <> support) then bad_request "Support user not found"
          else if decide (u_department_id support_user <> Some (t_department_id ticket))
          then bad_request "Support user is in a different department"
          else
            let pending :=
              set_assigned_at (Some now)
                (set_assigned_to_id (Some (u_id support_user)) ticket) in
            Ok (commit_ticket flush_now ticket_id ticket pending db,
                flush_ticket flush_now ticket pending)
      end.

(** The stamps of a status change, lines 490-498 of the handler. *)
Definition stamp_status (status : TicketStatus) (now : datetime) (ticket : Ticket) : Ticket :=
  let ticket := set_status status ticket in
  let ticket := set_updated_at (Some now) ticket in
  let ticket :=
    if decide (status = in_progress /\ t_first_response_at ticket = None)
    then set_first_response_at (Some now) ticket else ticket in
  let ticket :=
    if decide ((status = resolved \/ status = closed) /\ t_resolved_at ticket = None)
    then set_resolved_at (Some now) ticket else ticket in
  if decide (status = closed) then set_closed_at (Some now) ticket else ticket.

(** [send_resolution_notification] reads the ticket, posts to a webhook
    and swallows every failure: it does not touch the store or the
    answer and is left out. *)
Definition update_ticket_status (db : DB) (current_user : User) (ticket_id : Z)
    (status : TicketStatus) (now flush_now : datetime) : Result (DB * Ticket) :=
  ticket ← get_or_404 (tickets db) ticket_id "Ticket not found";
  _ ← match u_role current_user with
      | support =>
          if decide (t_assigned_to_id ticket <> Some (u_id current_user))
          then forbid "Only assigned support can update status" else Ok tt
      | department =>
          if decide (Some (t_department_id ticket) <> u_department_id current_user)
          then forbid "Not your department" else Ok tt
      | student => forbid "Students cannot change status"
      | admin => Ok tt
      end;
  let pending := stamp_status status now ticket in
  Ok (commit_ticket flush_now ticket_id ticket pending db,
      flush_ticket flush_now ticket pending).

(** [db.delete(ticket)]: the relationship [Ticket.comments] cascades. *)
Definition delete_ticket (db : DB) (current_user : User) (ticket_id : Z) : Result (DB * unit) :=
  ticket ← get_or_404 (tickets db) ticket_id "Ticket not found";
  if decide (u_role current_user = admin
             \/ (u_role current_user = department
                 /\ Some (t_department_id ticket) = u_department_id current_user)
             \/ (u_role current_user = student
                 /\ t_created_by_id ticket = u_id current_user
                 /\ t_status ticket = open))
  then
    Ok (with_comments (filter (fun kc => c_ticket_id kc.2 <> ticket_id) (comments db))
          (with_tickets (delete ticket_id (tickets db)) db), tt)
  else forbid "You cannot delete this ticket".

Definition add_comment (db : DB) (current_user : User) (ticket_id : Z) (content : string)
    (now now2 flush_now insert_now : datetime) : Result (DB * Comment) :=
  ticket ← get_or_404 (tickets db) ticket_id "Ticket not found";
  _ ← ensure_ticket_visibility ticket current_user;
  let comment := {|
    c_id := new_id (comments db);
    c_ticket_id := ticket_id;
    c_author_id := u_id current_user;
    c_content := content;
    c_created_at := Some insert_now |} in
  let pending := set_updated_at (Some now) ticket in
  let pending :=
    if decide (u_role current_user = support /\ t_first_response_at pending = None)
    then set_first_response_at (Some now2) pending else pending in
  Ok (with_comments (<[c_id comment := comment]> (comments db))
        (commit_ticket flush_now ticket_id ticket pending db),
      comment).

(** [db.query(models.User).filter(models.User.email == email).first()] *)
Definition first_user_by_email (email : string) (m : gmap Z User) : option User :=
  (fun r => snd (snd r)) <$> list_find (fun kv => u_email kv.2 = email) (map_to_list m).

Definition internal_agent_update (db : DB) (ticket_id : Z) (payload : AgentUpdate)
    (now flush_now insert_now : datetime) : Result (DB * Ticket) :=
  ticket ← get_or_404 (tickets db) ticket_id "Ticket not found";
  let pending := setattr set_priority (mjoin (au_priority payload)) ticket in
  let pending := setattr set_category (au_category payload) pending in
  let pending := setattr set_assigned_unit (au_assigned_unit payload) pending in
  let pending := set_updated_at (Some now) pending in
  let bot_user := first_user_by_email "agent@system.local" (users db) in
  let db' := commit_ticket flush_now ticket_id ticket pending db in
  let db' :=
    match au_message payload, bot_user with
    | Some message, Some bot =>
        if decide (message = "") then db'
        else
          let comment := {|
            c_id := new_id (comments db);
            c_ticket_id := ticket_id;
            c_author_id := u_id bot;
            c_content := message;
            c_created_at := Some insert_now |} in
          with_comments (<[c_id comment := comment]> (comments db)) db'
    | _, _ => db'
    end in
  Ok (db', flush_ticket flush_now ticket pending).

(** ** Reporting: [department_report]

    [(a - b).total_seconds() / 60] is a float; the report keeps the exact
    quotient, a rational number of minutes. *)

Record SupportReport := {
  support_user_id : Z;
  support_email : string;
  closed_this_week : nat;
  open_assigned : nat;
  average_response_minutes : option Q;
  fastest_resolution_minutes : option Q;
  slowest_resolution_minutes : option Q
}.

Record DepartmentReport := {
  department_id : Z;
  week_start : date;
  week_end : date;
  supports : list SupportReport
}.

(** [d.date()], in days since the epoch. *)
Definition date_of (d : datetime) : date := d / 86400000000.

Definition minutes_between (later earlier : datetime) : Q :=
  Qmake (later - earlier) 60000000.

(** [t.assigned_at or t.created_at] *)
Definition start_point (t : Ticket) : option datetime :=
  match t_assigned_at t with
  | Some a => Some a
  | None => t_created_at t
  end.

Definition response_time (t : Ticket) : option Q :=
  match t_first_response_at t, start_point t with
  | Some f, Some s => Some (minutes_between f s)
  | _, _ => None
  end.

Definition resolution_time (t : Ticket) : option Q :=
  match t_resolved_at t, start_point t with
  | Some r, Some s => Some (minutes_between r s)
  | _, _ => None
  end.

(** [sum(xs) / len(xs) if xs else None] *)
Definition average (xs : list Q) : option Q :=
  match xs with
  | [] => None
  | _ => Some (Qdiv (fold_left Qplus xs (inject_Z 0)) (inject_Z (Z.of_nat (List.length xs))))
  end.

(** [min(xs) if xs else None] and [max(xs) if xs else None] *)
Definition minimum (xs : list Q) : option Q :=
  match xs with
  | [] => None
  | x :: rest => Some (fold_left Qmin rest x)
  end.
Definition maximum (xs : list Q) : option Q :=
  match xs with
  | [] => None
  | x :: rest => Some (fold_left Qmax rest x)
  end.

Definition closed_in_week (start_date week_end : date) (t : Ticket) : bool :=
  match t_resolved_at t with
  | Some r =>
      bool_decide (start_date <= date_of r < week_end)
      && bool_decide (t_status t = resolved \/ t_status t = closed)
  | None => false
  end.

Definition is_open_assigned (t : Ticket) : bool :=
  bool_decide (t_status t = open \/ t_status t = in_progress).

(** [db.query(models.Ticket).filter(models.Ticket.assigned_to_id == support.id).all()] *)
Definition tickets_assigned_to (db : DB) (support_id : Z) : list Ticket :=
  snd <$> map_to_list (filter (fun kt => t_assigned_to_id kt.2 = Some support_id) (tickets db)).

(** One turn of the loop over the support users of the department. *)
Definition support_report (db : DB) (start_date week_end : date) (support_user : User)
    : SupportReport :=
  let tickets := tickets_assigned_to db (u_id support_user) in
  let closed := List.filter (closed_in_week start_date week_end) tickets in
  let open_assigned := List.filter is_open_assigned tickets in
  let response_times := omap response_time tickets in
  let resolution_times := omap resolution_time tickets in
  {| support_user_id := u_id support_user;
     support_email := u_email support_user;
     closed_this_week := List.length closed;
     open_assigned := List.length open_assigned;
     average_response_minutes := average response_times;
     fastest_resolution_minutes := minimum resolution_times;
     slowest_resolution_minutes := maximum resolution_times |}.

Definition support_users_of (db : DB) (department_id : Z) : list User :=
  snd <$> map_to_list
    (filter (fun ku => u_role ku.2 = support /\ u_department_id ku.2 = Some department_id)
       (users db)).

Definition department_report (db : DB) (current_user : User) (department_id : Z)
    (week_start : option date) (now : datetime) : Result DepartmentReport :=
  if decide (u_role current_user <> department /\ u_role current_user <> admin)
  then forbid "Only department/admin can view reports"
  else if decide (u_role current_user = department
                  /\ u_department_id current_user <> Some department_id)
  then forbid "Not your department"
  else
    _ ← get_or_404 (departments db) department_id "Department not found";
    let start_date := match week_start with
                      | Some d => d
                      | None => date_of now - 7
                      end in
    let week_end := start_date + 7 in
    Ok {| department_id := department_id;
          week_start := start_date;
          week_end := week_end;
          supports := support_report db start_date week_end <$> support_users_of db department_id |}.

(** ** The keyword fallback of the classifier

    [simple_priority_guess] and [simple_category_guess] of [app/main.py],
    [heuristic_priority], [heuristic_category] and [pick_unit] of
    [agent_service/main.py]. Texts are strings of bytes (UTF-8).
    [str.lower] is the case mapping of the Python runtime: the functions
    take it as the parameter [lower]; [ascii_lower] is its restriction to
    ASCII letters. *)

(** [k in s] *)
Fixpoint contains (k s : string) : bool :=
  if String.prefix k s then true
  else match s with
       | EmptyString => false
       | String _ s' => contains k s'
       end.

(** [any(k in s for k in keys)] *)
Definition any_in (keys : list string) (s : string) : bool :=
  existsb (fun k => contains k s) keys.

Definition ascii_lower_char (c : ascii) : ascii :=
  let n := N_of_ascii c in
  if (65 <=? n)%N && (n <=? 90)%N then ascii_of_N (n + 32) else c.

Fixpoint ascii_lower (s : string) : string :=
  match s with
  | EmptyString => EmptyString
  | String c s' => String (ascii_lower_char c) (ascii_lower s')
  end.

Definition urgency_keywords : list string :=
  ["acil"; "urgent"; "kopuyor"; "kilit"; "down"; "calismiyor"].
Definition delay_keywords : list string := ["yavas"; "gecik"; "slow"].
Definition internet_keywords : list string := ["wifi"; "internet"; "lms"; "vpn"; "modem"].
Definition hardware_keywords : list string :=
  ["projeksiyon"; "monitor"; "ekran"; "donanim"; "bilgisayar"; "lab"].
Definition student_keywords : list string :=
  ["randevu"; "danisman"; "kayit"; "transkript"; "ogrenci"].

Section Heuristics.
Variable lower : string -> string.

Definition simple_priority_guess (text : string) : TicketPriority :=
  let lowered := lower text in
  if any_in urgency_keywords lowered then high
  else if any_in delay_keywords lowered then medium
  else low.

Definition simple_category_guess (text : string) : string :=
  let lowered := lower text in
  if any_in internet_keywords lowered then "Internet"
  else if any_in hardware_keywords lowered then "Donanim"
  else if any_in student_keywords lowered then "Ogrenci Islemleri"
  else "Genel".

Definition heuristic_priority (text : string) : string :=
  let lowered := lower text in
  if any_in urgency_keywords lowered then "high"
  else if any_in delay_keywords lowered then "medium"
  else "low".

Definition heuristic_category (text : string) : string :=
  let lowered := lower text in
  if any_in internet_keywords lowered then "Internet"
  else if any_in hardware_keywords lowered then "Donanim"
  else if any_in student_keywords lowered then "Ogrenci Islemleri"
  else "Genel".
End Heuristics.

Definition pick_unit (category : string) : string :=
  if decide (category = "Internet") then "Network"
  else if decide (category = "Donanim") then "Donanim"
  else if decide (category = "Ogrenci Islemleri") then "OgrenciIsleri"
  else "Genel".

(** The value of the enumeration [TicketPriority(str, Enum)]. *)
Definition priority_value (p : TicketPriority) : string :=
  match p with
  | low => "low"
  | medium => "medium"
  | high => "high"
  end.

(** ** Requests that write to the store

    One constructor per writing handler, with the clock readings the
    handler makes; [handle] is the store once the request is over. *)

Inductive Request :=
| CreateTicket (current_user : User) (ticket_in : TicketCreate) (created_now updated_now : datetime)
| UpdateTicket (current_user : User) (ticket_id : Z) (payload : TicketUpdate)
    (now flush_now : datetime)
| AssignTicket (current_user : User) (ticket_id : Z) (support_user_id : Z)
    (now flush_now : datetime)
| UpdateTicketStatus (current_user : User) (ticket_id : Z) (status : TicketStatus)
    (now flush_now : datetime)
| DeleteTicket (current_user : User) (ticket_id : Z)
| AddComment (current_user : User) (ticket_id : Z) (content : string)
    (now now2 flush_now insert_now : datetime)
| InternalAgentUpdate (ticket_id : Z) (payload : AgentUpdate)
    (now flush_now insert_now : datetime).

Definition handle (db : DB) (r : Request) : DB :=
  match r with
  | CreateTicket u ticket_in c1 c2 => db_after db (create_ticket db u ticket_in c1 c2)
  | UpdateTicket u tid payload now fl => db_after db (update_ticket db u tid payload now fl)
  | AssignTicket u tid sid now fl => db_after db (assign_ticket db u tid sid now fl)
  | UpdateTicketStatus u tid st now fl => db_after db (update_ticket_status db u tid st now fl)
  | DeleteTicket u tid => db_after db (delete_ticket db u tid)
  | AddComment u tid content now now2 fl ins =>
      db_after db (add_comment db u tid content now now2 fl ins)
  | InternalAgentUpdate tid payload now fl ins =>
      db_after db (internal_agent_update db tid payload now fl ins)
  end.

(** The readings of the clock a request may store. *)
Definition clock_readings (r : Request) : list datetime :=
  match r with
  | CreateTicket _ _ c1 c2 => [c1; c2]
  | UpdateTicket _ _ _ now fl => [now; fl]
  | AssignTicket _ _ _ now fl => [now; fl]
  | UpdateTicketStatus _ _ _ now fl => [now; fl]
  | DeleteTicket _ _ => []
  | AddComment _ _ _ now now2 fl ins => [now; now2; fl; ins]
  | InternalAgentUpdate _ _ now fl ins => [now; fl; ins]
  end.

(** ** A store for the worked examples *)

Module Example.
Definition user (i : Z) (role : RoleEnum) (dep : option Z) : User :=
  {| u_id := i; u_email := "user@campus.test"; u_full_name := None;
     u_hashed_password := "x"; u_role := role; u_department_id := dep;
     u_is_active := true; u_created_at := Some 0 |}.

Definition ticket (i : Z) (st : TicketStatus) (dep creator : Z) : Ticket :=
  {| t_id := i; t_title := "WiFi issue"; t_description := "wifi kopuyor yurt";
     t_category := None; t_assigned_unit := None; t_priority := high;
     t_status := st; t_department_id := dep; t_created_by_id := creator;
     t_assigned_to_id := None; t_created_at := Some 100; t_updated_at := Some 100;
     t_first_response_at := None; t_resolved_at := None; t_closed_at := None;
     t_assigned_at := None |}.

Definition alice := user 1 student None.
Definition bob := user 2 support (Some 1).
Definition carol := user 3 department (Some 1).
Definition root := user 4 admin None.
Definition dave := user 5 support (Some 2).
Definition erin := user 6 support (Some 1).

Definition dept (i : Z) (name : string) : Department :=
  {| d_id := i; d_name := name; d_description := None |}.

(** Two departments, six users, an open ticket 1 and a closed ticket 2,
    both of department 1 and created by [alice]. *)
Definition db : DB :=
  {| departments := {[ 1 := dept 1 "Bilgi Islem"; 2 := dept 2 "Yapi Isleri" ]};
     users := {[ 1 := alice; 2 := bob; 3 := carol; 4 := root; 5 := dave; 6 := erin ]};
     tickets := {[ 1 := ticket 1 open 1 1; 2 := ticket 2 closed 1 1 ]};
     comments := ∅ |}.
End Example.

(** ** The policy table, for the statements below

    Who passes the authorization checks of a handler, as the checks are
    written in the source. *)

Definition may_edit (u : User) (t : Ticket) : Prop :=
  u_role u = admin
  \/ (u_role u = student /\ t_created_by_id t = u_id u)
  \/ (u_role u = department /\ u_department_id u = Some (t_department_id t)).

Definition may_assign (u : User) (t : Ticket) : Prop :=
  u_role u = admin
  \/ (u_role u = department /\ u_department_id u = Some (t_department_id t)).

(** The user [sid] names is a support user of the ticket's department. *)
Definition eligible_assignee (db : DB) (t : Ticket) (sid : Z) : Prop :=
  exists su, users db !! sid = Some su
             /\ u_role su = support
             /\ u_department_id su = Some (t_department_id t).

(** Two rows agree on every column but [assigned_to_id], [assigned_at]
    and [updated_at]. *)
Definition same_but_assignment (t t' : Ticket) : Prop :=
  t_id t' = t_id t /\ t_title t' = t_title t /\ t_description t' = t_description t
  /\ t_category t' = t_category t /\ t_assigned_unit t' = t_assigned_unit t
  /\ t_priority t' = t_priority t /\ t_status t' = t_status t
  /\ t_department_id t' = t_department_id t /\ t_created_by_id t' = t_created_by_id t
  /\ t_created_at t' = t_created_at t /\ t_first_response_at t' = t_first_response_at t
  /\ t_resolved_at t' = t_resolved_at t /\ t_closed_at t' = t_closed_at t.

(** The actor passes the role and department gates of [department_report]. *)
Definition may_report (u : User) (did : Z) : Prop :=
  u_role u = admin \/ (u_role u = department /\ u_department_id u = Some did).

(** No sample for the response average: no ticket assigned to the support
    user [sid] has both a first response and a start point. *)
Definition no_response_sample (db : DB) (sid : Z) : Prop :=
  forall k t, tickets db !! k = Some t -> t_assigned_to_id t = Some sid ->
    t_first_response_at t = None \/ start_point t = None.

(** No sample for the resolution extremes. *)
Definition no_resolution_sample (db : DB) (sid : Z) : Prop :=
  forall k t, tickets db !! k = Some t -> t_assigned_to_id t = Some sid ->
    t_resolved_at t = None \/ start_point t = None.

(** No ticket is assigned to the support user [sid]. *)
Definition no_assigned_ticket (db : DB) (sid : Z) : Prop :=
  forall k t, tickets db !! k = Some t -> t_assigned_to_id t <> Some sid.

(** [k] occurs in [s] as a substring. *)
Definition occurs (k s : string) : Prop :=
  exists pre post, s = pre +:+ k +:+ post.

Definition keyword_occurs (keys : list string) (s : string) : Prop :=
  exists k, In k keys /\ occurs k s.

(** ** Who passes the remaining authorization checks *)

(** The three ways through [ensure_ticket_visibility]. *)
Definition can_view (u : User) (t : Ticket) : Prop :=
  u_role u = admin
  \/ t_created_by_id t = u_id u
  \/ ((u_role u = department \/ u_role u = support)
      /\ u_department_id u = Some (t_department_id t)).

(** The role branches of [update_ticket_status]. *)
Definition may_change_status (u : User) (t : Ticket) : Prop :=
  u_role u = admin
  \/ (u_role u = support /\ t_assigned_to_id t = Some (u_id u))
  \/ (u_role u = department /\ u_department_id u = Some (t_department_id t)).

(** The three passing branches of [delete_ticket]. *)
Definition may_delete (u : User) (t : Ticket) : Prop :=
  u_role u = admin
  \/ (u_role u = department /\ u_department_id u = Some (t_department_id t))
  \/ (u_role u = student /\ t_created_by_id t = u_id u /\ t_status t = open).

(** ** The rows the handlers hand to the commit

    [built_from t pending]: [pending] is what one of the writing handlers
    makes of the loaded row [t] before the commit. *)
Inductive built_from (t : Ticket) : Ticket -> Prop :=
| built_edit (payload : TicketUpdate) (now : datetime) :
    built_from t (set_updated_at (Some now) (apply_updates payload t))
| built_assign (assignee : Z) (now : datetime) :
    built_from t (set_assigned_at (Some now) (set_assigned_to_id (Some assignee) t))
| built_status (st : TicketStatus) (now : datetime) :
    built_from t (stamp_status st now t)
| built_comment (now : datetime) :
    built_from t (set_updated_at (Some now) t)
| built_first_response (now now2 : datetime) :
    t_first_response_at t = None ->
    built_from t (set_first_response_at (Some now2) (set_updated_at (Some now) t))
| built_agent (payload : AgentUpdate) (now : datetime) :
    built_from t
      (set_updated_at (Some now)
         (setattr set_assigned_unit (au_assigned_unit payload)
            (setattr set_category (au_category payload)
               (setattr set_priority (mjoin (au_priority payload)) t)))).

(** The ticket a request names; for a creation, the identifier the new
    row receives. *)
Definition target (db : DB) (r : Request) : Z :=
  match r with
  | CreateTicket _ _ _ _ => new_id (tickets db)
  | UpdateTicket _ tid _ _ _ => tid
  | AssignTicket _ tid _ _ _ => tid
  | UpdateTicketStatus _ tid _ _ _ => tid
  | DeleteTicket _ tid => tid
  | AddComment _ tid _ _ _ _ _ => tid
  | InternalAgentUpdate tid _ _ _ _ => tid
  end.

(** [created_at] and [updated_at] are set and in order. *)
Definition created_before_updated (t : Ticket) : Prop :=
  exists c up, t_created_at t = Some c /\ t_updated_at t = Some up /\ c <= up.

(** The clock does not run backwards: the readings of the request are not
    earlier than the creation time of any stored ticket, and the two
    defaults of an INSERT are read in column order. *)
Definition clock_moves_on (db : DB) (r : Request) : Prop :=
  (forall n k t c, In n (clock_readings r) -> tickets db !! k = Some t ->
     t_created_at t = Some c -> c <= n)
  /\ match r with
     | CreateTicket _ _ created_now updated_now => created_now <= updated_now
     | _ => True
     end.

(** ** Ordered listings

    [sort_by before l] is a stable sort: [before x y] says that [x] must
    come strictly before [y]; rows that are not ordered by [before] keep
    the order of [l]. It stands for [sorted(l, key=..., reverse=True)] and
    for the ORDER BY of a query, whose order among equal keys the engine
    does not fix. *)
Fixpoint insert_by {A} (before : A -> A -> bool) (x : A) (l : list A) : list A :=
  match l with
  | [] => [x]
  | y :: l' => if before x y then x :: y :: l' else y :: insert_by before x l'
  end.

Definition sort_by {A} (before : A -> A -> bool) (l : list A) : list A :=
  foldl (fun acc x => insert_by before x acc) [] l.

(** [a] earlier than [b]; a null is smaller than every time, as in
    SQLite. *)
Definition earlier (a b : option datetime) : bool :=
  match a, b with
  | None, Some _ => true
  | Some x, Some y => (x <? y)%Z
  | _, None => false
  end.

(** [order_by(models.Ticket.created_at.desc())] *)
Definition newer_ticket (x y : Ticket) : bool := earlier (t_created_at y) (t_created_at x).

(** [order_by(models.Comment.created_at)] *)
Definition older_comment (x y : Comment) : bool := earlier (c_created_at x) (c_created_at y).

Definition priority_order (p : TicketPriority) : Z :=
  match p with
  | high => 3
  | medium => 2
  | low => 1
  end.

(** [sorted(..., key=lambda t: priority_order[t.priority], reverse=True)] *)
Definition higher_priority (x y : Ticket) : bool :=
  (priority_order (t_priority y) <? priority_order (t_priority x))%Z.

(** [db.query(models.Ticket)...all()]: the rows of the table. *)
Definition all_tickets (db : DB) : list Ticket := snd <$> map_to_list (tickets db).

(** ** app/main.py: read-only handlers *)

Definition list_support_users (db : DB) (current_user : User) (department_id : Z)
    : Result (list User) :=
  if decide (u_role current_user <> department /\ u_role current_user <> admin)
  then forbid "Only department/admin can view support users"
  else if decide (u_role current_user = department
                  /\ u_department_id current_user <> Some department_id)
  then forbid "Not your department"
  else Ok (support_users_of db department_id).

Definition list_my_tickets (db : DB) (current_user : User) : list Ticket :=
  sort_by newer_ticket
    (filter (fun t => t_created_by_id t = u_id current_user) (all_tickets db)).

(** The role branch of [list_tickets]; [elif department_id] is false for
    an absent parameter and for 0. *)
Definition in_scope (current_user : User) (department_id : option Z) (t : Ticket) : Prop :=
  match u_role current_user with
  | student => t_created_by_id t = u_id current_user
  | department | support => Some (t_department_id t) = u_department_id current_user
  | admin =>
      match department_id with
      | Some d => d = 0 \/ t_department_id t = d
      | None => True
      end
  end.

#[global] Instance in_scope_dec u d t : Decision (in_scope u d t).
Proof. unfold in_scope. destruct (u_role u), d; apply _. Defined.

(** A filter of the query string: absent, or the value a row must have. *)
Definition matches {A} (wanted : option A) (actual : A) : Prop :=
  match wanted with
  | Some w => actual = w
  | None => True
  end.

#[global] Instance matches_dec {A} `{EqDecision A} (wanted : option A) (actual : A) :
  Decision (matches wanted actual).
Proof. unfold matches. destruct wanted; apply _. Defined.

Definition list_tickets (db : DB) (current_user : User) (department_id : option Z)
    (status_filter : option TicketStatus) (priority : option TicketPriority)
    (order_by_priority : bool) : list Ticket :=
  let query := filter (in_scope current_user department_id) (all_tickets db) in
  let query := filter (fun t => matches status_filter (t_status t)) query in
  let query := filter (fun t => matches priority (t_priority t)) query in
  if order_by_priority then sort_by higher_priority query
  else sort_by newer_ticket query.

(** [db.query(models.Comment).filter(models.Comment.ticket_id == ticket_id)] *)
Definition comments_of (db : DB) (ticket_id : Z) : list Comment :=
  snd <$> map_to_list (filter (fun kc => c_ticket_id kc.2 = ticket_id) (comments db)).

Definition list_comments (db : DB) (current_user : User) (ticket_id : Z)
    : Result (list Comment) :=
  ticket ← get_or_404 (tickets db) ticket_id "Ticket not found";
  _ ← ensure_ticket_visibility ticket current_user;
  Ok (sort_by older_comment (comments_of db ticket_id)).

Definition internal_get_ticket (db : DB) (ticket_id : Z) : Result Ticket :=
  get_or_404 (tickets db) ticket_id "Ticket not found".



(** ** Registration and start-up

    The salted hash [auth.get_password_hash] returns is an argument of the
    handlers, like a reading of the clock. *)

Record UserCreate := {
  uc_email : string;
  uc_full_name : option string;
  uc_role : RoleEnum;
  uc_department_id : option Z;
  uc_password : string
}.

Definition with_users (m : gmap Z User) (db : DB) : DB :=
  {| departments := departments db; users := m;
     tickets := tickets db; comments := comments db |}.
Definition with_departments (m : gmap Z Department) (db : DB) : DB :=
  {| departments := m; users := users db;
     tickets := tickets db; comments := comments db |}.

(** [not user_in.department_id]: absent, or 0. *)
Definition no_department (d : option Z) : Prop := d = None \/ d = Some 0.

Definition register_user (db : DB) (user_in : UserCreate) (hashed_password : string)
    (created_now : datetime) : Result (DB * User) :=
  match first_user_by_email (uc_email user_in) (users db) with
  | Some _ => bad_request "Email already registered"
  | None =>
      if decide ((uc_role user_in = support \/ uc_role user_in = department)
                 /\ no_department (uc_department_id user_in))
      then bad_request "Department is required for this role"
      else
        let user := {|
          u_id := new_id (users db);
          u_email := uc_email user_in;
          u_full_name := uc_full_name user_in;
          u_hashed_password := hashed_password;
          u_role := uc_role user_in;
          u_department_id := uc_department_id user_in;
          u_is_active := true;
          u_created_at := Some created_now |} in
        Ok (with_users (<[u_id user := user]> (users db)) db, user)
  end.

(** [defaults] of the seeding code. *)
Definition default_departments : list (string * string) :=
  [("Bilgi Islem", "Teknik destek ve altyapi");
   ("Yapi Isleri", "Kampus bakim ve fiziksel sorunlar");
   ("Ogrenci Isleri", "Akademik ve idari islemler")].

(** [{d.name for d in db.query(models.Department).all()}] *)
Definition department_names (db : DB) : list string :=
  (fun kd => d_name kd.2) <$> map_to_list (departments db).

(** [db.add] of a [models.Department] built from one entry of [defaults]. *)
Definition add_department (db : DB) (dep : string * string) : DB :=
  let row := {| d_id := new_id (departments db);
                d_name := dep.1;
                d_description := Some dep.2 |} in
  with_departments (<[d_id row := row]> (departments db)) db.

(** The loop over [defaults]: [existing] is read once, before the loop. *)
Definition seed_defaults (db : DB) : DB :=
  let existing := department_names db in
  foldl (fun db dep => if decide (dep.1 ∈ existing) then db else add_department db dep)
    db default_departments.

(** In the source the body of [seed_departments] is its docstring; the
    seeding code follows the migration block inside
    [run_sqlite_migrations], behind its test of the database URL. The
    ALTER TABLE statements of that block change the schema, not the rows:
    the store of this development has the two columns from the start. *)
Definition seed_departments (db : DB) : DB := db.

Definition run_sqlite_migrations (database_url : string) (db : DB) : DB :=
  if contains "sqlite" database_url then seed_defaults db else db.

Definition agent_email : string := "agent@system.local".

Definition seed_agent_bot (db : DB) (hashed_password : string) (created_now : datetime) : DB :=
  match first_user_by_email agent_email (users db) with
  | Some _ => db
  | None =>
      let bot_user := {|
        u_id := new_id (users db);
        u_email := agent_email;
        u_full_name := Some "Agent Bot";
        u_hashed_password := hashed_password;
        u_role := admin;
        u_department_id := None;
        u_is_active := true;
        u_created_at := Some created_now |} in
      with_users (<[u_id bot_user := bot_user]> (users db)) db
  end.

(** [Base.metadata.create_all] creates missing tables and adds no row. *)
Definition startup_event (database_url : string) (db : DB) (hashed_password : string)
    (created_now : datetime) : DB :=
  let db := run_sqlite_migrations database_url db in
  let db := seed_departments db in
  seed_agent_bot db hashed_password created_now.

(** ** app/dependencies.py *)

Definition get_current_active_user (current_user : User) : Result User :=
  if u_is_active current_user then Ok current_user
  else Raise {| status_code := 400; detail := "Inactive user" |}.

Definition require_roles (roles : list RoleEnum) (current_user : User) : Result User :=
  current_user ← get_current_active_user current_user;
  if decide (u_role current_user ∈ roles) then Ok current_user
  else forbid "Not enough permissions".

Definition HTTP_401_UNAUTHORIZED := 401.

(** [x_internal_secret] is the header, [None] when the request has none. *)
Definition verify_internal_secret (internal_secret : string) (x_internal_secret : option string)
    : Result bool :=
  match x_internal_secret with
  | Some x =>
      if decide (x = "" \/ x <> internal_secret)
      then Raise {| status_code := HTTP_401_UNAUTHORIZED; detail := "Invalid internal secret" |}
      else Ok true
  | None => Raise {| status_code := HTTP_401_UNAUTHORIZED; detail := "Invalid internal secret" |}
  end.

(** ** Invariants of the user table *)

Definition unique_emails (db : DB) : Prop :=
  forall k1 k2 u1 u2, users db !! k1 = Some u1 -> users db !! k2 = Some u2 ->
    u_email u1 = u_email u2 -> k1 = k2.

Definition staff_have_department (db : DB) : Prop :=
  forall k u, users db !! k = Some u -> u_role u = support \/ u_role u = department ->
    exists d, u_department_id u = Some d /\ d <> 0.

(** ** The oracle and the calendar

    What an HTTP call returned is an argument: [None] stands for every
    failure the code catches (time-out, error status, malformed body). *)



Definition calendar_keywords : list string := ["randevu"; "danisman"].
Definition stub_slot : string := "2025-01-10 10:00".

(** [response]: [None] when the call failed, else the ["slots"] field of
    the answer, [None] when the answer has no such field. *)
Definition mock_calendar_flow (lower : string -> string) (calendar_api_base : string)
    (response : option (option (list string))) (description : string) : option string :=
  if negb (any_in calendar_keywords (lower description)) then None
  else if decide (calendar_api_base = "") then Some stub_slot
  else
    match response with
    | Some None => Some stub_slot
    | Some (Some (slot :: _)) => Some slot
    | Some (Some []) => Some stub_slot
    | None => Some stub_slot
    end.



(** ** Login

    [auth.verify_password] and [auth.create_access_token] are library
    calls: the handler takes them as functions, [encode] of the subject
    and the role it puts in the token. *)

Record Token := {
  access_token : string;
  token_type : string
}.

Definition login_for_access_token
    (verify_password : string -> string -> bool)
    (encode : Z -> RoleEnum -> string)
    (db : DB) (username password : string) : Result Token :=
  match first_user_by_email username (users db) with
  | Some user =>
      if verify_password password (u_hashed_password user)
      then Ok {| access_token := encode (u_id user) (u_role user); token_type := "bearer" |}
      else Raise {| status_code := HTTP_401_UNAUTHORIZED;
                    detail := "Incorrect email or password" |}
  | None => Raise {| status_code := HTTP_401_UNAUTHORIZED;
                     detail := "Incorrect email or password" |}
  end.

(** ** The classification step of [process_ticket]

    [s.split(sep)] for a one-character separator. *)
Fixpoint split_on (sep : ascii) (s : string) : list string :=
  match s with
  | EmptyString => [EmptyString]
  | String c s' =>
      if decide (c = sep) then EmptyString :: split_on sep s'
      else match split_on sep s' with
           | p :: ps => String c p :: ps
           | [] => [String c EmptyString]
           end
  end.

Definition comma : ascii := ","%char.

Record Classification := {
  cl_category : string;
  cl_priority : string;
  cl_assigned_unit : string
}.

(** Lines 130-143 of [agent_service/main.py]: [ai_text] is what [call_ai]
    returned; [lower] and [strip] are [str.lower] and [str.strip]. *)
Definition classify (lower strip : string -> string) (ai_text : option string)
    (description : string) : Classification :=
  let fallback := (heuristic_category lower description,
                   heuristic_priority lower description) in
  let '(category, priority) :=
    match ai_text with
    | Some text =>
        if bool_decide (text <> "") && contains "," text then
          let parts := strip <$> split_on comma text in
          (match parts !! 0%nat with
           | Some p => if decide (p = "") then heuristic_category lower description else p
           | None => heuristic_category lower description
           end,
           lower (match parts !! 1%nat with
                  | Some p => p
                  | None => heuristic_priority lower description
                  end))
        else fallback
    | None => fallback
    end in
  {| cl_category := category;
     cl_priority := priority;
     cl_assigned_unit := pick_unit category |}.

(** [sep] does not occur in [s]. *)
Fixpoint free_of (sep : ascii) (s : string) : Prop :=
  match s with
  | EmptyString => True
  | String c s' => c <> sep /\ free_of sep s'
  end.

(** * Properties *)

(** ** Generic facts about the embedding *)

(** Case analysis on the [decide] of the goal, hypotheses left alone. *)
Ltac goal_decide H :=
  match goal with
  | |- context [decide ?P] => destruct (decide P) as [H|H]
  end.

Lemma flush_ticket_cases fl loaded pending :
  flush_ticket fl loaded pending = pending
  \/ (pending <> loaded /\ t_updated_at pending = t_updated_at loaded
      /\ flush_ticket fl loaded pending = set_updated_at (Some fl) pending).
Proof.
  unfold flush_ticket.
  destruct (decide (pending = loaded)) as [|Hne]; [by left|].
  destruct (decide (t_updated_at pending = t_updated_at loaded)); [right; done | by left].
Qed.

Lemma commit_ticket_lookup fl key loaded pending db :
  tickets (commit_ticket fl key loaded pending db) !! key
  = Some (flush_ticket fl loaded pending).
Proof. unfold commit_ticket; simpl. apply lookup_insert_eq. Qed.

Lemma commit_ticket_lookup_ne fl key loaded pending db k :
  k <> key -> tickets (commit_ticket fl key loaded pending db) !! k = tickets db !! k.
Proof. intros Hne. unfold commit_ticket; simpl. by apply lookup_insert_ne. Qed.

Lemma new_id_fresh {A} (m : gmap Z A) : m !! new_id m = None.
Proof.
  unfold new_id. apply not_elem_of_dom. apply is_fresh.
Qed.

Lemma get_or_404_missing {A} (m : gmap Z A) key what :
  m !! key = None ->
  get_or_404 m key what = Raise {| status_code := HTTP_404_NOT_FOUND; detail := what |}.
Proof. intros H. unfold get_or_404. by rewrite H. Qed.

Lemma get_or_404_found {A} (m : gmap Z A) key what row :
  m !! key = Some row -> get_or_404 m key what = Ok row.
Proof. intros H. unfold get_or_404. by rewrite H. Qed.

(** ** C1: a missing ticket and the order of the checks *)

(** C1, as stated, fails: [assign_ticket] tests the actor's role before it
    looks the ticket up, so a student who names a ticket that does not
    exist is answered Forbidden, not NotFound. *)
Lemma missing_ticket_assign_forbidden :
  tickets Example.db !! 7 = None
  /\ Forbidden (assign_ticket Example.db Example.alice 7 2 500 501)
  /\ ~ NotFound (assign_ticket Example.db Example.alice 7 2 500 501).
Proof. split; [reflexivity|]. split; [reflexivity|]. vm_compute. discriminate. Qed.

(** C1, amended: on a ticket identifier that is not in the store, view,
    edit, status change, delete and comment answer NotFound for every
    actor; assign answers NotFound to a department or admin actor and
    Forbidden to a student or support actor, its role gate coming first.
    The report is keyed by a department, not by a ticket: on a department
    that is not in the store it answers Forbidden to an actor who fails
    its role or department gate and NotFound to the others. *)
Theorem missing_ticket_not_found (db : DB) (u : User) (tid : Z) :
  tickets db !! tid = None ->
  NotFound (get_ticket db u tid)
  /\ (forall payload now fl, NotFound (update_ticket db u tid payload now fl))
  /\ (forall st now fl, NotFound (update_ticket_status db u tid st now fl))
  /\ NotFound (delete_ticket db u tid)
  /\ (forall content now now2 fl ins, NotFound (add_comment db u tid content now now2 fl ins))
  /\ (forall sid now fl,
        (u_role u = department \/ u_role u = admin ->
         NotFound (assign_ticket db u tid sid now fl))
        /\ (u_role u = student \/ u_role u = support ->
            Forbidden (assign_ticket db u tid sid now fl)))
  /\ (forall did ws now,
        departments db !! did = None ->
        (u_role u = admin \/ (u_role u = department /\ u_department_id u = Some did) ->
         NotFound (department_report db u did ws now))
        /\ (~ (u_role u = admin \/ (u_role u = department /\ u_department_id u = Some did)) ->
            Forbidden (department_report db u did ws now))).
Proof.
  intros Hnone.
  pose proof (get_or_404_missing (tickets db) tid "Ticket not found" Hnone) as Hget.
  split; [unfold get_ticket; by rewrite Hget|].
  split; [intros; unfold update_ticket; by rewrite Hget|].
  split; [intros; unfold update_ticket_status; by rewrite Hget|].
  split; [unfold delete_ticket; by rewrite Hget|].
  split; [intros; unfold add_comment; by rewrite Hget|].
  split.
  - intros sid now fl. unfold assign_ticket. rewrite Hget. split.
    + intros Hrole. case_decide as Hgate; [|done].
      destruct Hgate as [Hd Ha]. destruct Hrole; contradiction.
    + intros Hrole. case_decide as Hgate; [done|].
      exfalso. apply Hgate. destruct Hrole as [E|E]; rewrite E; split; discriminate.
  - intros did ws now Hdep. unfold department_report.
    rewrite (get_or_404_missing _ _ "Department not found" Hdep). split.
    + intros Hauth. case_decide as Hgate.
      { destruct Hgate as [Hd Ha]. destruct Hauth as [E|[E _]]; contradiction. }
      case_decide as Hown; [|done].
      destruct Hown as [Hd Hne]. destruct Hauth as [E|[_ E]]; [congruence|contradiction].
    + intros Hauth. case_decide as Hgate; [done|].
      case_decide as Hown; [done|].
      exfalso. apply Hauth.
      destruct (decide (u_role u = admin)) as [|Hna]; [by left|right].
      destruct (decide (u_role u = department)) as [Hd|Hnd].
      * split; [done|].
        destruct (decide (u_department_id u = Some did)) as [|Hne]; [done|].
        exfalso. apply Hown. by split.
      * exfalso. apply Hgate. by split.
Qed.

Lemma missing_ticket_not_found_witness :
  NotFound (get_ticket Example.db Example.alice 7)
  /\ NotFound (delete_ticket Example.db Example.bob 7)
  /\ NotFound (assign_ticket Example.db Example.carol 7 2 500 501)
  /\ Forbidden (assign_ticket Example.db Example.bob 7 2 500 501)
  /\ NotFound (department_report Example.db Example.root 9 None 500).
Proof.
  assert (H : tickets Example.db !! 7 = None) by reflexivity.
  pose proof (missing_ticket_not_found Example.db Example.alice 7 H) as Ha.
  pose proof (missing_ticket_not_found Example.db Example.bob 7 H) as Hb.
  pose proof (missing_ticket_not_found Example.db Example.carol 7 H) as Hc.
  pose proof (missing_ticket_not_found Example.db Example.root 7 H) as Hr.
  split; [apply Ha|].
  split; [apply Hb|].
  split; [apply Hc; left; reflexivity|].
  split; [apply Hb; right; reflexivity|].
  destruct Hr as (_ & _ & _ & _ & _ & _ & Hrep).
  apply (Hrep 9 None 500); [reflexivity | left; reflexivity].
Defined.

(** ** C3: who may create a ticket *)

(** C3, as stated, fails: [create_ticket] never compares the target
    department with the actor's. A department user of department 1 and a
    student without a department both create a ticket in department 2. *)
Lemma create_in_other_department :
  u_department_id Example.carol <> Some 2
  /\ u_department_id Example.alice <> Some 2
  /\ succeeds (create_ticket Example.db Example.carol
                 {| tc_title := "Kapi"; tc_description := "kapi kilit"; tc_department_id := 2;
                    tc_priority := medium; tc_category := None; tc_assigned_unit := None |}
                 500 501)
  /\ succeeds (create_ticket Example.db Example.alice
                 {| tc_title := "Kapi"; tc_description := "kapi kilit"; tc_department_id := 2;
                    tc_priority := medium; tc_category := None; tc_assigned_unit := None |}
                 500 501).
Proof. repeat split; discriminate. Qed.

(** C3, amended: a support actor is answered Forbidden; for every other
    role (student, department, admin) creation succeeds exactly when the
    target department exists, whatever the actor's own department, and is
    answered NotFound otherwise. The new ticket is open, carries the target
    department and the actor as creator, and takes an identifier that was
    not in use. *)
Theorem create_ticket_policy (db : DB) (u : User) (ticket_in : TicketCreate)
    (created_now updated_now : datetime) :
  let r := create_ticket db u ticket_in created_now updated_now in
  (u_role u = support -> Forbidden r /\ db_after db r = db)
  /\ (u_role u <> support -> departments db !! tc_department_id ticket_in = None ->
      NotFound r /\ db_after db r = db)
  /\ (u_role u <> support -> is_Some (departments db !! tc_department_id ticket_in) ->
      exists db' t,
        r = Ok (db', t)
        /\ t_department_id t = tc_department_id ticket_in
        /\ t_created_by_id t = u_id u
        /\ t_status t = open
        /\ tickets db !! t_id t = None
        /\ tickets db' !! t_id t = Some t).
Proof.
  intros r. subst r. unfold create_ticket.
  split; [|split].
  - intros Hrole. by case_decide.
  - intros Hrole Hdep. case_decide; [done|].
    by rewrite (get_or_404_missing _ _ _ Hdep).
  - intros Hrole [d Hdep]. case_decide; [done|].
    rewrite (get_or_404_found _ _ _ _ Hdep). simpl.
    eexists _, _. split; [reflexivity|]. simpl.
    repeat split; [apply new_id_fresh | apply lookup_insert_eq].
Qed.

Lemma create_ticket_policy_witness :
  Forbidden (create_ticket Example.db Example.bob
               {| tc_title := "Kapi"; tc_description := "kapi kilit"; tc_department_id := 2;
                  tc_priority := medium; tc_category := None; tc_assigned_unit := None |}
               500 501)
  /\ NotFound (create_ticket Example.db Example.alice
               {| tc_title := "Kapi"; tc_description := "kapi kilit"; tc_department_id := 9;
                  tc_priority := medium; tc_category := None; tc_assigned_unit := None |}
               500 501).
Proof.
  split.
  - apply (create_ticket_policy Example.db Example.bob). reflexivity.
  - apply (create_ticket_policy Example.db Example.alice); [discriminate | reflexivity].
Defined.

(** ** C5: edits of a closed ticket *)

(** C5, as stated, fails: the role and ownership checks of [update_ticket]
    come before the closed-ticket guard, so a support actor who edits a
    closed ticket is answered Forbidden, not InvalidState. *)
Lemma closed_edit_support_forbidden :
  (t_status <$> tickets Example.db !! 2) = Some closed
  /\ Forbidden (update_ticket Example.db Example.bob 2
                  {| tu_title := Some (Some "x"); tu_description := None; tu_priority := None;
                     tu_category := None; tu_assigned_unit := None |} 500 501)
  /\ ~ InvalidState (update_ticket Example.db Example.bob 2
                  {| tu_title := Some (Some "x"); tu_description := None; tu_priority := None;
                     tu_category := None; tu_assigned_unit := None |} 500 501).
Proof.
  split; [reflexivity|]. split; [reflexivity|].
  vm_compute. intros [H _]. discriminate.
Qed.

(** C5, amended: an edit of a closed ticket never succeeds and leaves the
    store as it was, for every actor. An actor who passes the role and
    ownership checks (an admin, the student who created the ticket, a
    department user of the ticket's department) is answered InvalidState:
    admin has no bypass. Every other actor is answered Forbidden. *)
Theorem closed_ticket_edit_rejected (db : DB) (u : User) (tid : Z) (t : Ticket)
    (payload : TicketUpdate) (now fl : datetime) :
  tickets db !! tid = Some t ->
  t_status t = closed ->
  let r := update_ticket db u tid payload now fl in
  ~ succeeds r
  /\ db_after db r = db
  /\ (may_edit u t -> InvalidState r)
  /\ (~ may_edit u t -> Forbidden r).
Proof.
  intros Ht Hclosed r. subst r. unfold update_ticket, may_edit.
  rewrite (get_or_404_found _ _ _ _ Ht). simpl.
  destruct (u_role u) eqn:Hrole; repeat case_decide; simpl;
    repeat split; try done; try (intros; intuition congruence);
    try (intros _; left; reflexivity).
Qed.

Lemma closed_ticket_edit_rejected_witness :
  InvalidState (update_ticket Example.db Example.root 2
                  {| tu_title := Some (Some "x"); tu_description := None; tu_priority := None;
                     tu_category := None; tu_assigned_unit := None |} 500 501).
Proof.
  apply (closed_ticket_edit_rejected Example.db Example.root 2 (Example.ticket 2 closed 1 1));
    [reflexivity | reflexivity | left; reflexivity].
Defined.

(** ** C7 and C10: assignment *)

Lemma assign_ticket_authorized (db : DB) (u : User) (tid : Z) (t : Ticket)
    (sid : Z) (now fl : datetime) :
  tickets db !! tid = Some t ->
  may_assign u t ->
  assign_ticket db u tid sid now fl =
    match users db !! sid with
    | None => bad_request "Support user not found"
    | Some support_user =>
        if decide (u_role support_user <> support) then bad_request "Support user not found"
        else if decide (u_department_id support_user <> Some (t_department_id t))
        then bad_request "Support user is in a different department"
        else
          let pending :=
            set_assigned_at (Some now) (set_assigned_to_id (Some (u_id support_user)) t) in
          Ok (commit_ticket fl tid t pending db, flush_ticket fl t pending)
    end.
Proof.
  intros Ht Hmay. unfold assign_ticket.
  case_decide as Hgate.
  { exfalso. destruct Hgate as [Hd Ha]. destruct Hmay as [E|[E _]]; contradiction. }
  rewrite (get_or_404_found _ _ _ _ Ht). simpl.
  case_decide as Hown; [|done].
  exfalso. destruct Hown as [Hd Hne]. destruct Hmay as [E|[_ E]]; congruence.
Qed.

Lemma assign_ticket_ok_inv (db db' : DB) (u : User) (tid : Z) (t t' : Ticket)
    (sid : Z) (now fl : datetime) :
  tickets db !! tid = Some t ->
  assign_ticket db u tid sid now fl = Ok (db', t') ->
  exists su,
    users db !! sid = Some su
    /\ u_role su = support
    /\ u_department_id su = Some (t_department_id t)
    /\ may_assign u t
    /\ t' = flush_ticket fl t (set_assigned_at (Some now) (set_assigned_to_id (Some (u_id su)) t))
    /\ db' = commit_ticket fl tid t
               (set_assigned_at (Some now) (set_assigned_to_id (Some (u_id su)) t)) db.
Proof.
  intros Ht. unfold assign_ticket.
  case_decide as Hgate; [done|].
  rewrite (get_or_404_found _ _ _ _ Ht). simpl.
  case_decide as Hown; [done|].
  destruct (users db !! sid) as [su|] eqn:Hsu; [|done].
  case_decide as Hrole; [done|].
  case_decide as Hdep; [done|].
  intros [= <- <-]. exists su.
  assert (Hsupport : u_role su = support) by (destruct (decide (u_role su = support)); tauto).
  assert (Hsame : u_department_id su = Some (t_department_id t))
    by (destruct (decide (u_department_id su = Some (t_department_id t))); tauto).
  repeat split; try done.
  unfold may_assign.
  destruct (decide (u_role u = admin)) as [|Hna]; [by left|right].
  destruct (decide (u_role u = department)) as [Hd|Hnd]; [|exfalso; apply Hgate; by split].
  split; [done|].
  destruct (decide (u_department_id u = Some (t_department_id t))) as [|Hne]; [done|].
  exfalso. apply Hown. split; [done|congruence].
Qed.

(** C7: for an assignment request by an actor who passes the authorization
    checks, when the designated assignee is no user at all, a user of
    another role, or a support user of another department, the request is
    answered InvalidAssignment and the store is left as it was; otherwise it
    succeeds, and then the assignee is a support user of the ticket's
    department, [assigned_to_id] names that user and [assigned_at] holds
    the time of the request. *)
Theorem assign_requires_support_of_department (db : DB) (u : User) (tid : Z) (t : Ticket)
    (sid : Z) (now fl : datetime) :
  tickets db !! tid = Some t ->
  may_assign u t ->
  let r := assign_ticket db u tid sid now fl in
  (~ eligible_assignee db t sid -> InvalidAssignment r /\ db_after db r = db)
  /\ (eligible_assignee db t sid ->
      exists db' t' su,
        r = Ok (db', t')
        /\ users db !! sid = Some su
        /\ u_role su = support
        /\ u_department_id su = Some (t_department_id t)
        /\ tickets db' !! tid = Some t'
        /\ t_assigned_to_id t' = Some (u_id su)
        /\ t_assigned_at t' = Some now).
Proof.
  intros Ht Hmay r. subst r.
  rewrite (assign_ticket_authorized db u tid t sid now fl Ht Hmay).
  unfold eligible_assignee. split.
  - intros Hnot. destruct (users db !! sid) as [su|] eqn:Hsu.
    + case_decide as Hrole; [split; [split; [done|by left]|done]|].
      case_decide as Hdep; [split; [split; [done|right; by left]|done]|].
      exfalso. apply Hnot. exists su.
      split; [done|]. split.
      * destruct (decide (u_role su = support)); tauto.
      * destruct (decide (u_department_id su = Some (t_department_id t))); tauto.
    + split; [split; [done|by left]|done].
  - intros (su & Hsu & Hrole & Hdep). rewrite Hsu.
    case_decide; [done|]. case_decide; [done|]. simpl.
    eexists _, _, su. split; [reflexivity|].
    repeat split; try done.
    + apply commit_ticket_lookup.
    + destruct (flush_ticket_cases fl t
        (set_assigned_at (Some now) (set_assigned_to_id (Some (u_id su)) t)))
        as [-> | (_ & _ & ->)]; by destruct t.
    + destruct (flush_ticket_cases fl t
        (set_assigned_at (Some now) (set_assigned_to_id (Some (u_id su)) t)))
        as [-> | (_ & _ & ->)]; by destruct t.
Qed.

Lemma assign_requires_support_of_department_witness :
  InvalidAssignment (assign_ticket Example.db Example.carol 1 5 500 501)
  /\ InvalidAssignment (assign_ticket Example.db Example.root 1 1 500 501)
  /\ succeeds (assign_ticket Example.db Example.carol 1 2 500 501).
Proof.
  assert (Ht : tickets Example.db !! 1 = Some (Example.ticket 1 open 1 1)) by reflexivity.
  assert (Hcarol : may_assign Example.carol (Example.ticket 1 open 1 1))
    by (right; split; reflexivity).
  assert (Hroot : may_assign Example.root (Example.ticket 1 open 1 1))
    by (left; reflexivity).
  split; [|split].
  - apply (assign_requires_support_of_department _ _ _ _ 5 500 501 Ht Hcarol).
    intros (su & Hsu & _ & Hdep). vm_compute in Hsu. injection Hsu as <-. discriminate.
  - apply (assign_requires_support_of_department _ _ _ _ 1 500 501 Ht Hroot).
    intros (su & Hsu & Hrole & _). vm_compute in Hsu. injection Hsu as <-. discriminate.
  - destruct (assign_requires_support_of_department _ _ _ _ 2 500 501 Ht Hcarol)
      as [_ Hok].
    destruct Hok as (db' & t' & su & Hr & _).
    + exists Example.bob. repeat split; reflexivity.
    + rewrite Hr. exact I.
Defined.

Lemma assign_row_stamp (db db' : DB) (u : User) (tid : Z) (t t' : Ticket)
    (sid : Z) (now fl : datetime) :
  tickets db !! tid = Some t ->
  assign_ticket db u tid sid now fl = Ok (db', t') ->
  tickets db' !! tid = Some t'
  /\ (t' = t \/ t_updated_at t' = Some fl)
  /\ (t_assigned_at t <> Some now -> t_updated_at t' = Some fl).
Proof.
  intros Ht Hr.
  destruct (assign_ticket_ok_inv _ _ _ _ _ _ _ _ _ Ht Hr)
    as (su & _ & _ & _ & _ & -> & ->).
  split; [apply commit_ticket_lookup|].
  unfold flush_ticket. case_decide as Hsame.
  - split; [by left|]. intros Hnew. exfalso. apply Hnew.
    rewrite <- Hsame at 1. by destruct t.
  - case_decide as Hup; [split; [right|intros _]; by destruct t|].
    exfalso. apply Hup. by destruct t.
Qed.

(** C10, as stated, fails: [updated_at] is declared with
    [onupdate=datetime.utcnow], so the UPDATE that stores the assignment
    also stamps [updated_at]. *)
Lemma assign_touches_updated_at :
  exists db' t',
    assign_ticket Example.db Example.carol 1 2 500 501 = Ok (db', t')
    /\ tickets db' !! 1 = Some t'
    /\ (t_updated_at <$> tickets Example.db !! 1) = Some (Some 100)
    /\ t_updated_at t' = Some 501.
Proof. eexists _, _. split; [reflexivity|]. repeat split. Qed.

(** C10, amended: a successful assignment changes no column of the ticket
    but [assigned_to_id], [assigned_at] and [updated_at]; every other row
    of the table is left alone. [assigned_at] is not write-once: it holds
    the time of the latest successful assignment, whatever it held before.
    [updated_at] is stamped by the column's onupdate rule whenever the row
    changes. *)
Theorem assign_frame (db db' : DB) (u : User) (tid : Z) (t t' : Ticket)
    (sid : Z) (now fl : datetime) :
  tickets db !! tid = Some t ->
  assign_ticket db u tid sid now fl = Ok (db', t') ->
  tickets db' !! tid = Some t'
  /\ same_but_assignment t t'
  /\ t_assigned_at t' = Some now
  /\ (t' = t \/ t_updated_at t' = Some fl)
  /\ (t_assigned_at t <> Some now -> t_updated_at t' = Some fl)
  /\ (forall k, k <> tid -> tickets db' !! k = tickets db !! k)
  /\ users db' = users db /\ departments db' = departments db /\ comments db' = comments db.
Proof.
  intros Ht Hr.
  destruct (assign_ticket_ok_inv _ _ _ _ _ _ _ _ _ Ht Hr)
    as (su & Hsu & Hrole & Hdep & Hmay & -> & ->).
  split; [apply commit_ticket_lookup|].
  set (pending := set_assigned_at (Some now) (set_assigned_to_id (Some (u_id su)) t)).
  split; [|split; [|split; [|split; [|split]]]].
  - destruct (flush_ticket_cases fl t pending) as [-> | (_ & _ & ->)];
      subst pending; destruct t; by repeat split.
  - destruct (flush_ticket_cases fl t pending) as [-> | (_ & _ & ->)];
      subst pending; by destruct t.
  - eapply assign_row_stamp; [exact Ht | exact Hr].
  - eapply assign_row_stamp; [exact Ht | exact Hr].
  - intros k Hk. by apply commit_ticket_lookup_ne.
  - done.
Qed.

Lemma assign_frame_witness :
  let db1 := handle Example.db (AssignTicket Example.carol 1 2 500 501) in
  (t_assigned_at <$> tickets db1 !! 1) = Some (Some 500)
  /\ exists db2 t2,
       assign_ticket db1 Example.root 1 6 900 901 = Ok (db2, t2)
       /\ t_assigned_at t2 = Some 900.
Proof.
  intros db1. split; [reflexivity|].
  eexists _, _. split; [reflexivity|].
  eapply (assign_frame db1 _ Example.root 1 _ _ 6 900 901); reflexivity.
Defined.

(** ** What a successful handler stored *)

Lemma update_ticket_status_ok_inv (db db' : DB) (u : User) (tid : Z) (t' : Ticket)
    (st : TicketStatus) (now fl : datetime) :
  update_ticket_status db u tid st now fl = Ok (db', t') ->
  exists t,
    tickets db !! tid = Some t
    /\ t' = flush_ticket fl t (stamp_status st now t)
    /\ db' = commit_ticket fl tid t (stamp_status st now t) db.
Proof.
  unfold update_ticket_status, get_or_404.
  destruct (tickets db !! tid) as [t|]; [|done]. simpl.
  destruct (u_role u); repeat case_decide; simpl; try done;
    intros [= <- <-]; by exists t.
Qed.

Lemma update_ticket_ok_inv (db db' : DB) (u : User) (tid : Z) (t' : Ticket)
    (payload : TicketUpdate) (now fl : datetime) :
  update_ticket db u tid payload now fl = Ok (db', t') ->
  exists t,
    tickets db !! tid = Some t
    /\ t_status t <> closed
    /\ ((no_updates payload = true /\ t' = t /\ db' = db)
        \/ (no_updates payload = false
            /\ t' = flush_ticket fl t (set_updated_at (Some now) (apply_updates payload t))
            /\ db' = commit_ticket fl tid t
                       (set_updated_at (Some now) (apply_updates payload t)) db)).
Proof.
  unfold update_ticket, get_or_404.
  destruct (tickets db !! tid) as [t|]; [|done]. simpl.
  repeat (case_decide; [done|]).
  destruct (no_updates payload) eqn:Hno.
  - intros [= <- <-]. exists t. split; [done|]. split; [done|]. by left.
  - destruct (violates_not_null payload); [done|].
    intros [= <- <-]. exists t. split; [done|]. split; [done|]. by right.
Qed.

(** The row [add_comment] hands to the commit. *)
Lemma add_comment_ok_inv (db db' : DB) (u : User) (tid : Z) (c : Comment)
    (content : string) (now now2 fl ins : datetime) :
  add_comment db u tid content now now2 fl ins = Ok (db', c) ->
  exists t pending,
    tickets db !! tid = Some t
    /\ pending = (if decide (u_role u = support /\ t_first_response_at t = None)
                  then set_first_response_at (Some now2) (set_updated_at (Some now) t)
                  else set_updated_at (Some now) t)
    /\ tickets db' = tickets (commit_ticket fl tid t pending db).
Proof.
  unfold add_comment, get_or_404.
  destruct (tickets db !! tid) as [t|]; [|done]. simpl.
  destruct (ensure_ticket_visibility t u); [|done]. simpl.
  intros [= <- <-]. eexists t, _. split; [done|]. split; [reflexivity|].
  simpl. do 2 f_equal.
  destruct t; simpl. by repeat case_decide.
Qed.

Lemma internal_agent_update_ok_inv (db db' : DB) (tid : Z) (t' : Ticket)
    (payload : AgentUpdate) (now fl ins : datetime) :
  internal_agent_update db tid payload now fl ins = Ok (db', t') ->
  exists t pending,
    tickets db !! tid = Some t
    /\ pending = set_updated_at (Some now)
                   (setattr set_assigned_unit (au_assigned_unit payload)
                      (setattr set_category (au_category payload)
                         (setattr set_priority (mjoin (au_priority payload)) t)))
    /\ t' = flush_ticket fl t pending
    /\ tickets db' = tickets (commit_ticket fl tid t pending db).
Proof.
  unfold internal_agent_update, get_or_404.
  destruct (tickets db !! tid) as [t|]; [|done]. simpl.
  intros [= <- <-]. eexists t, _. split; [done|]. split; [reflexivity|].
  split; [done|].
  destruct (au_message payload); [|done].
  destruct (first_user_by_email _ _); [|done].
  by case_decide.
Qed.

(** Projections of the rows the handlers build. *)

Lemma flush_ticket_frame fl loaded pending :
  let t' := flush_ticket fl loaded pending in
  t_status t' = t_status pending
  /\ t_first_response_at t' = t_first_response_at pending
  /\ t_resolved_at t' = t_resolved_at pending
  /\ t_closed_at t' = t_closed_at pending
  /\ t_assigned_at t' = t_assigned_at pending
  /\ t_assigned_to_id t' = t_assigned_to_id pending
  /\ (t_updated_at t' = t_updated_at pending \/ t_updated_at t' = Some fl).
Proof.
  destruct (flush_ticket_cases fl loaded pending) as [E | (_ & _ & E)];
    simpl; rewrite E.
  - repeat split; by left.
  - destruct pending; simpl. repeat split; by right.
Qed.

Lemma stamp_status_fields st now t :
  let t' := stamp_status st now t in
  t_status t' = st
  /\ t_updated_at t' = Some now
  /\ t_first_response_at t' =
       (if decide (st = in_progress /\ t_first_response_at t = None)
        then Some now else t_first_response_at t)
  /\ t_resolved_at t' =
       (if decide ((st = resolved \/ st = closed) /\ t_resolved_at t = None)
        then Some now else t_resolved_at t)
  /\ t_closed_at t' = (if decide (st = closed) then Some now else t_closed_at t)
  /\ t_assigned_at t' = t_assigned_at t
  /\ t_assigned_to_id t' = t_assigned_to_id t.
Proof.
  destruct t as [i ti de ca au pr s dp cb ato cr up fr rs cl asg].
  unfold stamp_status; simpl.
  destruct st, fr, rs; simpl; repeat split; repeat case_decide; simpl; try done;
    exfalso; intuition congruence.
Qed.

Lemma apply_updates_frame payload t :
  let t' := apply_updates payload t in
  t_status t' = t_status t
  /\ t_updated_at t' = t_updated_at t
  /\ t_first_response_at t' = t_first_response_at t
  /\ t_resolved_at t' = t_resolved_at t
  /\ t_closed_at t' = t_closed_at t
  /\ t_assigned_at t' = t_assigned_at t.
Proof.
  destruct t, payload as [ti de pr ca au]. unfold apply_updates, setattr; simpl.
  destruct ti as [[?|]|], de as [[?|]|], pr as [[?|]|], ca, au; simpl; by repeat split.
Qed.

Lemma agent_pending_frame payload t :
  let t' := setattr set_assigned_unit (au_assigned_unit payload)
              (setattr set_category (au_category payload)
                 (setattr set_priority (mjoin (au_priority payload)) t)) in
  t_status t' = t_status t
  /\ t_updated_at t' = t_updated_at t
  /\ t_first_response_at t' = t_first_response_at t.
Proof.
  destruct t, payload as [pr ca au msg]. unfold setattr; simpl.
  destruct pr as [[?|]|], ca, au; simpl; by repeat split.
Qed.

Lemma set_updated_at_fields v t :
  t_updated_at (set_updated_at v t) = v
  /\ t_status (set_updated_at v t) = t_status t
  /\ t_first_response_at (set_updated_at v t) = t_first_response_at t.
Proof. by destruct t. Qed.

(** What one request can do to a row that was in the table and still is:
    nothing, or replace it by the flushed row [pending] the handler built.
    The handler either leaves [updated_at] alone or sets it to a reading of
    its clock, and it keeps a [first_response_at] that was set. *)
Lemma handle_row (db : DB) (r : Request) (k : Z) (t t' : Ticket) :
  tickets db !! k = Some t ->
  tickets (handle db r) !! k = Some t' ->
  t' = t
  \/ exists fl pending,
       In fl (clock_readings r)
       /\ t' = flush_ticket fl t pending
       /\ (t_updated_at pending = t_updated_at t
           \/ exists n, In n (clock_readings r) /\ t_updated_at pending = Some n)
       /\ (forall x, t_first_response_at t = Some x -> t_first_response_at pending = Some x).
Proof.
  intros Ht.
  destruct r as [u tin c1 c2 | u tid payload now fl | u tid sid now fl
                | u tid st now fl | u tid | u tid content now now2 fl ins
                | tid payload now fl ins]; simpl.
  - (* create_ticket *)
    unfold create_ticket. case_decide; [simpl; left; congruence|].
    destruct (get_or_404 _ _ _); simpl; [|left; congruence].
    intros Hk. left.
    rewrite lookup_insert_ne in Hk; [congruence|].
    intros E. rewrite <- E in Ht. rewrite new_id_fresh in Ht. done.
  - (* update_ticket *)
    destruct (update_ticket db u tid payload now fl) as [[db' res]|e] eqn:E; simpl;
      [|left; congruence].
    destruct (update_ticket_ok_inv _ _ _ _ _ _ _ _ E)
      as (t0 & Ht0 & _ & [(_ & _ & ->) | (_ & _ & ->)]); [left; congruence|].
    destruct (decide (k = tid)) as [->|Hne].
    + rewrite commit_ticket_lookup. intros [= <-]. right.
      assert (t0 = t) as -> by congruence.
      exists fl, (set_updated_at (Some now) (apply_updates payload t)).
      destruct (apply_updates_frame payload t) as (_ & _ & Hfr & _).
      destruct (set_updated_at_fields (Some now) (apply_updates payload t)) as (Hu & _ & Hf).
      split; [simpl; tauto|]. split; [done|]. split.
      * right. exists now. split; [simpl; tauto|done].
      * intros x Hx. by rewrite Hf, Hfr.
    + rewrite commit_ticket_lookup_ne by done. left; congruence.
  - (* assign_ticket *)
    destruct (assign_ticket db u tid sid now fl) as [[db' res]|e] eqn:E; simpl;
      [|left; congruence].
    destruct (decide (k = tid)) as [->|Hne].
    + destruct (assign_ticket_ok_inv _ _ _ _ _ _ _ _ _ Ht E)
        as (su & _ & _ & _ & _ & -> & ->).
      rewrite commit_ticket_lookup. intros [= <-]. right.
      eexists fl, _. split; [simpl; tauto|]. split; [reflexivity|].
      split; [left; by destruct t|]. intros x Hx. by destruct t.
    + revert E. unfold assign_ticket, get_or_404.
      case_decide; [done|].
      destruct (tickets db !! tid) as [t0|] eqn:Ht0; [|done]. simpl.
      case_decide; [done|].
      destruct (users db !! sid); [|done].
      repeat (case_decide; [done|]).
      intros [= <- <-]. rewrite commit_ticket_lookup_ne by done. left; congruence.
  - (* update_ticket_status *)
    destruct (update_ticket_status db u tid st now fl) as [[db' res]|e] eqn:E; simpl;
      [|left; congruence].
    destruct (update_ticket_status_ok_inv _ _ _ _ _ _ _ _ E) as (t0 & Ht0 & -> & ->).
    destruct (decide (k = tid)) as [->|Hne].
    + rewrite commit_ticket_lookup. intros [= <-]. right.
      assert (t0 = t) as -> by congruence.
      exists fl, (stamp_status st now t).
      destruct (stamp_status_fields st now t) as (_ & Hu & Hf & _).
      split; [simpl; tauto|]. split; [done|]. split.
      * right. exists now. split; [simpl; tauto|done].
      * intros x Hx. rewrite Hf, Hx.
        clear Hf. case_decide as Hc; [|done]. destruct Hc; congruence.
    + rewrite commit_ticket_lookup_ne by done. left; congruence.
  - (* delete_ticket *)
    unfold delete_ticket, get_or_404.
    destruct (tickets db !! tid) as [t0|] eqn:Ht0; simpl; [|left; congruence].
    case_decide; simpl; [|left; congruence].
    destruct (decide (k = tid)) as [->|Hne].
    + by rewrite lookup_delete_eq.
    + rewrite lookup_delete_ne by done. left; congruence.
  - (* add_comment *)
    destruct (add_comment db u tid content now now2 fl ins) as [[db' res]|e] eqn:E; simpl;
      [|left; congruence].
    destruct (add_comment_ok_inv _ _ _ _ _ _ _ _ _ _ E) as (t0 & pending & Ht0 & Hp & ->).
    destruct (decide (k = tid)) as [->|Hne].
    + rewrite commit_ticket_lookup. intros [= <-]. right.
      assert (t0 = t) as -> by congruence.
      exists fl, pending. split; [simpl; tauto|]. split; [done|]. split.
      * right. exists now. split; [simpl; tauto|].
        subst pending. case_decide; by destruct t.
      * intros x Hx. subst pending. case_decide as Hc; [|by destruct t].
        destruct Hc; congruence.
    + rewrite commit_ticket_lookup_ne by done. left; congruence.
  - (* internal_agent_update *)
    destruct (internal_agent_update db tid payload now fl ins) as [[db' res]|e] eqn:E; simpl;
      [|left; congruence].
    destruct (internal_agent_update_ok_inv _ _ _ _ _ _ _ _ E)
      as (t0 & pending & Ht0 & Hp & -> & ->).
    destruct (decide (k = tid)) as [->|Hne].
    + rewrite commit_ticket_lookup. intros [= <-]. right.
      assert (t0 = t) as -> by congruence.
      exists fl, pending. split; [simpl; tauto|]. split; [done|].
      destruct (agent_pending_frame payload t) as (_ & _ & Hfr).
      subst pending.
      match goal with |- context [set_updated_at ?v ?p] =>
        destruct (set_updated_at_fields v p) as (Hu & _ & Hf) end.
      split.
      * right. exists now. split; [simpl; tauto|done].
      * intros x Hx. by rewrite Hf, Hfr.
    + rewrite commit_ticket_lookup_ne by done. left; congruence.
Qed.

(** ** C2: every mutation stamps [updated_at] *)

Lemma changed_row_is_stamped (db : DB) (r : Request) (k : Z) (t t' : Ticket) :
  tickets db !! k = Some t ->
  tickets (handle db r) !! k = Some t' ->
  t' <> t ->
  exists n, In n (clock_readings r) /\ t_updated_at t' = Some n.
Proof.
  intros Ht Ht' Hne.
  destruct (handle_row db r k t t' Ht Ht') as [|(fl & pending & Hfl & -> & Hup & _)];
    [done|].
  unfold flush_ticket in *.
  case_decide as Hsame; [done|].
  case_decide as Hkeep.
  - exists fl. split; [done|]. by destruct pending.
  - destruct Hup as [|(n & Hn & Hup)]; [done|]. by exists n.
Qed.

(** C2: a request that changes a ticket row leaves in [updated_at] a
    reading of the clock made while the request ran. For an edit with at
    least one field, a status change, a comment and an agent update the
    handler writes the field itself, whether or not anything else
    changes; for an assignment the onupdate rule of the column writes it
    when the row is stored, which happens as soon as the time of the
    request is not the [assigned_at] already in the row. *)
Theorem mutation_sets_updated_at (db : DB) (tid : Z) (t : Ticket) :
  tickets db !! tid = Some t ->
  (forall r t', tickets (handle db r) !! tid = Some t' -> t' <> t ->
     exists n, In n (clock_readings r) /\ t_updated_at t' = Some n)
  /\ (forall u payload now fl db' t',
        update_ticket db u tid payload now fl = Ok (db', t') ->
        no_updates payload = false ->
        tickets db' !! tid = Some t'
        /\ (t_updated_at t' = Some now \/ t_updated_at t' = Some fl))
  /\ (forall u st now fl db' t',
        update_ticket_status db u tid st now fl = Ok (db', t') ->
        tickets db' !! tid = Some t'
        /\ (t_updated_at t' = Some now \/ t_updated_at t' = Some fl))
  /\ (forall u sid now fl db' t',
        assign_ticket db u tid sid now fl = Ok (db', t') ->
        tickets db' !! tid = Some t'
        /\ (t' = t \/ t_updated_at t' = Some fl)
        /\ (t_assigned_at t <> Some now -> t_updated_at t' = Some fl))
  /\ (forall u content now now2 fl ins db' c,
        add_comment db u tid content now now2 fl ins = Ok (db', c) ->
        exists t', tickets db' !! tid = Some t'
                   /\ (t_updated_at t' = Some now \/ t_updated_at t' = Some fl))
  /\ (forall payload now fl ins db' t',
        internal_agent_update db tid payload now fl ins = Ok (db', t') ->
        tickets db' !! tid = Some t'
        /\ (t_updated_at t' = Some now \/ t_updated_at t' = Some fl)).
Proof.
  intros Ht.
  split; [intros r t'; by apply changed_row_is_stamped|].
  split; [|split; [|split; [|split]]].
  - intros u payload now fl db' t' E Hno.
    destruct (update_ticket_ok_inv _ _ _ _ _ _ _ _ E)
      as (t0 & _ & _ & [(Hno' & _) | (_ & -> & ->)]); [congruence|].
    split; [apply commit_ticket_lookup|].
    match goal with |- context [flush_ticket fl ?l ?p] =>
      destruct (flush_ticket_frame fl l p) as (_ & _ & _ & _ & _ & _ & [Hu|Hu]);
      rewrite Hu; [left|by right] end.
    by destruct (apply_updates payload t0).
  - intros u st now fl db' t' E.
    destruct (update_ticket_status_ok_inv _ _ _ _ _ _ _ _ E) as (t0 & _ & -> & ->).
    split; [apply commit_ticket_lookup|].
    destruct (flush_ticket_frame fl t0 (stamp_status st now t0))
      as (_ & _ & _ & _ & _ & _ & [Hu|Hu]); rewrite Hu; [left|by right].
    apply stamp_status_fields.
  - intros u sid now fl db' t' E.
    by apply (assign_row_stamp _ _ _ _ _ _ _ _ _ Ht E).
  - intros u content now now2 fl ins db' c E.
    destruct (add_comment_ok_inv _ _ _ _ _ _ _ _ _ _ E) as (t0 & pending & _ & Hp & ->).
    eexists. split; [apply commit_ticket_lookup|].
    destruct (flush_ticket_frame fl t0 pending)
      as (_ & _ & _ & _ & _ & _ & [Hu|Hu]); rewrite Hu; [left|by right].
    subst pending. case_decide; by destruct t0.
  - intros payload now fl ins db' t' E.
    destruct (internal_agent_update_ok_inv _ _ _ _ _ _ _ _ E)
      as (t0 & pending & _ & Hp & -> & ->).
    split; [apply commit_ticket_lookup|].
    destruct (flush_ticket_frame fl t0 pending)
      as (_ & _ & _ & _ & _ & _ & [Hu|Hu]); rewrite Hu; [left|by right].
    subst pending. apply set_updated_at_fields.
Qed.

Lemma mutation_sets_updated_at_witness :
  (exists t',
     tickets (handle Example.db (AssignTicket Example.carol 1 2 500 501)) !! 1 = Some t'
     /\ exists n, In n [500; 501] /\ t_updated_at t' = Some n)
  /\ (exists db' t',
        update_ticket_status Example.db Example.root 1 in_progress 500 501 = Ok (db', t')
        /\ (t_updated_at t' = Some 500 \/ t_updated_at t' = Some 501)).
Proof.
  pose proof (mutation_sets_updated_at Example.db 1 (Example.ticket 1 open 1 1) eq_refl)
    as (Hany & _ & Hstatus & _).
  split.
  - eexists. split; [reflexivity|].
    apply (Hany (AssignTicket Example.carol 1 2 500 501)); [reflexivity | discriminate].
  - eexists _, _. split; [reflexivity|].
    eapply (Hstatus Example.root in_progress 500 501). reflexivity.
Defined.

(** ** C4: [resolved_at] and [closed_at] on a status change *)

(** C4: after a status change the ticket has the requested status;
    [resolved_at] receives the time of the request when the new status is
    resolved or closed and the field was null, and keeps its value in
    every other case; [closed_at] receives the time of the request every
    time the new status is closed, whatever it held, and is left alone by
    the other transitions. *)
Theorem status_stamps_resolved_and_closed (db db' : DB) (u : User) (tid : Z)
    (t t' : Ticket) (st : TicketStatus) (now fl : datetime) :
  tickets db !! tid = Some t ->
  update_ticket_status db u tid st now fl = Ok (db', t') ->
  tickets db' !! tid = Some t'
  /\ t_status t' = st
  /\ (st = resolved \/ st = closed -> t_resolved_at t = None -> t_resolved_at t' = Some now)
  /\ (forall r, t_resolved_at t = Some r -> t_resolved_at t' = Some r)
  /\ (st = open \/ st = in_progress -> t_resolved_at t' = t_resolved_at t)
  /\ (st = closed -> t_closed_at t' = Some now)
  /\ (st <> closed -> t_closed_at t' = t_closed_at t).
Proof.
  intros Ht E.
  destruct (update_ticket_status_ok_inv _ _ _ _ _ _ _ _ E) as (t0 & Ht0 & -> & ->).
  assert (t0 = t) as -> by congruence.
  split; [apply commit_ticket_lookup|].
  destruct (flush_ticket_frame fl t (stamp_status st now t))
    as (Hs & _ & Hr & Hc & _).
  destruct (stamp_status_fields st now t) as (Hs' & _ & _ & Hr' & Hc' & _).
  rewrite Hs, Hr, Hc, Hs', Hr', Hc'. clear.
  split; [done|].
  split; [intros Hst Hnull; rewrite decide_True; done|].
  split; [intros r Hset; rewrite decide_False; [done|intros [_ ?]; congruence]|].
  split; [intros Hst; rewrite decide_False; [done|]; intros [[?|?] _];
          destruct Hst; congruence|].
  split; [intros ->; by rewrite decide_True|].
  intros Hst. by rewrite decide_False.
Qed.

Lemma status_stamps_resolved_and_closed_witness :
  let db1 := handle Example.db (UpdateTicketStatus Example.root 1 closed 500 501) in
  (t_closed_at <$> tickets db1 !! 1) = Some (Some 500)
  /\ (t_resolved_at <$> tickets db1 !! 1) = Some (Some 500)
  /\ exists db2 t2,
       update_ticket_status db1 Example.carol 1 closed 900 901 = Ok (db2, t2)
       /\ t_resolved_at t2 = Some 500
       /\ t_closed_at t2 = Some 900.
Proof.
  intros db1. split; [reflexivity|]. split; [reflexivity|].
  eexists _, _. split; [reflexivity|].
  destruct (status_stamps_resolved_and_closed db1 _ Example.carol 1 _ _ closed 900 901
              eq_refl eq_refl) as (_ & _ & _ & Hkeep & _ & Hclose & _).
  split; [apply Hkeep; reflexivity | apply Hclose; reflexivity].
Defined.

(** ** C6: [first_response_at] is write-once *)

Lemma first_response_at_kept (db : DB) (r : Request) (k : Z) (t t' : Ticket) (x : datetime) :
  tickets db !! k = Some t ->
  t_first_response_at t = Some x ->
  tickets (handle db r) !! k = Some t' ->
  t_first_response_at t' = Some x.
Proof.
  intros Ht Hx Ht'.
  destruct (handle_row db r k t t' Ht Ht') as [->|(fl & pending & _ & -> & _ & Hkeep)];
    [done|].
  destruct (flush_ticket_frame fl t pending) as (_ & -> & _).
  by apply Hkeep.
Qed.

Lemma status_first_response (db db' : DB) (u : User) (tid : Z) (t t' : Ticket)
    (st : TicketStatus) (now fl : datetime) :
  tickets db !! tid = Some t ->
  update_ticket_status db u tid st now fl = Ok (db', t') ->
  tickets db' !! tid = Some t'
  /\ t_first_response_at t' =
       (if decide (st = in_progress /\ t_first_response_at t = None)
        then Some now else t_first_response_at t).
Proof.
  intros Ht E.
  destruct (update_ticket_status_ok_inv _ _ _ _ _ _ _ _ E) as (t0 & Ht0 & -> & ->).
  assert (t0 = t) as -> by congruence.
  split; [apply commit_ticket_lookup|].
  destruct (flush_ticket_frame fl t (stamp_status st now t)) as (_ & -> & _).
  apply stamp_status_fields.
Qed.

(** C6: a status change to in_progress writes the time of the request to
    [first_response_at] when the field is null, and no other status change
    touches the field; of two changes to in_progress in a row the second
    leaves the field as the first left it; a comment by a support user
    writes the field when it is null and leaves the status alone, a comment
    by anyone else leaves the field alone; and no request of any kind
    changes a [first_response_at] that is set. *)
Theorem first_response_at_write_once :
  (forall db db' u tid t t' st now fl,
     tickets db !! tid = Some t ->
     update_ticket_status db u tid st now fl = Ok (db', t') ->
     (st = in_progress -> t_first_response_at t = None -> t_first_response_at t' = Some now)
     /\ (st <> in_progress -> t_first_response_at t' = t_first_response_at t))
  /\ (forall db db1 db2 u1 u2 tid t1 t2 now1 fl1 now2 fl2,
        update_ticket_status db u1 tid in_progress now1 fl1 = Ok (db1, t1) ->
        update_ticket_status db1 u2 tid in_progress now2 fl2 = Ok (db2, t2) ->
        is_Some (t_first_response_at t1)
        /\ t_first_response_at t2 = t_first_response_at t1)
  /\ (forall db db' u tid t content now now2 fl ins c,
        tickets db !! tid = Some t ->
        add_comment db u tid content now now2 fl ins = Ok (db', c) ->
        exists t',
          tickets db' !! tid = Some t'
          /\ t_status t' = t_status t
          /\ (u_role u = support -> t_first_response_at t = None ->
              t_first_response_at t' = Some now2)
          /\ (u_role u <> support -> t_first_response_at t' = t_first_response_at t))
  /\ (forall db r k t t' x,
        tickets db !! k = Some t ->
        t_first_response_at t = Some x ->
        tickets (handle db r) !! k = Some t' ->
        t_first_response_at t' = Some x).
Proof.
  split; [|split; [|split]].
  - intros db db' u tid t t' st now fl Ht E.
    destruct (status_first_response _ _ _ _ _ _ _ _ _ Ht E) as (_ & ->).
    split.
    + intros Hst Hnull. by rewrite decide_True.
    + intros Hst. rewrite decide_False; [done|]. by intros [? _].
  - intros db db1 db2 u1 u2 tid t1 t2 now1 fl1 now2 fl2 E1 E2.
    destruct (update_ticket_status_ok_inv _ _ _ _ _ _ _ _ E1) as (t0 & Ht0 & _ & _).
    destruct (status_first_response _ _ _ _ _ _ _ _ _ Ht0 E1) as (Ht1 & Hf1).
    destruct (status_first_response _ _ _ _ _ _ _ _ _ Ht1 E2) as (_ & Hf2).
    assert (Hsome : is_Some (t_first_response_at t1)).
    { rewrite Hf1. goal_decide Hc; [by eexists|].
      destruct (t_first_response_at t0); [by eexists|]. exfalso. by apply Hc. }
    split; [done|].
    rewrite Hf2. rewrite decide_False; [done|].
    intros [_ Hnull]. rewrite Hnull in Hsome. by destruct Hsome.
  - intros db db' u tid t content now now2 fl ins c Ht E.
    destruct (add_comment_ok_inv _ _ _ _ _ _ _ _ _ _ E) as (t0 & pending & Ht0 & Hp & Hdb).
    assert (t0 = t) as -> by congruence.
    exists (flush_ticket fl t pending).
    split; [rewrite Hdb; apply commit_ticket_lookup|].
    destruct (flush_ticket_frame fl t pending) as (-> & -> & _).
    subst pending. split; [|split].
    + case_decide; by destruct t.
    + intros Hrole Hnull. rewrite decide_True by done. by destruct t.
    + intros Hrole. rewrite decide_False; [by destruct t|]. by intros [? _].
  - intros db r k t t' x. apply first_response_at_kept.
Qed.

Lemma first_response_at_write_once_witness :
  let db1 := handle Example.db (UpdateTicketStatus Example.root 1 in_progress 500 501) in
  (t_first_response_at <$> tickets db1 !! 1) = Some (Some 500)
  /\ (exists db2 t2,
        update_ticket_status db1 Example.carol 1 in_progress 900 901 = Ok (db2, t2)
        /\ t_first_response_at t2 = Some 500)
  /\ (exists db2 c t2,
        add_comment Example.db Example.bob 1 "bakiyorum" 700 701 702 703 = Ok (db2, c)
        /\ tickets db2 !! 1 = Some t2
        /\ t_status t2 = open
        /\ t_first_response_at t2 = Some 701).
Proof.
  intros db1.
  destruct first_response_at_write_once as (Hstatus & Htwice & Hcomment & Hkept).
  split; [reflexivity|]. split.
  - eexists _, _. split; [reflexivity|].
    eapply (Hkept db1 (UpdateTicketStatus Example.carol 1 in_progress 900 901) 1);
      reflexivity.
  - destruct (Hcomment Example.db
                (handle Example.db (AddComment Example.bob 1 "bakiyorum" 700 701 702 703))
                Example.bob 1 (Example.ticket 1 open 1 1) "bakiyorum" 700 701 702 703
                {| c_id := new_id (comments Example.db); c_ticket_id := 1; c_author_id := 2;
                   c_content := "bakiyorum"; c_created_at := Some 703 |}
                eq_refl eq_refl)
      as (t2 & Ht2 & Hst & Hset & _).
    eexists _, _, t2. split; [reflexivity|].
    split; [exact Ht2|]. split; [exact Hst|].
    apply Hset; reflexivity.
Defined.

(** ** C9: the report without samples *)

Lemma elem_of_tickets_assigned_to (db : DB) (sid : Z) (t : Ticket) :
  t ∈ tickets_assigned_to db sid
  <-> exists k, tickets db !! k = Some t /\ t_assigned_to_id t = Some sid.
Proof.
  unfold tickets_assigned_to. rewrite list_elem_of_fmap. split.
  - intros ([k t0] & -> & Hin). apply elem_of_map_to_list in Hin.
    apply map_lookup_filter_Some in Hin as [Hk Hp]. by exists k.
  - intros (k & Hk & Hp). exists (k, t). split; [done|].
    apply elem_of_map_to_list. by apply map_lookup_filter_Some.
Qed.

Lemma omap_all_none {A B} (f : A -> option B) (l : list A) :
  (forall x, x ∈ l -> f x = None) -> omap f l = [].
Proof.
  intros Hall. apply elem_of_nil_inv. intros y Hy.
  apply list_elem_of_omap in Hy as (x & Hx & Hfx).
  rewrite (Hall x Hx) in Hfx. discriminate.
Qed.

Lemma omap_nil_all_none {A B} (f : A -> option B) (l : list A) :
  omap f l = [] -> forall x, x ∈ l -> f x = None.
Proof.
  intros Hnil x Hx. destruct (f x) as [y|] eqn:Hfx; [|done].
  assert (Hy : y ∈ omap f l) by (apply list_elem_of_omap; eauto).
  rewrite Hnil in Hy. by apply not_elem_of_nil in Hy.
Qed.

Lemma response_time_none (t : Ticket) :
  response_time t = None <-> t_first_response_at t = None \/ start_point t = None.
Proof.
  unfold response_time.
  destruct (t_first_response_at t), (start_point t); split; intros; try done;
    by intuition.
Qed.

Lemma resolution_time_none (t : Ticket) :
  resolution_time t = None <-> t_resolved_at t = None \/ start_point t = None.
Proof.
  unfold resolution_time.
  destruct (t_resolved_at t), (start_point t); split; intros; try done;
    by intuition.
Qed.

Lemma average_none (xs : list Q) : average xs = None <-> xs = [].
Proof. by destruct xs. Qed.
Lemma minimum_none (xs : list Q) : minimum xs = None <-> xs = [].
Proof. by destruct xs. Qed.
Lemma maximum_none (xs : list Q) : maximum xs = None <-> xs = [].
Proof. by destruct xs. Qed.

Lemma support_report_average (db : DB) (sd we : date) (su : User) :
  average_response_minutes (support_report db sd we su) = None
  <-> no_response_sample db (u_id su).
Proof.
  unfold support_report, no_response_sample; simpl. rewrite average_none. split.
  - intros Hnil k t Hk Ha. apply response_time_none.
    apply (omap_nil_all_none _ _ Hnil). apply elem_of_tickets_assigned_to. eauto.
  - intros Hall. apply omap_all_none. intros t Ht.
    apply elem_of_tickets_assigned_to in Ht as (k & Hk & Ha).
    apply response_time_none. eauto.
Qed.

Lemma support_report_extremes (db : DB) (sd we : date) (su : User) :
  (fastest_resolution_minutes (support_report db sd we su) = None
   <-> no_resolution_sample db (u_id su))
  /\ (slowest_resolution_minutes (support_report db sd we su) = None
      <-> no_resolution_sample db (u_id su)).
Proof.
  unfold support_report, no_resolution_sample; simpl.
  rewrite minimum_none, maximum_none.
  assert (Hiff : omap resolution_time (tickets_assigned_to db (u_id su)) = []
                 <-> (forall k t, tickets db !! k = Some t ->
                        t_assigned_to_id t = Some (u_id su) ->
                        t_resolved_at t = None \/ start_point t = None)).
  { split.
    - intros Hnil k t Hk Ha. apply resolution_time_none.
      apply (omap_nil_all_none _ _ Hnil). apply elem_of_tickets_assigned_to. eauto.
    - intros Hall. apply omap_all_none. intros t Ht.
      apply elem_of_tickets_assigned_to in Ht as (k & Hk & Ha).
      apply resolution_time_none. eauto. }
  by split.
Qed.

Lemma support_report_empty (db : DB) (sd we : date) (su : User) :
  no_assigned_ticket db (u_id su) ->
  closed_this_week (support_report db sd we su) = 0%nat
  /\ open_assigned (support_report db sd we su) = 0%nat.
Proof.
  intros Hnone.
  assert (Hnil : tickets_assigned_to db (u_id su) = []).
  { apply elem_of_nil_inv. intros t Ht.
    apply elem_of_tickets_assigned_to in Ht as (k & Hk & Ha). by apply (Hnone k t). }
  unfold support_report; simpl. by rewrite Hnil.
Qed.

(** C9: for an actor who may see the report of an existing department the
    report is returned, with one entry per support user of the department.
    In an entry the average response time is null exactly when no ticket
    assigned to that user has both a first response and a start point, and
    the fastest and slowest resolution times are null exactly when no such
    ticket has both a resolution time and a start point: null, not zero and
    not an error. For a support user with no assigned ticket at all both
    counters are zero and the three fields are null. *)
Theorem report_null_without_samples (db : DB) (u : User) (did : Z)
    (ws : option date) (now : datetime) :
  may_report u did ->
  is_Some (departments db !! did) ->
  exists rep,
    department_report db u did ws now = Ok rep
    /\ department_id rep = did
    /\ (forall su, su ∈ support_users_of db did ->
          exists sr, sr ∈ supports rep /\ support_user_id sr = u_id su)
    /\ (forall sr, sr ∈ supports rep ->
          (average_response_minutes sr = None
           <-> no_response_sample db (support_user_id sr))
          /\ (fastest_resolution_minutes sr = None
              <-> no_resolution_sample db (support_user_id sr))
          /\ (slowest_resolution_minutes sr = None
              <-> no_resolution_sample db (support_user_id sr))
          /\ (no_assigned_ticket db (support_user_id sr) ->
              closed_this_week sr = 0%nat /\ open_assigned sr = 0%nat
              /\ average_response_minutes sr = None
              /\ fastest_resolution_minutes sr = None
              /\ slowest_resolution_minutes sr = None)).
Proof.
  intros Hmay [d Hd]. unfold department_report.
  rewrite decide_False.
  2:{ intros [Hnd Hna]. destruct Hmay as [E|[E _]]; contradiction. }
  rewrite decide_False.
  2:{ intros [Hdp Hne]. destruct Hmay as [E|[_ E]]; [congruence|contradiction]. }
  rewrite (get_or_404_found _ _ _ _ Hd). simpl.
  eexists. split; [reflexivity|]. simpl. split; [done|]. split.
  - intros su Hsu. eexists. split; [apply list_elem_of_fmap_2, Hsu|done].
  - intros sr Hsr. apply list_elem_of_fmap in Hsr as (su & -> & Hsu).
    change (support_user_id (support_report db _ _ su)) with (u_id su).
    split; [apply support_report_average|].
    split; [apply support_report_extremes|].
    split; [apply support_report_extremes|].
    intros Hnone.
    destruct (support_report_empty db
                (match ws with Some d0 => d0 | None => date_of now - 7 end)
                (match ws with Some d0 => d0 | None => date_of now - 7 end + 7)
                su Hnone) as (Hc & Ho).
    split; [done|]. split; [done|].
    split; [apply support_report_average|
            split; apply support_report_extremes];
      intros k t Hk Ha; by destruct (Hnone k t Hk).
Qed.

Lemma report_null_without_samples_witness :
  exists rep,
    department_report Example.db Example.carol 1 None 864000000000 = Ok rep
    /\ department_id rep = 1
    /\ week_start rep = 3
    /\ List.length (supports rep) = 2%nat.
Proof.
  destruct (report_null_without_samples Example.db Example.carol 1 None 864000000000)
    as (rep & Hrep & Hid & _).
  - right. split; reflexivity.
  - by eexists.
  - exists rep. split; [exact Hrep|]. split; [exact Hid|].
    vm_compute in Hrep. injection Hrep as <-. split; reflexivity.
Defined.

(** With a sample the fields are set: ticket 1 is assigned to [bob] at
    time 500 and answered by him at time 701, then resolved at 900. *)
Example report_with_sample :
  let db1 := handle Example.db (AssignTicket Example.carol 1 2 500 501) in
  let db2 := handle db1 (AddComment Example.bob 1 "bakiyorum" 700 701 702 703) in
  let db3 := handle db2 (UpdateTicketStatus Example.bob 1 resolved 900 901) in
  exists rep sr q,
    department_report db3 Example.carol 1 (Some 0) 1000 = Ok rep
    /\ sr ∈ supports rep
    /\ support_user_id sr = 2
    /\ closed_this_week sr = 1%nat
    /\ average_response_minutes sr = Some q
    /\ Qeq q (Qmake 201 60000000)
    /\ fastest_resolution_minutes sr = Some (Qmake 400 60000000).
Proof.
  intros db1 db2 db3.
  eexists _, _, _. split; [vm_compute; reflexivity|].
  split; [apply list_elem_of_further, list_elem_of_here|].
  do 3 (split; [reflexivity|]).
  split; [vm_compute; reflexivity | reflexivity].
Qed.

(** ** C8: the keyword fallback *)

Lemma append_cons (c : ascii) (s1 s2 : string) :
  String c s1 +:+ s2 = String c (s1 +:+ s2).
Proof. reflexivity. Qed.

Lemma append_nil (s : string) : "" +:+ s = s.
Proof. reflexivity. Qed.

Lemma prefix_spec (k s : string) :
  String.prefix k s = true <-> exists post, s = k +:+ post.
Proof.
  revert s. induction k as [|a k IH]; intros s.
  - split; [intros _; by exists s | intros _; by destruct s].
  - destruct s as [|b s]; simpl.
    + split; [done | intros [post Hp]; rewrite append_cons in Hp; discriminate].
    + destruct (ascii_dec a b) as [->|Hne].
      * rewrite IH. split; intros [post Hp]; exists post;
          rewrite append_cons in *; congruence.
      * split; [done | intros [post Hp]; rewrite append_cons in Hp; congruence].
Qed.

Lemma contains_spec (k s : string) : contains k s = true <-> occurs k s.
Proof.
  unfold occurs. induction s as [|c s IH]; cbn [contains].
  - destruct (String.prefix k "") eqn:Hp.
    + split; [intros _|done]. apply prefix_spec in Hp as [post Hp]. by exists "", post.
    + split; [done|]. intros (pre & post & Heq).
      destruct pre; [|rewrite append_cons in Heq; discriminate].
      rewrite append_nil in Heq.
      assert (String.prefix k "" = true) by (apply prefix_spec; eauto). congruence.
  - destruct (String.prefix k (String c s)) eqn:Hp.
    + split; [intros _|done]. apply prefix_spec in Hp as [post Hp]. by exists "", post.
    + rewrite IH. split.
      * intros (pre & post & ->). by exists (String c pre), post.
      * intros (pre & post & Heq). destruct pre as [|c' pre].
        -- rewrite append_nil in Heq.
           assert (String.prefix k (String c s) = true) by (apply prefix_spec; eauto).
           congruence.
        -- rewrite append_cons in Heq. injection Heq as -> ->. by exists pre, post.
Qed.

Lemma any_in_spec (keys : list string) (s : string) :
  any_in keys s = true <-> keyword_occurs keys s.
Proof.
  unfold any_in, keyword_occurs. rewrite existsb_exists.
  split; intros (k & Hk & Hc); exists k; (split; [done|]); by apply contains_spec.
Qed.

Lemma any_in_false (keys : list string) (s : string) :
  any_in keys s = false <-> ~ keyword_occurs keys s.
Proof.
  rewrite <- any_in_spec. by destruct (any_in keys s).
Qed.

(** C8: the fallback is a function of the description alone, defined on
    every text. Its priority is high exactly when an urgency keyword occurs
    in the lowercased text, medium exactly when none does and a delay
    keyword occurs, and low exactly when neither kind occurs; the agent's
    [heuristic_priority] returns the name of that same priority, one of
    low, medium and high; the category and the routing unit are never
    empty, and the two services compute the same category. Two texts with
    the same lowercased form get the same answers. *)
Theorem keyword_fallback_total (lower : string -> string) (text : string) :
  let lowered := lower text in
  (simple_priority_guess lower text = high <-> keyword_occurs urgency_keywords lowered)
  /\ (simple_priority_guess lower text = medium
      <-> ~ keyword_occurs urgency_keywords lowered
          /\ keyword_occurs delay_keywords lowered)
  /\ (simple_priority_guess lower text = low
      <-> ~ keyword_occurs urgency_keywords lowered
          /\ ~ keyword_occurs delay_keywords lowered)
  /\ heuristic_priority lower text = priority_value (simple_priority_guess lower text)
  /\ In (heuristic_priority lower text) ["low"; "medium"; "high"]
  /\ simple_category_guess lower text <> ""
  /\ heuristic_category lower text = simple_category_guess lower text
  /\ pick_unit (heuristic_category lower text) <> ""
  /\ (forall text', lower text' = lower text ->
        simple_priority_guess lower text' = simple_priority_guess lower text
        /\ simple_category_guess lower text' = simple_category_guess lower text
        /\ heuristic_priority lower text' = heuristic_priority lower text
        /\ heuristic_category lower text' = heuristic_category lower text).
Proof.
  intros lowered.
  unfold simple_priority_guess, heuristic_priority, simple_category_guess,
    heuristic_category.
  fold lowered.
  pose proof (any_in_spec urgency_keywords lowered) as Hu.
  pose proof (any_in_spec delay_keywords lowered) as Hd.
  pose proof (any_in_false urgency_keywords lowered) as Hu'.
  pose proof (any_in_false delay_keywords lowered) as Hd'.
  split; [|split; [|split; [|split; [|split; [|split; [|split; [|split]]]]]]].
  - destruct (any_in urgency_keywords lowered); [by intuition|].
    destruct (any_in delay_keywords lowered); split; intros H; try done;
      apply Hu in H; discriminate.
  - destruct (any_in urgency_keywords lowered).
    + split; [done|]. intros [Hn _]. apply Hu' in Hn. discriminate.
    + destruct (any_in delay_keywords lowered).
      * split; [intros _|done]. split; [by apply Hu' | by apply Hd].
      * split; [done|]. intros [_ H]. apply Hd in H. discriminate.
  - destruct (any_in urgency_keywords lowered).
    + split; [done|]. intros [Hn _]. apply Hu' in Hn. discriminate.
    + destruct (any_in delay_keywords lowered).
      * split; [done|]. intros [_ Hn]. apply Hd' in Hn. discriminate.
      * split; [intros _|done]. split; [by apply Hu' | by apply Hd'].
  - by destruct (any_in urgency_keywords lowered), (any_in delay_keywords lowered).
  - destruct (any_in urgency_keywords lowered), (any_in delay_keywords lowered);
      simpl; tauto.
  - by destruct (any_in internet_keywords lowered), (any_in hardware_keywords lowered),
      (any_in student_keywords lowered).
  - done.
  - by destruct (any_in internet_keywords lowered), (any_in hardware_keywords lowered),
      (any_in student_keywords lowered).
  - intros text' Heq. subst lowered. by rewrite Heq.
Qed.

(** The scenario of the specification and the description of the test
    suite: an urgency keyword and a network keyword. *)
Example wifi_kopuyor :
  simple_priority_guess ascii_lower "wifi kopuyor" = high
  /\ simple_category_guess ascii_lower "wifi kopuyor" = "Internet"
  /\ heuristic_priority ascii_lower "WiFi KOPUYOR yurt" = "high"
  /\ pick_unit (heuristic_category ascii_lower "WiFi KOPUYOR yurt") = "Network"
  /\ simple_priority_guess ascii_lower "internet cok yavas" = medium
  /\ simple_priority_guess ascii_lower "transkript istiyorum" = low.
Proof. repeat split. Qed.

(** * Further properties of the handlers *)

(** ** Visibility *)

Lemma ensure_ticket_visibility_ok (t : Ticket) (u : User) :
  ensure_ticket_visibility t u = Ok tt <-> can_view u t.
Proof.
  unfold ensure_ticket_visibility, can_view.
  repeat case_decide; split; intros Hx; try done; try tauto.
Qed.

Lemma ensure_ticket_visibility_cases (t : Ticket) (u : User) :
  ensure_ticket_visibility t u = Ok tt
  \/ ensure_ticket_visibility t u = forbid "You cannot view this ticket".
Proof. unfold ensure_ticket_visibility. repeat case_decide; tauto. Qed.

(** X1: who can read a ticket. A student reads a ticket exactly when it
    exists and the student created it; a support or department user reads
    it exactly when it exists and they created it or it belongs to their
    department; an admin reads every ticket that exists. The answer is the
    stored row; a ticket that exists but is out of reach is answered
    Forbidden. *)
Theorem get_ticket_visibility (db : DB) (u : User) (tid : Z) :
  (forall t, get_ticket db u tid = Ok t <-> tickets db !! tid = Some t /\ can_view u t)
  /\ (forall t, tickets db !! tid = Some t -> ~ can_view u t -> Forbidden (get_ticket db u tid))
  /\ (u_role u = student ->
      (succeeds (get_ticket db u tid)
       <-> exists t, tickets db !! tid = Some t /\ t_created_by_id t = u_id u))
  /\ (u_role u = support \/ u_role u = department ->
      (succeeds (get_ticket db u tid)
       <-> exists t, tickets db !! tid = Some t
                     /\ (t_created_by_id t = u_id u
                         \/ u_department_id u = Some (t_department_id t))))
  /\ (u_role u = admin ->
      (succeeds (get_ticket db u tid) <-> is_Some (tickets db !! tid))).
Proof.
  assert (Hchar : forall t, get_ticket db u tid = Ok t
                            <-> tickets db !! tid = Some t /\ can_view u t).
  { intros t. unfold get_ticket, get_or_404.
    destruct (tickets db !! tid) as [t0|] eqn:Ht0; simpl.
    - pose proof (ensure_ticket_visibility_ok t0 u) as Hv.
      destruct (ensure_ticket_visibility_cases t0 u) as [E|E]; rewrite E in *; simpl.
      + split; [intros [= ->]; split; [done|by apply Hv] | intros [[= ->] _]; done].
      + split; [done|]. intros [[= ->] Hc]. apply Hv in Hc. discriminate.
    - split; [done | intros [? _]; done]. }
  assert (Hsucc : succeeds (get_ticket db u tid)
                  <-> exists t, tickets db !! tid = Some t /\ can_view u t).
  { split.
    - destruct (get_ticket db u tid) as [t|e] eqn:E; [|done].
      intros _. exists t. by apply Hchar.
    - intros (t & Ht). apply Hchar in Ht. by rewrite Ht. }
  split; [exact Hchar|]. split.
  - intros t Ht Hno. unfold get_ticket. rewrite (get_or_404_found _ _ _ _ Ht). simpl.
    destruct (ensure_ticket_visibility_cases t u) as [E|E]; rewrite E; simpl; [|done].
    apply ensure_ticket_visibility_ok in E. contradiction.
  - unfold can_view in Hsucc. split; [|split]; intros Hrole; rewrite Hsucc.
    + split; intros (t & Ht & Hc); exists t; (split; [done|]).
      * destruct Hc as [?|[?|[[?|?] _]]]; congruence.
      * by right; left.
    + split; intros (t & Ht & Hc); exists t; (split; [done|]).
      * destruct Hc as [?|[?|[_ ?]]]; [destruct Hrole; congruence|by left|by right].
      * destruct Hc as [?|?]; [by right; left|].
        right; right. split; [destruct Hrole; tauto|done].
    + split; [intros (t & Ht & _); by eexists|].
      intros [t Ht]. exists t. split; [done|by left].
Qed.

Lemma get_ticket_visibility_witness :
  succeeds (get_ticket Example.db Example.alice 1)
  /\ Forbidden (get_ticket Example.db Example.dave 1).
Proof.
  destruct (get_ticket_visibility Example.db Example.alice 1) as (_ & _ & Hs & _).
  destruct (get_ticket_visibility Example.db Example.dave 1) as (_ & Hf & _).
  split.
  - apply Hs; [reflexivity|]. eexists. split; reflexivity.
  - apply (Hf (Example.ticket 1 open 1 1)); [reflexivity|].
    intros [H|[H|[_ H]]]; discriminate.
Defined.

(** X2: commenting is open to exactly the users who can read the ticket:
    [add_comment] succeeds when and only when [get_ticket] does, and fails
    with the same status code. *)
Theorem comment_iff_view (db : DB) (u : User) (tid : Z) (content : string)
    (now now2 fl ins : datetime) :
  (succeeds (add_comment db u tid content now now2 fl ins) <-> succeeds (get_ticket db u tid))
  /\ (forall code, raises code (add_comment db u tid content now now2 fl ins)
                   <-> raises code (get_ticket db u tid)).
Proof.
  unfold add_comment, get_ticket, get_or_404.
  destruct (tickets db !! tid) as [t|]; simpl; [|done].
  destruct (ensure_ticket_visibility_cases t u) as [E|E]; rewrite E; simpl; done.
Qed.

(** ** Authorization of status changes, deletions and edits *)

Lemma update_ticket_status_found (db : DB) (u : User) (tid : Z) (t : Ticket)
    (st : TicketStatus) (now fl : datetime) :
  tickets db !! tid = Some t ->
  (may_change_status u t ->
   update_ticket_status db u tid st now fl
   = Ok (commit_ticket fl tid t (stamp_status st now t) db,
         flush_ticket fl t (stamp_status st now t)))
  /\ (~ may_change_status u t -> Forbidden (update_ticket_status db u tid st now fl)).
Proof.
  intros Ht. unfold update_ticket_status, may_change_status.
  rewrite (get_or_404_found _ _ _ _ Ht). simpl.
  destruct (u_role u) eqn:Hrole; simpl.
  - split; [intros [?|[[? _]|[? _]]]; discriminate | done].
  - case_decide as Ha; simpl.
    + split; [intros [?|[[_ ?]|[? _]]]; try discriminate; contradiction | done].
    + split; [done|]. intros Hno. exfalso. apply Hno. right; left. split; [done|].
      destruct (decide (t_assigned_to_id t = Some (u_id u))); [done|]. tauto.
  - case_decide as Hd; simpl.
    + split; [intros [?|[[? _]|[_ ?]]]; try discriminate; congruence | done].
    + split; [done|]. intros Hno. exfalso. apply Hno. right; right. split; [done|].
      destruct (decide (u_department_id u = Some (t_department_id t))) as [|Hne];
        [done|]. exfalso. apply Hne. symmetry. tauto.
  - split; [done|]. intros Hno. exfalso. apply Hno. by left.
Qed.

(** X3: who can change a status. The request succeeds exactly when the
    ticket exists and the actor is an admin, the support user the ticket is
    assigned to, or a department user of the ticket's department; every
    status can then be set from every status. A student is always
    refused, and so is a support user the ticket is not assigned to; a
    refused request leaves the store as it was. *)
Theorem status_change_authorization (db : DB) (u : User) (tid : Z)
    (st : TicketStatus) (now fl : datetime) :
  let r := update_ticket_status db u tid st now fl in
  (succeeds r <-> exists t, tickets db !! tid = Some t /\ may_change_status u t)
  /\ (forall t, tickets db !! tid = Some t -> ~ may_change_status u t ->
        Forbidden r /\ db_after db r = db)
  /\ (u_role u = student -> ~ succeeds r)
  /\ (forall t, u_role u = support -> tickets db !! tid = Some t ->
        t_assigned_to_id t <> Some (u_id u) -> Forbidden r).
Proof.
  intros r. subst r.
  assert (Hf : forall t, tickets db !! tid = Some t -> ~ may_change_status u t ->
                 Forbidden (update_ticket_status db u tid st now fl)
                 /\ db_after db (update_ticket_status db u tid st now fl) = db).
  { intros t Ht Hno.
    destruct (update_ticket_status_found db u tid t st now fl Ht) as [_ Hforb].
    specialize (Hforb Hno).
    destruct (update_ticket_status db u tid st now fl); [done|]. by split. }
  assert (Hs : succeeds (update_ticket_status db u tid st now fl)
               <-> exists t, tickets db !! tid = Some t /\ may_change_status u t).
  { split.
    - destruct (update_ticket_status db u tid st now fl) as [[db' t']|e] eqn:E; [|done].
      intros _.
      destruct (update_ticket_status_ok_inv _ _ _ _ _ _ _ _ E) as (t & Ht & _).
      exists t. split; [done|].
      destruct (update_ticket_status_found db u tid t st now fl Ht) as [_ Hforb].
      unfold may_change_status.
      destruct (decide (u_role u = admin)); [by left|].
      destruct (decide (u_role u = support /\ t_assigned_to_id t = Some (u_id u)));
        [by right; left|].
      destruct (decide (u_role u = department
                        /\ u_department_id u = Some (t_department_id t)));
        [by right; right|].
      exfalso. rewrite E in Hforb. apply Hforb. unfold may_change_status. tauto.
    - intros (t & Ht & Hmay).
      destruct (update_ticket_status_found db u tid t st now fl Ht) as [Hok _].
      by rewrite (Hok Hmay). }
  split; [exact Hs|]. split; [exact Hf|]. split.
  - intros Hrole Hsucc. apply Hs in Hsucc as (t & _ & [?|[[? _]|[? _]]]); congruence.
  - intros t Hrole Ht Hne. apply (Hf t Ht).
    intros [?|[[_ ?]|[? _]]]; congruence.
Qed.

Lemma status_change_authorization_witness :
  Forbidden (update_ticket_status Example.db Example.bob 1 in_progress 500 501)
  /\ succeeds (update_ticket_status Example.db Example.carol 2 open 500 501).
Proof.
  split.
  - apply (status_change_authorization Example.db Example.bob 1 in_progress 500 501)
      with (t := Example.ticket 1 open 1 1); [reflexivity | reflexivity | discriminate].
  - apply (status_change_authorization Example.db Example.carol 2 open 500 501).
    exists (Example.ticket 2 closed 1 1). split; [reflexivity|].
    right; right. split; reflexivity.
Defined.

(** X4: who can delete, and what a deletion removes. The request succeeds
    exactly when the ticket exists and the actor is an admin, a department
    user of the ticket's department, or the student who created the ticket
    while it is still open. It removes the ticket and the comments of that
    ticket, and nothing else: every other ticket, every comment of another
    ticket, the users and the departments stay as they were. *)
Theorem delete_ticket_effect (db : DB) (u : User) (tid : Z) :
  let r := delete_ticket db u tid in
  (succeeds r <-> exists t, tickets db !! tid = Some t /\ may_delete u t)
  /\ (forall t, tickets db !! tid = Some t -> ~ may_delete u t ->
        Forbidden r /\ db_after db r = db)
  /\ (succeeds r ->
      let db' := db_after db r in
      tickets db' !! tid = None
      /\ (forall k, k <> tid -> tickets db' !! k = tickets db !! k)
      /\ (forall k c, comments db' !! k = Some c
                      <-> comments db !! k = Some c /\ c_ticket_id c <> tid)
      /\ users db' = users db
      /\ departments db' = departments db).
Proof.
  intros r. subst r. unfold delete_ticket, get_or_404, may_delete.
  destruct (tickets db !! tid) as [t|] eqn:Ht; simpl.
  - case_decide as Hmay; simpl.
    + split; [split; [intros _; exists t; split; [done|]|done]|].
      { destruct Hmay as [?|[[? Hd]|?]]; [by left| |by right; right].
        right; left. split; [done|congruence]. }
      split.
      { intros t0 [= <-] Hno. exfalso. apply Hno.
        destruct Hmay as [?|[[? Hd]|?]]; [by left| |by right; right].
        right; left. split; [done|congruence]. }
      intros _. split; [apply lookup_delete_eq|].
      split; [intros k Hk; by apply lookup_delete_ne|].
      split; [|done].
      intros k c. by rewrite map_lookup_filter_Some.
    + split.
      { split; [done|]. intros (t0 & [= <-] & Hm). exfalso. apply Hmay.
        destruct Hm as [?|[[? Hd]|?]]; [by left| |by right; right].
        right; left. split; [done|congruence]. }
      split; [intros t0 _ _; by split | done].
  - split; [split; [done | intros (t0 & ? & _); done]|].
    split; [intros t0 ?; done | done].
Qed.

Lemma delete_ticket_effect_witness :
  tickets (db_after Example.db (delete_ticket Example.db Example.alice 1)) !! 1 = None
  /\ Forbidden (delete_ticket Example.db Example.alice 2).
Proof.
  destruct (delete_ticket_effect Example.db Example.alice 1) as (_ & _ & Heff).
  destruct (delete_ticket_effect Example.db Example.alice 2) as (_ & Hforb & _).
  split.
  - apply Heff. reflexivity.
  - apply (Hforb (Example.ticket 2 closed 1 1)); [reflexivity|].
    intros [H|[[H _]|(_ & _ & H)]]; discriminate.
Defined.

Lemma may_edit_gates (u : User) (t : Ticket) :
  may_edit u t
  <-> ~ (u_role u = support)
      /\ ~ (u_role u = student /\ t_created_by_id t <> u_id u)
      /\ ~ (u_role u = department /\ Some (t_department_id t) <> u_department_id u).
Proof.
  unfold may_edit. split.
  - intros [E|[[E Ho]|[E Hd]]]; rewrite E; repeat split; try (intros [? ?]); try done;
      congruence.
  - intros (Hs & Hst & Hd). destruct (u_role u) eqn:Hrole.
    + right; left. split; [done|].
      destruct (decide (t_created_by_id t = u_id u)); [done|]. exfalso. by apply Hst.
    + done.
    + right; right. split; [done|].
      destruct (decide (u_department_id u = Some (t_department_id t))) as [|Hne]; [done|].
      exfalso. apply Hd. split; [done|congruence].
    + by left.
Qed.

Lemma update_ticket_found (db : DB) (u : User) (tid : Z) (t : Ticket)
    (payload : TicketUpdate) (now fl : datetime) :
  tickets db !! tid = Some t ->
  may_edit u t ->
  t_status t <> closed ->
  update_ticket db u tid payload now fl =
    if no_updates payload then Ok (db, t)
    else if violates_not_null payload then internal_server_error
    else Ok (commit_ticket fl tid t (set_updated_at (Some now) (apply_updates payload t)) db,
             flush_ticket fl t (set_updated_at (Some now) (apply_updates payload t))).
Proof.
  intros Ht Hmay Hopen. apply may_edit_gates in Hmay as (Hs & Hst & Hd).
  unfold update_ticket. rewrite (get_or_404_found _ _ _ _ Ht). simpl.
  rewrite (decide_False _ _ Hs), (decide_False _ _ Hst), (decide_False _ _ Hd),
    (decide_False _ _ Hopen). done.
Qed.

(** X5: who can edit, and the two edge bodies. An edit succeeds exactly
    when the ticket exists, is not closed, the actor is an admin, the
    student who created it or a department user of its department, and the
    body sets none of title, description and priority to null. A body that
    sets no field at all is answered with the stored row and changes
    nothing, not even [updated_at]; a body with a null title, description
    or priority is answered 500 and changes nothing. *)
Theorem edit_authorization (db : DB) (u : User) (tid : Z)
    (payload : TicketUpdate) (now fl : datetime) :
  let r := update_ticket db u tid payload now fl in
  (succeeds r
   <-> exists t, tickets db !! tid = Some t /\ may_edit u t /\ t_status t <> closed
                 /\ (no_updates payload = true \/ violates_not_null payload = false))
  /\ (forall t, tickets db !! tid = Some t -> may_edit u t -> t_status t <> closed ->
        (no_updates payload = true -> r = Ok (db, t))
        /\ (no_updates payload = false -> violates_not_null payload = true ->
            raises HTTP_500_INTERNAL_SERVER_ERROR r /\ db_after db r = db))
  /\ (forall t, tickets db !! tid = Some t -> ~ may_edit u t ->
        Forbidden r /\ db_after db r = db).
Proof.
  intros r. subst r. split; [|split].
  - split.
    + destruct (update_ticket db u tid payload now fl) as [[db' t']|e] eqn:E; [|done].
      intros _. revert E. unfold update_ticket, get_or_404.
      destruct (tickets db !! tid) as [t|] eqn:Ht; [|done]. simpl.
      case_decide as Hs; [done|]. case_decide as Hst; [done|].
      case_decide as Hd; [done|]. case_decide as Hc; [done|].
      intros E. exists t. split; [done|].
      split; [apply may_edit_gates; tauto|]. split; [done|].
      destruct (no_updates payload); [by left|].
      destruct (violates_not_null payload); [done|by right].
    + intros (t & Ht & Hmay & Hopen & Hbody).
      rewrite (update_ticket_found db u tid t payload now fl Ht Hmay Hopen).
      destruct (no_updates payload); [done|].
      destruct Hbody as [?|Hnn]; [done|by rewrite Hnn].
  - intros t Ht Hmay Hopen.
    rewrite (update_ticket_found db u tid t payload now fl Ht Hmay Hopen).
    split; [intros Hno; by rewrite Hno | intros Hno Hnull; by rewrite Hno, Hnull].
  - intros t Ht Hno. unfold update_ticket.
    rewrite (get_or_404_found _ _ _ _ Ht). simpl.
    case_decide as Hs; [done|]. case_decide as Hst; [done|].
    case_decide as Hd; [done|].
    exfalso. apply Hno. apply may_edit_gates. tauto.
Qed.

Lemma edit_authorization_witness :
  raises HTTP_500_INTERNAL_SERVER_ERROR
    (update_ticket Example.db Example.alice 1
       {| tu_title := Some None; tu_description := None; tu_priority := None;
          tu_category := None; tu_assigned_unit := None |} 500 501)
  /\ Forbidden
       (update_ticket Example.db Example.dave 1
          {| tu_title := Some (Some "x"); tu_description := None; tu_priority := None;
             tu_category := None; tu_assigned_unit := None |} 500 501).
Proof.
  split.
  - eapply (edit_authorization Example.db Example.alice 1 _ 500 501);
      [reflexivity | right; left; split; reflexivity | discriminate
      | reflexivity | reflexivity].
  - eapply (edit_authorization Example.db Example.dave 1 _ 500 501);
      [reflexivity|].
    intros [H|[[H _]|[H _]]]; discriminate.
Defined.

Lemma apply_updates_fields (payload : TicketUpdate) (t : Ticket) :
  let t' := apply_updates payload t in
  t_title t' = default (t_title t) (mjoin (tu_title payload))
  /\ t_description t' = default (t_description t) (mjoin (tu_description payload))
  /\ t_priority t' = default (t_priority t) (mjoin (tu_priority payload))
  /\ t_category t' = default (t_category t) (tu_category payload)
  /\ t_assigned_unit t' = default (t_assigned_unit t) (tu_assigned_unit payload)
  /\ t_id t' = t_id t /\ t_status t' = t_status t
  /\ t_department_id t' = t_department_id t /\ t_created_by_id t' = t_created_by_id t
  /\ t_assigned_to_id t' = t_assigned_to_id t /\ t_created_at t' = t_created_at t
  /\ t_first_response_at t' = t_first_response_at t
  /\ t_resolved_at t' = t_resolved_at t /\ t_closed_at t' = t_closed_at t
  /\ t_assigned_at t' = t_assigned_at t.
Proof.
  destruct t, payload as [ti de pr ca au]. unfold apply_updates, setattr; simpl.
  destruct ti as [[?|]|], de as [[?|]|], pr as [[?|]|], ca, au; simpl; by repeat split.
Qed.

Lemma flush_ticket_same_but_updated_at fl loaded pending :
  let t' := flush_ticket fl loaded pending in
  t_id t' = t_id pending /\ t_title t' = t_title pending
  /\ t_description t' = t_description pending /\ t_category t' = t_category pending
  /\ t_assigned_unit t' = t_assigned_unit pending /\ t_priority t' = t_priority pending
  /\ t_department_id t' = t_department_id pending
  /\ t_created_by_id t' = t_created_by_id pending
  /\ t_created_at t' = t_created_at pending.
Proof.
  destruct (flush_ticket_cases fl loaded pending) as [E | (_ & _ & E)];
    simpl; rewrite E; [done|]. by destruct pending.
Qed.

(** X6: what an edit writes. After a successful edit the stored row holds,
    for each of title, description, priority, category and assigned unit,
    the value of the body when the body sets the field and the old value
    otherwise (category and assigned unit can be set to null). The status,
    the department, the creator, the assignee, [created_at] and the four
    event timestamps are never changed by an edit. *)
Theorem edit_effect (db db' : DB) (u : User) (tid : Z) (t t' : Ticket)
    (payload : TicketUpdate) (now fl : datetime) :
  tickets db !! tid = Some t ->
  update_ticket db u tid payload now fl = Ok (db', t') ->
  tickets db' !! tid = Some t'
  /\ t_title t' = default (t_title t) (mjoin (tu_title payload))
  /\ t_description t' = default (t_description t) (mjoin (tu_description payload))
  /\ t_priority t' = default (t_priority t) (mjoin (tu_priority payload))
  /\ t_category t' = default (t_category t) (tu_category payload)
  /\ t_assigned_unit t' = default (t_assigned_unit t) (tu_assigned_unit payload)
  /\ t_id t' = t_id t /\ t_status t' = t_status t
  /\ t_department_id t' = t_department_id t /\ t_created_by_id t' = t_created_by_id t
  /\ t_assigned_to_id t' = t_assigned_to_id t /\ t_created_at t' = t_created_at t
  /\ t_first_response_at t' = t_first_response_at t
  /\ t_resolved_at t' = t_resolved_at t /\ t_closed_at t' = t_closed_at t
  /\ t_assigned_at t' = t_assigned_at t.
Proof.
  intros Ht E.
  destruct (update_ticket_ok_inv _ _ _ _ _ _ _ _ E)
    as (t0 & Ht0 & _ & [(Hno & -> & ->) | (Hno & -> & ->)]);
    assert (t0 = t) as -> by congruence.
  - split; [done|].
    destruct payload as [[|] [|] [|] [|] [|]]; try discriminate. simpl. by repeat split.
  - split; [apply commit_ticket_lookup|].
    set (pending := set_updated_at (Some now) (apply_updates payload t)).
    destruct (flush_ticket_same_but_updated_at fl t pending)
      as (-> & -> & -> & -> & -> & -> & -> & -> & ->).
    destruct (flush_ticket_frame fl t pending) as (-> & -> & -> & -> & -> & -> & _).
    subst pending.
    destruct (apply_updates_fields payload t)
      as (H1 & H2 & H3 & H4 & H5 & H6 & H7 & H8 & H9 & H10 & H11 & H12 & H13 & H14 & H15).
    destruct (apply_updates payload t); simpl in *. by repeat split.
Qed.

Lemma edit_effect_witness :
  exists db' t',
    update_ticket Example.db Example.alice 1
      {| tu_title := Some (Some "Yurt WiFi"); tu_description := None; tu_priority := None;
         tu_category := Some None; tu_assigned_unit := None |} 500 501 = Ok (db', t')
    /\ t_title t' = "Yurt WiFi"
    /\ t_status t' = open.
Proof.
  eexists _, _. split; [reflexivity|].
  destruct (edit_effect Example.db _ Example.alice 1 (Example.ticket 1 open 1 1) _
              {| tu_title := Some (Some "Yurt WiFi"); tu_description := None;
                 tu_priority := None; tu_category := Some None;
                 tu_assigned_unit := None |} 500 501 eq_refl eq_refl)
    as (_ & Hti & _ & _ & _ & _ & _ & Hst & _).
  split; [exact Hti | exact Hst].
Defined.

(** ** Invariants of the ticket table *)

Lemma handle_row_built (db : DB) (r : Request) (k : Z) (t t' : Ticket) :
  tickets db !! k = Some t ->
  tickets (handle db r) !! k = Some t' ->
  t' = t
  \/ (k = target db r
      /\ exists fl pending, built_from t pending /\ t' = flush_ticket fl t pending).
Proof.
  intros Ht.
  destruct r as [u tin c1 c2 | u tid payload now fl | u tid sid now fl
                | u tid st now fl | u tid | u tid content now now2 fl ins
                | tid payload now fl ins]; simpl.
  - unfold create_ticket. case_decide; [simpl; left; congruence|].
    destruct (get_or_404 _ _ _); simpl; [|left; congruence].
    intros Hk. left.
    rewrite lookup_insert_ne in Hk; [congruence|].
    intros E. rewrite <- E in Ht. rewrite new_id_fresh in Ht. done.
  - destruct (update_ticket db u tid payload now fl) as [[db' res]|e] eqn:E; simpl;
      [|left; congruence].
    destruct (update_ticket_ok_inv _ _ _ _ _ _ _ _ E)
      as (t0 & Ht0 & _ & [(_ & _ & ->) | (_ & _ & ->)]); [left; congruence|].
    destruct (decide (k = tid)) as [->|Hne].
    + rewrite commit_ticket_lookup. intros [= <-]. right. split; [done|].
      assert (t0 = t) as -> by congruence.
      eexists fl, _. split; [apply built_edit|done].
    + rewrite commit_ticket_lookup_ne by done. left; congruence.
  - destruct (assign_ticket db u tid sid now fl) as [[db' res]|e] eqn:E; simpl;
      [|left; congruence].
    destruct (decide (k = tid)) as [->|Hne].
    + destruct (assign_ticket_ok_inv _ _ _ _ _ _ _ _ _ Ht E)
        as (su & _ & _ & _ & _ & -> & ->).
      rewrite commit_ticket_lookup. intros [= <-]. right. split; [done|].
      eexists fl, _. split; [apply built_assign|done].
    + revert E. unfold assign_ticket, get_or_404.
      case_decide; [done|].
      destruct (tickets db !! tid) as [t0|] eqn:Ht0; [|done]. simpl.
      case_decide; [done|].
      destruct (users db !! sid); [|done].
      repeat (case_decide; [done|]).
      intros [= <- <-]. rewrite commit_ticket_lookup_ne by done. left; congruence.
  - destruct (update_ticket_status db u tid st now fl) as [[db' res]|e] eqn:E; simpl;
      [|left; congruence].
    destruct (update_ticket_status_ok_inv _ _ _ _ _ _ _ _ E) as (t0 & Ht0 & -> & ->).
    destruct (decide (k = tid)) as [->|Hne].
    + rewrite commit_ticket_lookup. intros [= <-]. right. split; [done|].
      assert (t0 = t) as -> by congruence.
      eexists fl, _. split; [apply built_status|done].
    + rewrite commit_ticket_lookup_ne by done. left; congruence.
  - unfold delete_ticket, get_or_404.
    destruct (tickets db !! tid) as [t0|] eqn:Ht0; simpl; [|left; congruence].
    case_decide; simpl; [|left; congruence].
    destruct (decide (k = tid)) as [->|Hne].
    + by rewrite lookup_delete_eq.
    + rewrite lookup_delete_ne by done. left; congruence.
  - destruct (add_comment db u tid content now now2 fl ins) as [[db' res]|e] eqn:E; simpl;
      [|left; congruence].
    destruct (add_comment_ok_inv _ _ _ _ _ _ _ _ _ _ E) as (t0 & pending & Ht0 & Hp & ->).
    destruct (decide (k = tid)) as [->|Hne].
    + rewrite commit_ticket_lookup. intros [= <-]. right. split; [done|].
      assert (t0 = t) as -> by congruence.
      exists fl, pending. split; [|done]. subst pending.
      case_decide as Hc; [apply built_first_response; tauto | apply built_comment].
    + rewrite commit_ticket_lookup_ne by done. left; congruence.
  - destruct (internal_agent_update db tid payload now fl ins) as [[db' res]|e] eqn:E;
      simpl; [|left; congruence].
    destruct (internal_agent_update_ok_inv _ _ _ _ _ _ _ _ E)
      as (t0 & pending & Ht0 & Hp & -> & ->).
    destruct (decide (k = tid)) as [->|Hne].
    + rewrite commit_ticket_lookup. intros [= <-]. right. split; [done|].
      assert (t0 = t) as -> by congruence.
      exists fl, pending. split; [|done]. subst pending. apply built_agent.
    + rewrite commit_ticket_lookup_ne by done. left; congruence.
Qed.

Lemma built_from_keeps (t pending : Ticket) :
  built_from t pending ->
  t_id pending = t_id t
  /\ t_department_id pending = t_department_id t
  /\ t_created_by_id pending = t_created_by_id t
  /\ t_created_at pending = t_created_at t
  /\ (forall x, t_resolved_at t = Some x -> t_resolved_at pending = Some x)
  /\ (is_Some (t_closed_at t) -> is_Some (t_closed_at pending))
  /\ (is_Some (t_assigned_at t) -> is_Some (t_assigned_at pending))
  /\ (is_Some (t_assigned_to_id t) -> is_Some (t_assigned_to_id pending)).
Proof.
  intros [payload now | assignee now | st now | now | now now2 Hnull | payload now].
  - destruct (apply_updates_fields payload t)
      as (_ & _ & _ & _ & _ & H6 & _ & H8 & H9 & H10 & H11 & _ & H13 & H14 & H15).
    destruct (apply_updates payload t); simpl in *.
    rewrite H6, H8, H9, H10, H11, H13, H14, H15. by repeat split.
  - destruct t; simpl. repeat split; try done; intros _; by eexists.
  - destruct t as [i ti de ca au pr s dp cb ato cr up fr rs cl asg].
    unfold stamp_status; simpl.
    destruct st, fr, rs; simpl; repeat split; try done; intros _; by eexists.
  - by destruct t.
  - by destruct t.
  - destruct t, payload as [pr ca au msg]. unfold setattr; simpl.
    destruct pr as [[?|]|], ca, au; simpl; by repeat split.
Qed.

(** X7: what no request can do to a ticket that stays in the table. Its
    identifier, department, creator and [created_at] never change;
    [resolved_at] is write-once; [closed_at], [assigned_at] and the
    assignee, once set, are never reset to null. *)
Theorem ticket_row_invariants (db : DB) (r : Request) (k : Z) (t t' : Ticket) :
  tickets db !! k = Some t ->
  tickets (handle db r) !! k = Some t' ->
  t_id t' = t_id t
  /\ t_department_id t' = t_department_id t
  /\ t_created_by_id t' = t_created_by_id t
  /\ t_created_at t' = t_created_at t
  /\ (forall x, t_resolved_at t = Some x -> t_resolved_at t' = Some x)
  /\ (is_Some (t_closed_at t) -> is_Some (t_closed_at t'))
  /\ (is_Some (t_assigned_at t) -> is_Some (t_assigned_at t'))
  /\ (is_Some (t_assigned_to_id t) -> is_Some (t_assigned_to_id t')).
Proof.
  intros Ht Ht'.
  destruct (handle_row_built db r k t t' Ht Ht')
    as [-> | (_ & fl & pending & Hb & ->)]; [by repeat split|].
  destruct (flush_ticket_same_but_updated_at fl t pending)
    as (-> & _ & _ & _ & _ & _ & -> & -> & ->).
  destruct (flush_ticket_frame fl t pending) as (_ & _ & -> & -> & -> & -> & _).
  by apply built_from_keeps.
Qed.

Lemma ticket_row_invariants_witness :
  let db1 := handle Example.db (UpdateTicketStatus Example.root 1 resolved 500 501) in
  let db2 := handle db1 (UpdateTicketStatus Example.root 1 open 900 901) in
  exists t2, tickets db2 !! 1 = Some t2
             /\ t_status t2 = open
             /\ t_resolved_at t2 = Some 500.
Proof.
  intros db1 db2. eexists. split; [reflexivity|]. split; [reflexivity|].
  eapply (ticket_row_invariants db1 (UpdateTicketStatus Example.root 1 open 900 901) 1);
    reflexivity.
Defined.

(** X8: a request touches one ticket. Every ticket other than the one the
    request names is left exactly as it was, neither changed, removed nor
    added; no request of this kind changes the users or the departments. *)
Theorem request_frame (db : DB) (r : Request) :
  (forall k, k <> target db r -> tickets (handle db r) !! k = tickets db !! k)
  /\ users (handle db r) = users db
  /\ departments (handle db r) = departments db.
Proof.
  destruct r as [u tin c1 c2 | u tid payload now fl | u tid sid now fl
                | u tid st now fl | u tid | u tid content now now2 fl ins
                | tid payload now fl ins]; simpl.
  - unfold create_ticket. case_decide; [done|].
    destruct (get_or_404 _ _ _); simpl; [|done].
    split; [|done]. intros k Hk. by apply lookup_insert_ne.
  - destruct (update_ticket db u tid payload now fl) as [[db' res]|e] eqn:E; simpl;
      [|done].
    destruct (update_ticket_ok_inv _ _ _ _ _ _ _ _ E)
      as (t0 & Ht0 & _ & [(_ & _ & ->) | (_ & _ & ->)]); [done|].
    split; [|done]. intros k Hk. by apply commit_ticket_lookup_ne.
  - unfold assign_ticket, get_or_404.
    case_decide; [done|].
    destruct (tickets db !! tid) as [t0|] eqn:Ht0; [|done]. simpl.
    case_decide; [done|].
    destruct (users db !! sid); [|done].
    repeat (case_decide; [done|]). simpl.
    split; [|done]. intros k Hk. by apply lookup_insert_ne.
  - destruct (update_ticket_status db u tid st now fl) as [[db' res]|e] eqn:E; simpl;
      [|done].
    destruct (update_ticket_status_ok_inv _ _ _ _ _ _ _ _ E) as (t0 & Ht0 & -> & ->).
    split; [|done]. intros k Hk. by apply commit_ticket_lookup_ne.
  - unfold delete_ticket, get_or_404.
    destruct (tickets db !! tid) as [t0|] eqn:Ht0; simpl; [|done].
    case_decide; simpl; [|done].
    split; [|done]. intros k Hk. by apply lookup_delete_ne.
  - unfold add_comment, get_or_404.
    destruct (tickets db !! tid) as [t0|] eqn:Ht0; simpl; [|done].
    destruct (ensure_ticket_visibility t0 u); simpl; [|done].
    split; [|done]. intros k Hk. by apply lookup_insert_ne.
  - unfold internal_agent_update, get_or_404.
    destruct (tickets db !! tid) as [t0|] eqn:Ht0; simpl; [|done].
    assert (Hfr : forall d : DB,
              tickets d = <[tid := flush_ticket fl t0
                 (set_updated_at (Some now)
                    (setattr set_assigned_unit (au_assigned_unit payload)
                       (setattr set_category (au_category payload)
                          (setattr set_priority (mjoin (au_priority payload)) t0))))]>
                 (tickets db) ->
              users d = users db -> departments d = departments db ->
              (forall k, k <> tid -> tickets d !! k = tickets db !! k)
              /\ users d = users db /\ departments d = departments db).
    { intros d Hd Hu Hdep. split; [|done]. intros k Hk. rewrite Hd.
      by apply lookup_insert_ne. }
    destruct (au_message payload); [|by apply Hfr].
    destruct (first_user_by_email _ _); [|by apply Hfr].
    case_decide; by apply Hfr.
Qed.

Lemma create_ticket_ok_inv (db db' : DB) (u : User) (ticket_in : TicketCreate)
    (created_now updated_now : datetime) (t : Ticket) :
  create_ticket db u ticket_in created_now updated_now = Ok (db', t) ->
  u_role u <> support
  /\ is_Some (departments db !! tc_department_id ticket_in)
  /\ t = {| t_id := new_id (tickets db);
            t_title := tc_title ticket_in;
            t_description := tc_description ticket_in;
            t_category := tc_category ticket_in;
            t_assigned_unit := tc_assigned_unit ticket_in;
            t_priority := tc_priority ticket_in;
            t_status := open;
            t_department_id := tc_department_id ticket_in;
            t_created_by_id := u_id u;
            t_assigned_to_id := None;
            t_created_at := Some created_now;
            t_updated_at := Some updated_now;
            t_first_response_at := None;
            t_resolved_at := None;
            t_closed_at := None;
            t_assigned_at := None |}
  /\ db' = with_tickets (<[new_id (tickets db) := t]> (tickets db)) db.
Proof.
  unfold create_ticket, get_or_404. case_decide; [done|].
  destruct (departments db !! tc_department_id ticket_in) eqn:Hd; [|done]. simpl.
  intros [= <- <-]. split; [done|]. split; [by eexists|]. done.
Qed.

Lemma handle_new_row (db : DB) (r : Request) (k : Z) (t' : Ticket) :
  tickets db !! k = None ->
  tickets (handle db r) !! k = Some t' ->
  exists u ticket_in created_now updated_now,
    r = CreateTicket u ticket_in created_now updated_now
    /\ create_ticket db u ticket_in created_now updated_now
       = Ok (handle db r, t')
    /\ k = t_id t'.
Proof.
  intros Hnone.
  destruct r as [u tin c1 c2 | u tid payload now fl | u tid sid now fl
                | u tid st now fl | u tid | u tid content now now2 fl ins
                | tid payload now fl ins]; simpl.
  - destruct (create_ticket db u tin c1 c2) as [[db' t0]|e] eqn:E; simpl; [|congruence].
    destruct (create_ticket_ok_inv _ _ _ _ _ _ _ E) as (_ & _ & Ht0 & ->). simpl.
    destruct (decide (k = new_id (tickets db))) as [->|Hne].
    + rewrite lookup_insert_eq. intros [= <-]. exists u, tin, c1, c2.
      split; [done|]. split; [done|]. by rewrite Ht0.
    + rewrite lookup_insert_ne by done. congruence.
  - destruct (update_ticket db u tid payload now fl) as [[db' res]|e] eqn:E; simpl;
      [|congruence].
    destruct (update_ticket_ok_inv _ _ _ _ _ _ _ _ E)
      as (t0 & Ht0 & _ & [(_ & _ & ->) | (_ & _ & ->)]); [congruence|].
    destruct (decide (k = tid)) as [->|Hne]; [congruence|].
    rewrite commit_ticket_lookup_ne by done. congruence.
  - unfold assign_ticket, get_or_404.
    case_decide; [simpl; congruence|].
    destruct (tickets db !! tid) as [t0|] eqn:Ht0; [|simpl; congruence]. simpl.
    case_decide; [simpl; congruence|].
    destruct (users db !! sid); [|simpl; congruence].
    repeat (case_decide; [simpl; congruence|]). simpl.
    destruct (decide (k = tid)) as [->|Hne]; [congruence|].
    rewrite lookup_insert_ne by done. congruence.
  - destruct (update_ticket_status db u tid st now fl) as [[db' res]|e] eqn:E; simpl;
      [|congruence].
    destruct (update_ticket_status_ok_inv _ _ _ _ _ _ _ _ E) as (t0 & Ht0 & -> & ->).
    destruct (decide (k = tid)) as [->|Hne]; [congruence|].
    rewrite commit_ticket_lookup_ne by done. congruence.
  - unfold delete_ticket, get_or_404.
    destruct (tickets db !! tid) as [t0|] eqn:Ht0; simpl; [|congruence].
    case_decide; simpl; [|congruence].
    destruct (decide (k = tid)) as [->|Hne]; [by rewrite lookup_delete_eq|].
    rewrite lookup_delete_ne by done. congruence.
  - destruct (add_comment db u tid content now now2 fl ins) as [[db' res]|e] eqn:E; simpl;
      [|congruence].
    destruct (add_comment_ok_inv _ _ _ _ _ _ _ _ _ _ E) as (t0 & pending & Ht0 & Hp & ->).
    destruct (decide (k = tid)) as [->|Hne]; [congruence|].
    rewrite commit_ticket_lookup_ne by done. congruence.
  - destruct (internal_agent_update db tid payload now fl ins) as [[db' res]|e] eqn:E;
      simpl; [|congruence].
    destruct (internal_agent_update_ok_inv _ _ _ _ _ _ _ _ E)
      as (t0 & pending & Ht0 & Hp & -> & ->).
    destruct (decide (k = tid)) as [->|Hne]; [congruence|].
    rewrite commit_ticket_lookup_ne by done. congruence.
Qed.

(** X9: with a clock that does not run backwards, [created_at <=
    updated_at] holds of every ticket for ever: if it holds of every stored
    ticket it holds of every ticket stored after any request, the ticket a
    creation adds included. *)
Theorem created_before_updated_kept (db : DB) (r : Request) :
  clock_moves_on db r ->
  (forall k t, tickets db !! k = Some t -> created_before_updated t) ->
  forall k t', tickets (handle db r) !! k = Some t' -> created_before_updated t'.
Proof.
  intros [Hclock Hcreate] Hinv k t' Ht'.
  destruct (tickets db !! k) as [t|] eqn:Ht.
  - destruct (Hinv k t Ht) as (c & up & Hc & Hup & Hle).
    destruct (decide (t' = t)) as [->|Hne]; [by exists c, up|].
    destruct (changed_row_is_stamped db r k t t' Ht Ht' Hne) as (n & Hn & Hup').
    destruct (handle_row_built db r k t t' Ht Ht')
      as [-> | (_ & fl & pending & Hb & ->)]; [done|].
    exists c, n. split; [|split; [done|by eapply Hclock]].
    destruct (flush_ticket_same_but_updated_at fl t pending)
      as (_ & _ & _ & _ & _ & _ & _ & _ & ->).
    destruct (built_from_keeps t pending Hb) as (_ & _ & _ & -> & _). done.
  - destruct (handle_new_row db r k t' Ht Ht')
      as (u & tin & c1 & c2 & -> & Hcr & _).
    destruct (create_ticket_ok_inv _ _ _ _ _ _ _ Hcr) as (_ & _ & -> & _).
    exists c1, c2. by repeat split.
Qed.

Lemma example_ticket_times (k : Z) (t : Ticket) :
  tickets Example.db !! k = Some t ->
  t_created_at t = Some 100 /\ t_updated_at t = Some 100.
Proof.
  unfold Example.db; cbn [tickets].
  rewrite lookup_insert_Some, lookup_singleton_Some.
  intros [[_ <-]|[_ [_ <-]]]; done.
Qed.

Lemma created_before_updated_kept_witness :
  exists t',
    tickets (handle Example.db (AssignTicket Example.carol 1 2 500 501)) !! 1 = Some t'
    /\ created_before_updated t'.
Proof.
  eexists. split; [reflexivity|].
  apply (created_before_updated_kept Example.db (AssignTicket Example.carol 1 2 500 501))
    with (k := 1).
  - split; [|exact I].
    intros n k t c Hn Hk Hc.
    destruct (example_ticket_times k t Hk) as [Hcreated _].
    assert (c = 100) as -> by congruence.
    destruct Hn as [<-|[<-|[]]]; lia.
  - intros k t Hk.
    destruct (example_ticket_times k t Hk) as [Hcreated Hupdated].
    exists 100, 100. by repeat split.
  - reflexivity.
Defined.

(** X10: a ticket can be read back once created. After a successful
    creation the creator, and every admin, reads the new ticket under its
    new identifier and gets the row that was stored: the title,
    description, priority, category, assigned unit and department of the
    request, status open, no assignee and no event timestamp. *)
Theorem create_then_get (db db' : DB) (u : User) (ticket_in : TicketCreate)
    (created_now updated_now : datetime) (t : Ticket) :
  create_ticket db u ticket_in created_now updated_now = Ok (db', t) ->
  get_ticket db' u (t_id t) = Ok t
  /\ (forall a, u_role a = admin -> get_ticket db' a (t_id t) = Ok t)
  /\ t_title t = tc_title ticket_in
  /\ t_description t = tc_description ticket_in
  /\ t_priority t = tc_priority ticket_in
  /\ t_category t = tc_category ticket_in
  /\ t_assigned_unit t = tc_assigned_unit ticket_in
  /\ t_department_id t = tc_department_id ticket_in
  /\ t_status t = open
  /\ t_assigned_to_id t = None
  /\ t_created_at t = Some created_now
  /\ t_updated_at t = Some updated_now
  /\ t_first_response_at t = None /\ t_resolved_at t = None
  /\ t_closed_at t = None /\ t_assigned_at t = None.
Proof.
  intros E. destruct (create_ticket_ok_inv _ _ _ _ _ _ _ E) as (_ & _ & Ht & ->).
  assert (Hstored : tickets (with_tickets (<[new_id (tickets db) := t]> (tickets db)) db)
                      !! t_id t = Some t).
  { assert (Hid : t_id t = new_id (tickets db)) by (by rewrite Ht).
    simpl. rewrite Hid. apply lookup_insert_eq. }
  split; [|split].
  - unfold get_ticket. rewrite (get_or_404_found _ _ _ _ Hstored). simpl.
    assert (Hv : ensure_ticket_visibility t u = Ok tt).
    { apply ensure_ticket_visibility_ok. right; left. by rewrite Ht. }
    by rewrite Hv.
  - intros a Ha. unfold get_ticket. rewrite (get_or_404_found _ _ _ _ Hstored). simpl.
    assert (Hv : ensure_ticket_visibility t a = Ok tt).
    { apply ensure_ticket_visibility_ok. by left. }
    by rewrite Hv.
  - rewrite Ht. simpl. by repeat split.
Qed.

Lemma create_then_get_witness :
  exists db' t,
    create_ticket Example.db Example.alice
      {| tc_title := "Kapi"; tc_description := "kapi kilit"; tc_department_id := 2;
         tc_priority := medium; tc_category := None; tc_assigned_unit := None |}
      500 501 = Ok (db', t)
    /\ get_ticket db' Example.alice (t_id t) = Ok t.
Proof.
  destruct (create_ticket Example.db Example.alice
      {| tc_title := "Kapi"; tc_description := "kapi kilit"; tc_department_id := 2;
         tc_priority := medium; tc_category := None; tc_assigned_unit := None |}
      500 501) as [[db' t]|e] eqn:E; [|vm_compute in E; discriminate].
  exists db', t. split; [reflexivity|].
  destruct (create_then_get _ _ _ _ _ _ _ E) as [Hget _]. exact Hget.
Defined.

(** ** Listings *)

Lemma insert_by_perm {A} (before : A -> A -> bool) (x : A) (l : list A) :
  insert_by before x l ≡ₚ x :: l.
Proof.
  induction l as [|y l IH]; simpl; [done|].
  destruct (before x y); [done|]. rewrite IH. apply Permutation_swap.
Qed.

Lemma foldl_insert_by_perm {A} (before : A -> A -> bool) (l acc : list A) :
  foldl (fun acc x => insert_by before x acc) acc l ≡ₚ acc ++ l.
Proof.
  revert acc. induction l as [|x l IH]; intros acc; simpl.
  - by rewrite app_nil_r.
  - rewrite IH, insert_by_perm. simpl. apply Permutation_middle.
Qed.

Lemma sort_by_perm {A} (before : A -> A -> bool) (l : list A) :
  sort_by before l ≡ₚ l.
Proof. unfold sort_by. by rewrite foldl_insert_by_perm. Qed.

Lemma elem_of_sort_by {A} (before : A -> A -> bool) (l : list A) (x : A) :
  x ∈ sort_by before l <-> x ∈ l.
Proof. by rewrite sort_by_perm. Qed.

Section Sorted.
Context {A : Type} (before : A -> A -> bool).
Hypothesis before_asym : forall x y, before x y = true -> before y x = false.
Hypothesis before_trans :
  forall x y z, before x y = true -> before y z = true -> before x z = true.

(** No row of the list has a later row that should come before it. *)
Let in_order (a b : A) : Prop := before b a = false.

Lemma insert_by_sorted (x : A) (l : list A) :
  StronglySorted in_order l -> StronglySorted in_order (insert_by before x l).
Proof.
  induction 1 as [|y l Hl IH Hy]; simpl.
  - repeat constructor.
  - destruct (before x y) eqn:Hxy.
    + constructor; [by constructor|].
      constructor; [by apply before_asym|].
      rewrite Forall_forall in Hy |- *. intros z Hz. unfold in_order.
      destruct (before z x) eqn:Hzx; [|done].
      rewrite <- (Hy z Hz). symmetry. by eapply before_trans.
    + constructor; [done|].
      rewrite Forall_forall in Hy |- *. intros z Hz.
      rewrite insert_by_perm in Hz. apply elem_of_cons in Hz as [->|Hz]; [done|].
      by apply Hy.
Qed.

Lemma sort_by_sorted (l : list A) : StronglySorted in_order (sort_by before l).
Proof.
  unfold sort_by.
  assert (Hgen : forall acc, StronglySorted in_order acc ->
            StronglySorted in_order (foldl (fun acc x => insert_by before x acc) acc l)).
  { induction l as [|x l IH]; intros acc Hacc; simpl; [done|].
    apply IH. by apply insert_by_sorted. }
  apply Hgen. constructor.
Qed.
End Sorted.

Lemma StronglySorted_weaken {A} (R R' : A -> A -> Prop) (l : list A) :
  (forall a b, R a b -> R' a b) -> StronglySorted R l -> StronglySorted R' l.
Proof.
  intros Himp. induction 1 as [|x l Hl IH Hx]; constructor; [done|].
  eapply Forall_impl; [exact Hx|]. intros y. apply Himp.
Qed.

Lemma earlier_asym (a b : option datetime) : earlier a b = true -> earlier b a = false.
Proof. destruct a, b; simpl; try done. intros H. apply Z.ltb_lt in H. apply Z.ltb_ge. lia. Qed.

Lemma earlier_trans (a b c : option datetime) :
  earlier a b = true -> earlier b c = true -> earlier a c = true.
Proof.
  destruct a, b, c; simpl; try done.
  rewrite !Z.ltb_lt. lia.
Qed.

Lemma elem_of_all_tickets (db : DB) (t : Ticket) :
  t ∈ all_tickets db <-> exists k, tickets db !! k = Some t.
Proof.
  unfold all_tickets. rewrite list_elem_of_fmap. split.
  - intros ([k t0] & -> & Hin). apply elem_of_map_to_list in Hin. by exists k.
  - intros (k & Hk). exists (k, t). split; [done|]. by apply elem_of_map_to_list.
Qed.

(** X11: what a listing shows. [list_tickets] returns exactly the stored
    tickets that are in the caller's scope and pass the status and priority
    filters: a student is shown the tickets they created and no other, a
    support or department user the tickets of their own department and no
    other (none at all without a department), an admin every ticket, or
    those of the department asked for. *)
Theorem list_tickets_scope (db : DB) (u : User) (did : option Z)
    (st : option TicketStatus) (pr : option TicketPriority) (by_priority : bool)
    (t : Ticket) :
  (t ∈ list_tickets db u did st pr by_priority
   <-> (exists k, tickets db !! k = Some t)
       /\ in_scope u did t
       /\ matches st (t_status t)
       /\ matches pr (t_priority t))
  /\ (u_role u = student -> t ∈ list_tickets db u did st pr by_priority ->
      t_created_by_id t = u_id u)
  /\ (u_role u = support \/ u_role u = department ->
      t ∈ list_tickets db u did st pr by_priority ->
      u_department_id u = Some (t_department_id t)).
Proof.
  assert (Hchar : t ∈ list_tickets db u did st pr by_priority
                  <-> (exists k, tickets db !! k = Some t)
                      /\ in_scope u did t
                      /\ matches st (t_status t)
                      /\ matches pr (t_priority t)).
  { unfold list_tickets.
    destruct by_priority; rewrite elem_of_sort_by, !list_elem_of_filter,
      elem_of_all_tickets; tauto. }
  split; [exact Hchar|]. split.
  - intros Hrole Hin. apply Hchar in Hin as (_ & Hscope & _).
    unfold in_scope in Hscope. by rewrite Hrole in Hscope.
  - intros Hrole Hin. apply Hchar in Hin as (_ & Hscope & _).
    unfold in_scope in Hscope. destruct Hrole as [Hrole|Hrole];
      by rewrite Hrole in Hscope.
Qed.

Lemma list_tickets_scope_witness :
  Example.ticket 1 open 1 1 ∈ list_tickets Example.db Example.alice None (Some open) None false
  /\ forall t, t ∈ list_tickets Example.db Example.dave None None None true -> False.
Proof.
  split.
  - apply (list_tickets_scope Example.db Example.alice None (Some open) None false).
    split; [by exists 1|]. by repeat split.
  - intros t Hin.
    pose proof (proj1 (proj1 (list_tickets_scope Example.db Example.dave None None None
                                true t)) Hin) as (Hex & _).
    destruct (list_tickets_scope Example.db Example.dave None None None true t)
      as (_ & _ & Hdep).
    specialize (Hdep (or_introl eq_refl) Hin).
    destruct Hex as (k & Hk).
    unfold Example.db in Hk; cbn [tickets] in Hk.
    rewrite lookup_insert_Some, lookup_singleton_Some in Hk.
    destruct Hk as [[_ <-]|[_ [_ <-]]]; discriminate.
Defined.

(** X12: the order of a listing. With [order_by_priority] the result is
    ordered by priority, high before medium before low; without it, by
    creation time, newest first. In both cases the result holds each
    selected ticket once: it is a rearrangement of the selected rows. *)
Theorem list_tickets_order (db : DB) (u : User) (did : option Z)
    (st : option TicketStatus) (pr : option TicketPriority) :
  StronglySorted (fun a b => priority_order (t_priority b) <= priority_order (t_priority a))
    (list_tickets db u did st pr true)
  /\ StronglySorted (fun a b => earlier (t_created_at a) (t_created_at b) = false)
       (list_tickets db u did st pr false)
  /\ list_tickets db u did st pr true ≡ₚ list_tickets db u did st pr false.
Proof.
  unfold list_tickets. split; [|split].
  - eapply StronglySorted_weaken; [|apply (sort_by_sorted higher_priority)].
    + intros a b Hab. unfold higher_priority in Hab. apply Z.ltb_ge in Hab. done.
    + intros x y. unfold higher_priority. rewrite Z.ltb_lt, Z.ltb_ge. lia.
    + intros x y z. unfold higher_priority. rewrite !Z.ltb_lt. lia.
  - apply (sort_by_sorted newer_ticket).
    + intros x y. apply earlier_asym.
    + intros x y z Hxy Hyz. unfold newer_ticket in *. by eapply earlier_trans.
  - by rewrite !sort_by_perm.
Qed.

(** X13: [list_my_tickets] returns exactly the tickets the caller created,
    newest first, whatever the caller's role. *)
Theorem list_my_tickets_own (db : DB) (u : User) :
  (forall t, t ∈ list_my_tickets db u
             <-> (exists k, tickets db !! k = Some t) /\ t_created_by_id t = u_id u)
  /\ StronglySorted (fun a b => earlier (t_created_at a) (t_created_at b) = false)
       (list_my_tickets db u).
Proof.
  unfold list_my_tickets. split.
  - intros t. rewrite elem_of_sort_by, list_elem_of_filter, elem_of_all_tickets. tauto.
  - apply (sort_by_sorted newer_ticket).
    + intros x y. apply earlier_asym.
    + intros x y z Hxy Hyz. unfold newer_ticket in *. by eapply earlier_trans.
Qed.

(** ** Comments *)

Lemma elem_of_comments_of (db : DB) (tid : Z) (c : Comment) :
  c ∈ comments_of db tid <-> exists k, comments db !! k = Some c /\ c_ticket_id c = tid.
Proof.
  unfold comments_of. rewrite list_elem_of_fmap. split.
  - intros ([k c0] & -> & Hin). apply elem_of_map_to_list in Hin.
    apply map_lookup_filter_Some in Hin as [Hk Hp]. by exists k.
  - intros (k & Hk & Hp). exists (k, c). split; [done|].
    apply elem_of_map_to_list. by apply map_lookup_filter_Some.
Qed.

(** X14: what a comment request stores. A successful [add_comment] adds
    one comment under an identifier that was not in use: it carries the
    ticket, the author, the text and the insertion time of the request.
    Every comment stored before is still there, unchanged, and the users
    and departments are untouched. *)
Theorem add_comment_effect (db db' : DB) (u : User) (tid : Z) (content : string)
    (now now2 fl ins : datetime) (c : Comment) :
  add_comment db u tid content now now2 fl ins = Ok (db', c) ->
  comments db !! c_id c = None
  /\ comments db' !! c_id c = Some c
  /\ c_ticket_id c = tid
  /\ c_author_id c = u_id u
  /\ c_content c = content
  /\ c_created_at c = Some ins
  /\ (forall k, k <> c_id c -> comments db' !! k = comments db !! k)
  /\ users db' = users db
  /\ departments db' = departments db.
Proof.
  unfold add_comment, get_or_404.
  destruct (tickets db !! tid) as [t|]; [|done]. simpl.
  destruct (ensure_ticket_visibility t u); [|done]. simpl.
  intros [= <- <-]. simpl.
  split; [apply new_id_fresh|].
  split; [apply lookup_insert_eq|].
  do 4 (split; [done|]).
  split; [|done]. intros k Hk. by apply lookup_insert_ne.
Qed.

Lemma add_comment_effect_witness :
  exists db' c,
    add_comment Example.db Example.alice 1 "hala kopuyor" 700 701 702 703 = Ok (db', c)
    /\ comments db' !! c_id c = Some c
    /\ c_author_id c = 1.
Proof.
  destruct (add_comment Example.db Example.alice 1 "hala kopuyor" 700 701 702 703)
    as [[db' c]|e] eqn:E; [|vm_compute in E; discriminate].
  exists db', c. split; [reflexivity|].
  destruct (add_comment_effect _ _ _ _ _ _ _ _ _ _ E) as (_ & Hst & _ & Hau & _).
  split; [exact Hst | exact Hau].
Defined.

(** X15: reading the comments of a ticket. [list_comments] is open to
    exactly the users who can read the ticket; it returns the comments of
    that ticket and no other comment, oldest first, and a comment just
    added with [add_comment] is among them. *)
Theorem list_comments_of_ticket (db : DB) (u : User) (tid : Z) :
  (succeeds (list_comments db u tid) <-> succeeds (get_ticket db u tid))
  /\ (forall cs, list_comments db u tid = Ok cs ->
        (forall c, c ∈ cs <-> exists k, comments db !! k = Some c /\ c_ticket_id c = tid)
        /\ StronglySorted (fun a b => earlier (c_created_at b) (c_created_at a) = false) cs)
  /\ (forall content now now2 fl ins db' c,
        add_comment db u tid content now now2 fl ins = Ok (db', c) ->
        exists cs, list_comments db' u tid = Ok cs /\ c ∈ cs).
Proof.
  split; [|split].
  - unfold list_comments, get_ticket, get_or_404.
    destruct (tickets db !! tid) as [t|]; simpl; [|done].
    by destruct (ensure_ticket_visibility t u).
  - intros cs. unfold list_comments, get_or_404.
    destruct (tickets db !! tid) as [t|]; simpl; [|done].
    destruct (ensure_ticket_visibility t u); simpl; [|done].
    intros [= <-]. split.
    + intros c. by rewrite elem_of_sort_by, elem_of_comments_of.
    + apply (sort_by_sorted older_comment).
      * intros x y. apply earlier_asym.
      * intros x y z. apply earlier_trans.
  - intros content now now2 fl ins db' c E.
    pose proof E as E'. revert E'. unfold add_comment, get_or_404.
    destruct (tickets db !! tid) as [t|] eqn:Ht; [|done]. simpl.
    destruct (ensure_ticket_visibility_cases t u) as [Hv|Hv]; rewrite Hv; [|done]. simpl.
    intros [= <- <-].
    eexists. split.
    + unfold list_comments, get_or_404. simpl. rewrite lookup_insert_eq. simpl.
      assert (Hv' : ensure_ticket_visibility
                      (flush_ticket fl t
                         (if decide (u_role u = support
                                     /\ t_first_response_at (set_updated_at (Some now) t)
                                        = None)
                          then set_first_response_at (Some now2)
                                 (set_updated_at (Some now) t)
                          else set_updated_at (Some now) t)) u = Ok tt).
      { apply ensure_ticket_visibility_ok. apply ensure_ticket_visibility_ok in Hv.
        unfold can_view in *.
        match goal with |- context [flush_ticket fl t ?p] =>
          destruct (flush_ticket_same_but_updated_at fl t p)
            as (_ & _ & _ & _ & _ & _ & -> & -> & _);
          assert (Hp : t_department_id p = t_department_id t
                       /\ t_created_by_id p = t_created_by_id t)
            by (case_decide; by destruct t)
        end.
        destruct Hp as [-> ->]. exact Hv. }
      rewrite Hv'. simpl. reflexivity.
    + rewrite elem_of_sort_by, elem_of_comments_of.
      eexists. split; [simpl; apply lookup_insert_eq|done].
Qed.

Lemma list_comments_of_ticket_witness :
  exists db' c cs,
    add_comment Example.db Example.alice 1 "hala kopuyor" 700 701 702 703 = Ok (db', c)
    /\ list_comments db' Example.alice 1 = Ok cs
    /\ c ∈ cs.
Proof.
  destruct (add_comment Example.db Example.alice 1 "hala kopuyor" 700 701 702 703)
    as [[db' c]|e] eqn:E; [|vm_compute in E; discriminate].
  destruct (list_comments_of_ticket Example.db Example.alice 1) as (_ & _ & Hadd).
  destruct (Hadd _ _ _ _ _ _ _ E) as (cs & Hcs & Hin).
  by exists db', c, cs.
Defined.

(** ** The summary for the agent and the list of support users *)

Lemma elem_of_support_users_of (db : DB) (did : Z) (x : User) :
  x ∈ support_users_of db did
  <-> exists k, users db !! k = Some x /\ u_role x = support /\ u_department_id x = Some did.
Proof.
  unfold support_users_of. rewrite list_elem_of_fmap. split.
  - intros ([k x0] & -> & Hin). apply elem_of_map_to_list in Hin.
    apply map_lookup_filter_Some in Hin as [Hk Hp]. by exists k.
  - intros (k & Hk & Hp). exists (k, x). split; [done|].
    apply elem_of_map_to_list. by apply map_lookup_filter_Some.
Qed.


(** X17: who gets the list of support users, and what it holds. Only an
    admin, or a department user asking for their own department, gets the
    list; it holds exactly the stored users with role support in that
    department. A department that does not exist is not an error: the
    answer is the list of support users that name it. *)
Theorem list_support_users_policy (db : DB) (u : User) (did : Z) :
  let r := list_support_users db u did in
  (may_report u did -> r = Ok (support_users_of db did))
  /\ (~ may_report u did -> Forbidden r)
  /\ (forall l x, r = Ok l ->
        (x ∈ l <-> exists k, users db !! k = Some x
                             /\ u_role x = support /\ u_department_id x = Some did)).
Proof.
  intros r. subst r. unfold list_support_users, may_report.
  split; [|split].
  - intros Hmay. rewrite decide_False.
    2:{ intros [Hnd Hna]. destruct Hmay as [E|[E _]]; contradiction. }
    rewrite decide_False; [done|].
    intros [Hdp Hne]. destruct Hmay as [E|[_ E]]; [congruence|contradiction].
  - intros Hno. case_decide as Hgate; [done|]. case_decide as Hown; [done|].
    exfalso. apply Hno.
    destruct (decide (u_role u = admin)) as [|Hna]; [by left|right].
    destruct (decide (u_role u = department)) as [Hd|Hnd].
    + split; [done|].
      destruct (decide (u_department_id u = Some did)) as [|Hne]; [done|].
      exfalso. apply Hown. by split.
    + exfalso. apply Hgate. by split.
  - intros l x. repeat case_decide; try done.
    intros [= <-]. apply elem_of_support_users_of.
Qed.

Lemma list_support_users_policy_witness :
  Forbidden (list_support_users Example.db Example.carol 2)
  /\ exists l, list_support_users Example.db Example.carol 1 = Ok l /\ Example.bob ∈ l.
Proof.
  destruct (list_support_users_policy Example.db Example.carol 2) as (_ & Hforb & _).
  destruct (list_support_users_policy Example.db Example.carol 1) as (Hok & _ & Hmem).
  split.
  - apply Hforb. intros [H|[_ H]]; discriminate.
  - eexists. split; [apply Hok; right; split; reflexivity|].
    apply (Hmem _ Example.bob (Hok (or_intror (conj eq_refl eq_refl)))).
    exists 2. repeat split.
Defined.

(** ** Registration *)

Lemma first_user_by_email_None (email : string) (m : gmap Z User) :
  first_user_by_email email m = None
  <-> forall k u, m !! k = Some u -> u_email u <> email.
Proof.
  unfold first_user_by_email. rewrite fmap_None, list_find_None, Forall_forall. split.
  - intros Hall k u Hk. apply (Hall (k, u)). by apply elem_of_map_to_list.
  - intros Hall [k u] Hin. apply elem_of_map_to_list in Hin. by apply (Hall k u).
Qed.

Lemma first_user_by_email_Some (email : string) (m : gmap Z User) (u : User) :
  first_user_by_email email m = Some u ->
  exists k, m !! k = Some u /\ u_email u = email.
Proof.
  unfold first_user_by_email. rewrite fmap_Some.
  intros ([i [k u0]] & Hfind & ->). apply list_find_Some in Hfind as (Hi & Hp & _).
  exists k. split; [|done].
  apply elem_of_map_to_list. by eapply list_elem_of_lookup_2.
Qed.

Lemma first_user_by_email_is_Some (email : string) (m : gmap Z User) :
  is_Some (first_user_by_email email m)
  <-> exists k u, m !! k = Some u /\ u_email u = email.
Proof.
  split.
  - intros [u Hu]. apply first_user_by_email_Some in Hu as (k & Hk & He). eauto.
  - intros (k & u & Hk & He).
    destruct (first_user_by_email email m) eqn:E; [by eexists|].
    exfalso. by apply (proj1 (first_user_by_email_None email m) E k u).
Qed.

(** X18: registration. A registration succeeds exactly when no stored
    user has the email and, for the roles support and department, a
    department other than 0 is given; otherwise it is answered 400 and
    stores nothing. The new user is active, gets an identifier that was not
    in use, and no stored user is changed. Registration keeps emails unique
    and keeps every support and department user attached to a department. *)
Theorem register_user_invariants (db : DB) (user_in : UserCreate) (hashed : string)
    (created_now : datetime) :
  let r := register_user db user_in hashed created_now in
  (succeeds r
   <-> (forall k u, users db !! k = Some u -> u_email u <> uc_email user_in)
       /\ (uc_role user_in = support \/ uc_role user_in = department ->
           exists d, uc_department_id user_in = Some d /\ d <> 0))
  /\ (~ succeeds r -> raises HTTP_400_BAD_REQUEST r /\ db_after db r = db)
  /\ (forall db' u, r = Ok (db', u) ->
        users db !! u_id u = None
        /\ users db' !! u_id u = Some u
        /\ (forall k, k <> u_id u -> users db' !! k = users db !! k)
        /\ u_email u = uc_email user_in /\ u_role u = uc_role user_in
        /\ u_department_id u = uc_department_id user_in
        /\ u_hashed_password u = hashed /\ u_is_active u = true
        /\ (unique_emails db -> unique_emails db')
        /\ (staff_have_department db -> staff_have_department db')).
Proof.
  intros r. subst r. unfold register_user.
  destruct (first_user_by_email (uc_email user_in) (users db)) as [u0|] eqn:Hfind.
  - apply first_user_by_email_Some in Hfind as (k0 & Hk0 & He0).
    split; [|split; [done|done]].
    split; [done|]. intros [Hfree _]. by apply (Hfree k0 u0).
  - pose proof (proj1 (first_user_by_email_None _ _) Hfind) as Hfree.
    assert (Hdep : ~ no_department (uc_department_id user_in)
                   <-> exists d, uc_department_id user_in = Some d /\ d <> 0).
    { unfold no_department. destruct (uc_department_id user_in) as [d|].
      - split.
        + intros Hn. exists d. split; [done|]. intros ->. apply Hn. by right.
        + intros (d' & [= <-] & Hd) [?|[= ?]]; done.
      - split; [intros Hn; exfalso; apply Hn; by left | intros (d & ? & _); done]. }
    case_decide as Hgate.
    + split; [|split; [done|done]].
      split; [done|]. intros [_ Hstaff]. destruct Hgate as [Hrole Hno].
      apply Hdep in Hstaff; done.
    + split; [|split; [done|]].
      { split; [intros _|done]. split; [done|]. intros Hrole. apply Hdep.
        intros Hno. apply Hgate. by split. }
      intros db' u [= <- <-]. simpl.
      split; [apply new_id_fresh|].
      split; [apply lookup_insert_eq|].
      split; [intros k Hk; by apply lookup_insert_ne|].
      do 5 (split; [done|]). split.
      * intros Huniq k1 k2 u1 u2. simpl.
        rewrite !lookup_insert_Some.
        intros [[<- <-]|[Hn1 H1]] [[<- <-]|[Hn2 H2]] He; simpl in *; try done.
        -- exfalso. by apply (Hfree k2 u2).
        -- exfalso. by apply (Hfree k1 u1).
        -- by eapply Huniq.
      * intros Hstaff k u. simpl. rewrite lookup_insert_Some.
        intros [[<- <-]|[Hn Hk]]; simpl.
        -- intros Hrole. apply Hdep. intros Hno. apply Hgate. by split.
        -- intros Hrole. by apply (Hstaff k u).
Qed.

Lemma register_user_invariants_witness :
  raises HTTP_400_BAD_REQUEST
    (register_user Example.db
       {| uc_email := "new@campus.test"; uc_full_name := None; uc_role := support;
          uc_department_id := Some 0; uc_password := "pw123456" |} "hash" 500)
  /\ succeeds
       (register_user Example.db
          {| uc_email := "new@campus.test"; uc_full_name := None; uc_role := student;
             uc_department_id := None; uc_password := "pw123456" |} "hash" 500).
Proof.
  split.
  - apply (register_user_invariants Example.db
             {| uc_email := "new@campus.test"; uc_full_name := None; uc_role := support;
                uc_department_id := Some 0; uc_password := "pw123456" |} "hash" 500).
    vm_compute. tauto.
  - apply (register_user_invariants Example.db
             {| uc_email := "new@campus.test"; uc_full_name := None; uc_role := student;
                uc_department_id := None; uc_password := "pw123456" |} "hash" 500).
    split; [|intros [H|H]; discriminate].
    apply first_user_by_email_None. reflexivity.
Defined.

(** ** Start-up *)

Lemma elem_of_department_names (db : DB) (n : string) :
  n ∈ department_names db <-> exists k d, departments db !! k = Some d /\ d_name d = n.
Proof.
  unfold department_names. rewrite list_elem_of_fmap. split.
  - intros ([k d] & -> & Hin). apply elem_of_map_to_list in Hin. by exists k, d.
  - intros (k & d & Hk & <-). exists (k, d). split; [done|].
    by apply elem_of_map_to_list.
Qed.

Lemma add_department_lookup (db : DB) (dep : string * string) (k : Z) (d : Department) :
  departments (add_department db dep) !! k = Some d
  <-> (k = new_id (departments db)
       /\ d = {| d_id := new_id (departments db); d_name := dep.1;
                 d_description := Some dep.2 |})
      \/ departments db !! k = Some d.
Proof.
  unfold add_department; simpl. rewrite lookup_insert_Some. split.
  - intros [[<- <-]|[_ Hk]]; [by left | by right].
  - intros [[-> ->]|Hk]; [by left|]. right. split; [|done].
    intros <-. by rewrite new_id_fresh in Hk.
Qed.

Lemma add_department_frame (db : DB) (dep : string * string) :
  users (add_department db dep) = users db
  /\ tickets (add_department db dep) = tickets db
  /\ comments (add_department db dep) = comments db.
Proof. done. Qed.

(** The loop of [seed_defaults] for any list of defaults and any set of
    names read before the loop. *)
Lemma seed_loop_names (existing : list string) (l : list (string * string)) (db : DB)
    (n : string) :
  n ∈ department_names
        (foldl (fun db dep => if decide (dep.1 ∈ existing) then db
                              else add_department db dep) db l)
  <-> n ∈ department_names db \/ (n ∈ l.*1 /\ n ∉ existing).
Proof.
  revert db. induction l as [|dep l IH]; intros db; simpl.
  - rewrite elem_of_nil. tauto.
  - rewrite IH, elem_of_cons. case_decide as Hex.
    + split; [tauto|]. intros [?|[[->|?] ?]]; tauto.
    + rewrite !elem_of_department_names.
      split.
      * intros [(k & d & Hk & Hn)|[? ?]]; [|tauto].
        apply add_department_lookup in Hk as [[_ ->]|Hk]; simpl in *.
        -- right. split; [by left | congruence].
        -- left. eauto.
      * intros [(k & d & Hk & Hn)|[[->|Hin] Hnot]]; [| |tauto].
        -- left. exists k, d. split; [|done]. apply add_department_lookup. by right.
        -- left. eexists _, _. split; [apply add_department_lookup; left; done|done].
Qed.

Lemma seed_loop_noop (existing : list string) (l : list (string * string)) (db : DB) :
  (forall dep, dep ∈ l -> dep.1 ∈ existing) ->
  foldl (fun db dep => if decide (dep.1 ∈ existing) then db
                       else add_department db dep) db l = db.
Proof.
  revert db. induction l as [|dep l IH]; intros db Hall; simpl; [done|].
  rewrite decide_True by (apply Hall; left).
  apply IH. intros dep' Hin. apply Hall. by right.
Qed.

Lemma seed_loop_frame (existing : list string) (l : list (string * string)) (db : DB) :
  let db' := foldl (fun db dep => if decide (dep.1 ∈ existing) then db
                                  else add_department db dep) db l in
  users db' = users db /\ tickets db' = tickets db /\ comments db' = comments db
  /\ (forall k d, departments db !! k = Some d -> departments db' !! k = Some d).
Proof.
  revert db. induction l as [|dep l IH]; intros db; simpl; [done|].
  case_decide; [apply IH|].
  destruct (IH (add_department db dep)) as (-> & -> & -> & Hkeep).
  repeat split; try done.
  intros k d Hk. apply Hkeep. apply add_department_lookup. by right.
Qed.

Lemma seed_defaults_names (db : DB) (n : string) :
  n ∈ department_names (seed_defaults db)
  <-> n ∈ department_names db \/ n ∈ default_departments.*1.
Proof.
  unfold seed_defaults. rewrite seed_loop_names.
  destruct (decide (n ∈ department_names db)); tauto.
Qed.

Lemma seed_defaults_idempotent (db : DB) : seed_defaults (seed_defaults db) = seed_defaults db.
Proof.
  unfold seed_defaults at 1. apply seed_loop_noop.
  intros dep Hin. apply seed_defaults_names. right. by apply list_elem_of_fmap_2.
Qed.

Lemma seed_agent_bot_has_bot (db : DB) (hashed : string) (created_now : datetime) :
  is_Some (first_user_by_email agent_email (users (seed_agent_bot db hashed created_now))).
Proof.
  unfold seed_agent_bot.
  destruct (first_user_by_email agent_email (users db)) eqn:E; [by rewrite E|].
  apply first_user_by_email_is_Some. simpl.
  eexists _, _. split; [apply lookup_insert_eq|done].
Qed.

(** X19: start-up is safe to repeat, and what it leaves behind. When the
    database URL contains "sqlite", start-up leaves a department for each
    of the three default names and keeps every department that was there;
    with any other URL it creates no department at all, because the seeding
    code sits behind the URL test of [run_sqlite_migrations] and
    [seed_departments] itself is empty. In both cases it leaves a user with
    the bot's email, and touches no ticket and no comment. Running start-up
    a second time changes nothing. *)
Theorem startup_event_idempotent (url : string) (db : DB)
    (hashed hashed' : string) (created_now created_now' : datetime) :
  let db1 := startup_event url db hashed created_now in
  startup_event url db1 hashed' created_now' = db1
  /\ (contains "sqlite" url = true ->
      forall n, n ∈ default_departments.*1 -> n ∈ department_names db1)
  /\ (contains "sqlite" url = false -> departments db1 = departments db)
  /\ (forall k d, departments db !! k = Some d -> departments db1 !! k = Some d)
  /\ is_Some (first_user_by_email agent_email (users db1))
  /\ (forall k u, users db !! k = Some u -> users db1 !! k = Some u)
  /\ tickets db1 = tickets db
  /\ comments db1 = comments db.
Proof.
  intros db1. subst db1. unfold startup_event, seed_departments.
  set (db0 := run_sqlite_migrations url db).
  assert (Hbot_frame : forall d h c,
            departments (seed_agent_bot d h c) = departments d
            /\ tickets (seed_agent_bot d h c) = tickets d
            /\ comments (seed_agent_bot d h c) = comments d
            /\ (forall k u, users d !! k = Some u ->
                  users (seed_agent_bot d h c) !! k = Some u)).
  { intros d h c. unfold seed_agent_bot.
    destruct (first_user_by_email agent_email (users d)); [done|]. simpl.
    repeat split. intros k u Hk. rewrite lookup_insert_ne; [done|].
    intros <-. by rewrite new_id_fresh in Hk. }
  assert (Hbot_idem : forall d h c h' c',
            seed_agent_bot (seed_agent_bot d h c) h' c' = seed_agent_bot d h c).
  { intros d h c h' c'. unfold seed_agent_bot at 1.
    destruct (seed_agent_bot_has_bot d h c) as [b Hb]. by rewrite Hb. }
  assert (Hmig : forall d, users (run_sqlite_migrations url d) = users d
                           /\ tickets (run_sqlite_migrations url d) = tickets d
                           /\ comments (run_sqlite_migrations url d) = comments d
                           /\ (forall k x, departments d !! k = Some x ->
                                 departments (run_sqlite_migrations url d) !! k = Some x)).
  { intros d. unfold run_sqlite_migrations. destruct (contains "sqlite" url); [|done].
    apply (seed_loop_frame (department_names d) default_departments d). }
  assert (Hmig_bot : forall d h c,
            run_sqlite_migrations url (seed_agent_bot (run_sqlite_migrations url d) h c)
            = seed_agent_bot (run_sqlite_migrations url d) h c).
  { intros d h c. unfold run_sqlite_migrations at 1.
    destruct (contains "sqlite" url) eqn:Hurl; [|done].
    unfold seed_defaults. apply seed_loop_noop. intros dep Hin.
    apply elem_of_department_names.
    assert (Hn : dep.1 ∈ department_names (run_sqlite_migrations url d)).
    { unfold run_sqlite_migrations. rewrite Hurl. apply seed_defaults_names. right.
      by apply list_elem_of_fmap_2. }
    apply elem_of_department_names in Hn as (k & x & Hk & Hx).
    exists k, x. split; [|done].
    destruct (Hbot_frame (run_sqlite_migrations url d) h c) as (-> & _). done. }
  split; [unfold db0; by rewrite Hmig_bot, Hbot_idem|].
  destruct (Hbot_frame db0 hashed created_now) as (Hd & Ht & Hc & Hu).
  destruct (Hmig db) as (Hmu & Hmt & Hmc & Hmd).
  split; [|split; [|split; [|split; [|split; [|split]]]]].
  - intros Hurl n Hn. apply elem_of_department_names.
    assert (Hin : n ∈ department_names db0).
    { unfold db0, run_sqlite_migrations. rewrite Hurl. apply seed_defaults_names.
      by right. }
    apply elem_of_department_names in Hin as (k & x & Hk & Hx).
    exists k, x. by rewrite Hd.
  - intros Hurl. rewrite Hd. unfold db0, run_sqlite_migrations. by rewrite Hurl.
  - intros k d Hk. rewrite Hd. by apply Hmd.
  - apply seed_agent_bot_has_bot.
  - intros k u Hk. apply Hu. unfold db0. by rewrite Hmu.
  - by rewrite Ht.
  - by rewrite Hc.
Qed.

Lemma startup_event_idempotent_witness :
  "Ogrenci Isleri" ∈ department_names
      (startup_event "sqlite:///./campusupport.db" Example.db "hash" 500)
  /\ departments (startup_event "postgresql://db/campus" Example.db "hash" 500)
     = departments Example.db.
Proof.
  destruct (startup_event_idempotent "sqlite:///./campusupport.db" Example.db
              "hash" "hash" 500 500) as (_ & Hseed & _).
  destruct (startup_event_idempotent "postgresql://db/campus" Example.db
              "hash" "hash" 500 500) as (_ & _ & Hnone & _).
  split.
  - apply Hseed; [reflexivity|]. do 2 right. left.
  - apply Hnone. reflexivity.
Defined.

(** ** The agent's update *)

Lemma agent_pending_fields (payload : AgentUpdate) (now : datetime) (t : Ticket) :
  let p := set_updated_at (Some now)
             (setattr set_assigned_unit (au_assigned_unit payload)
                (setattr set_category (au_category payload)
                   (setattr set_priority (mjoin (au_priority payload)) t))) in
  t_priority p = default (t_priority t) (mjoin (au_priority payload))
  /\ t_category p = default (t_category t) (au_category payload)
  /\ t_assigned_unit p = default (t_assigned_unit t) (au_assigned_unit payload)
  /\ t_title p = t_title t /\ t_description p = t_description t
  /\ t_status p = t_status t /\ t_assigned_to_id p = t_assigned_to_id t
  /\ t_first_response_at p = t_first_response_at t
  /\ t_resolved_at p = t_resolved_at t /\ t_closed_at p = t_closed_at t
  /\ t_assigned_at p = t_assigned_at t.
Proof.
  destruct t, payload as [pr ca au msg]. unfold setattr; simpl.
  destruct pr as [[?|]|], ca, au; simpl; by repeat split.
Qed.

(** X20: what an agent update does. On a ticket that exists it always
    succeeds. It writes the priority only when the body gives one that is
    not null, and writes the category and the assigned unit whenever the
    body sets them, null included; it never touches the title, the
    description, the status, the assignee or an event timestamp. It adds
    one comment, written by the user with the bot's email, exactly when the
    body has a message that is not empty and such a user exists; otherwise
    the message is dropped and the comments are left as they were. *)
Theorem agent_update_effect (db : DB) (tid : Z) (t : Ticket) (payload : AgentUpdate)
    (now fl ins : datetime) :
  tickets db !! tid = Some t ->
  exists db' t',
    internal_agent_update db tid payload now fl ins = Ok (db', t')
    /\ tickets db' !! tid = Some t'
    /\ t_priority t' = default (t_priority t) (mjoin (au_priority payload))
    /\ t_category t' = default (t_category t) (au_category payload)
    /\ t_assigned_unit t' = default (t_assigned_unit t) (au_assigned_unit payload)
    /\ t_title t' = t_title t /\ t_description t' = t_description t
    /\ t_status t' = t_status t /\ t_assigned_to_id t' = t_assigned_to_id t
    /\ t_first_response_at t' = t_first_response_at t
    /\ t_resolved_at t' = t_resolved_at t /\ t_closed_at t' = t_closed_at t
    /\ t_assigned_at t' = t_assigned_at t
    /\ (forall message bot,
          au_message payload = Some message -> message <> "" ->
          first_user_by_email agent_email (users db) = Some bot ->
          comments db' =
            <[new_id (comments db) :=
                {| c_id := new_id (comments db); c_ticket_id := tid;
                   c_author_id := u_id bot; c_content := message;
                   c_created_at := Some ins |}]> (comments db))
    /\ (au_message payload = None \/ au_message payload = Some ""
        \/ first_user_by_email agent_email (users db) = None ->
        comments db' = comments db).
Proof.
  intros Ht. unfold internal_agent_update. rewrite (get_or_404_found _ _ _ _ Ht). simpl.
  eexists _, _. split; [reflexivity|].
  fold agent_email.
  set (pending := set_updated_at (Some now)
                    (setattr set_assigned_unit (au_assigned_unit payload)
                       (setattr set_category (au_category payload)
                          (setattr set_priority (mjoin (au_priority payload)) t)))).
  split.
  { destruct (au_message payload); [|apply commit_ticket_lookup].
    destruct (first_user_by_email agent_email (users db)); [|apply commit_ticket_lookup].
    case_decide; apply commit_ticket_lookup. }
  destruct (flush_ticket_same_but_updated_at fl t pending)
    as (_ & -> & -> & -> & -> & -> & _).
  destruct (flush_ticket_frame fl t pending) as (-> & -> & -> & -> & -> & -> & _).
  destruct (agent_pending_fields payload now t)
    as (H1 & H2 & H3 & H4 & H5 & H6 & H7 & H8 & H9 & H10 & H11).
  fold pending in H1, H2, H3, H4, H5, H6, H7, H8, H9, H10, H11.
  do 11 (split; [done|]).
  split.
  - intros message bot -> Hne ->. by rewrite decide_False.
  - intros [-> | [-> | ->]]; [done|by destruct (first_user_by_email _ _)|].
    by destruct (au_message payload).
Qed.

Lemma agent_update_effect_witness :
  exists db' t',
    internal_agent_update Example.db 1
      {| au_priority := Some None; au_category := Some (Some "Internet");
         au_assigned_unit := Some (Some "Network"); au_message := Some "yonlendirildi" |}
      500 501 502 = Ok (db', t')
    /\ t_priority t' = high
    /\ t_category t' = Some "Internet"
    /\ comments db' = comments Example.db.
Proof.
  destruct (agent_update_effect Example.db 1 (Example.ticket 1 open 1 1)
              {| au_priority := Some None; au_category := Some (Some "Internet");
                 au_assigned_unit := Some (Some "Network");
                 au_message := Some "yonlendirildi" |} 500 501 502 eq_refl)
    as (db' & t' & Hr & _ & Hpr & Hca & _ & _ & _ & _ & _ & _ & _ & _ & _ & _ & Hdrop).
  exists db', t'. split; [exact Hr|]. split; [exact Hpr|]. split; [exact Hca|].
  apply Hdrop. right; right. reflexivity.
Defined.

(** ** The guards of [app/dependencies.py] *)

(** X21: the two guards that stand before the handlers. The internal
    surface accepts a request exactly when it carries the configured
    secret and that secret is not empty, so an empty configured secret
    closes the surface to every caller; everything else is answered 401.
    [require_roles] lets a user through exactly when the user is active and
    has one of the roles; an inactive user is answered 400 whatever the
    role, an active user with another role 403. *)
Theorem dependency_guards (secret : string) (header : option string)
    (roles : list RoleEnum) (u : User) :
  (succeeds (verify_internal_secret secret header)
   <-> header = Some secret /\ secret <> "")
  /\ (~ succeeds (verify_internal_secret secret header) ->
      raises HTTP_401_UNAUTHORIZED (verify_internal_secret secret header))
  /\ (require_roles roles u = Ok u <-> u_is_active u = true /\ u_role u ∈ roles)
  /\ (u_is_active u = false -> raises 400 (require_roles roles u))
  /\ (u_is_active u = true -> u_role u ∉ roles -> Forbidden (require_roles roles u)).
Proof.
  unfold verify_internal_secret, require_roles, get_current_active_user.
  split; [|split; [|split; [|split]]].
  - destruct header as [x|]; [|split; [done|intros [? _]; done]].
    case_decide as Hx; simpl.
    + split; [done|]. intros [[= ->] Hne]. destruct Hx; done.
    + split; [intros _|done].
      destruct (decide (x = "")) as [->|Hne]; [exfalso; apply Hx; by left|].
      destruct (decide (x = secret)) as [->|Hs]; [done|].
      exfalso. apply Hx. by right.
  - destruct header as [x|]; [|done]. by case_decide.
  - destruct (u_is_active u); simpl; [|split; [done|intros [? _]; done]].
    case_decide; split; try done; tauto.
  - by intros ->.
  - intros -> Hno. simpl. by rewrite decide_False.
Qed.

(** ** The classifier beyond the priority *)

Lemma heuristic_category_facts (lower : string -> string) (text : string) :
  (heuristic_category lower text = "Genel"
   <-> ~ keyword_occurs internet_keywords (lower text)
       /\ ~ keyword_occurs hardware_keywords (lower text)
       /\ ~ keyword_occurs student_keywords (lower text))
  /\ (pick_unit (heuristic_category lower text) = "Genel"
      <-> heuristic_category lower text = "Genel").
Proof.
  unfold heuristic_category.
  pose proof (any_in_spec internet_keywords (lower text)) as Hi.
  pose proof (any_in_spec hardware_keywords (lower text)) as Hh.
  pose proof (any_in_spec student_keywords (lower text)) as Hs.
  pose proof (any_in_false internet_keywords (lower text)) as Hi'.
  pose proof (any_in_false hardware_keywords (lower text)) as Hh'.
  pose proof (any_in_false student_keywords (lower text)) as Hs'.
  destruct (any_in internet_keywords (lower text)), (any_in hardware_keywords (lower text)),
    (any_in student_keywords (lower text));
    (repeat split; try done; try (intros _; tauto); try (intros; intuition discriminate)).
Qed.

(** X22: the category of the fallback and its routing. The category is
    Internet exactly when a network keyword occurs in the lowercased text,
    Donanim exactly when none does and a hardware keyword occurs, Ogrenci
    Islemleri exactly when a student-services keyword occurs and none of
    the other two kinds, and Genel exactly when no keyword occurs. The unit
    [pick_unit] routes to is Network, Donanim, OgrenciIsleri and Genel
    respectively; a category spelled in any other way is routed to Genel. *)
Theorem heuristic_category_precedence (lower : string -> string) (text : string) :
  let lowered := lower text in
  let c := heuristic_category lower text in
  (c = "Internet" <-> keyword_occurs internet_keywords lowered)
  /\ (c = "Donanim"
      <-> ~ keyword_occurs internet_keywords lowered
          /\ keyword_occurs hardware_keywords lowered)
  /\ (c = "Ogrenci Islemleri"
      <-> ~ keyword_occurs internet_keywords lowered
          /\ ~ keyword_occurs hardware_keywords lowered
          /\ keyword_occurs student_keywords lowered)
  /\ (c = "Genel"
      <-> ~ keyword_occurs internet_keywords lowered
          /\ ~ keyword_occurs hardware_keywords lowered
          /\ ~ keyword_occurs student_keywords lowered)
  /\ (pick_unit c = "Network" <-> c = "Internet")
  /\ (pick_unit c = "Donanim" <-> c = "Donanim")
  /\ (pick_unit c = "OgrenciIsleri" <-> c = "Ogrenci Islemleri")
  /\ (pick_unit c = "Genel" <-> c = "Genel")
  /\ (forall other, other <> "Internet" -> other <> "Donanim" ->
        other <> "Ogrenci Islemleri" -> pick_unit other = "Genel").
Proof.
  intros lowered c. subst c. unfold heuristic_category. fold lowered.
  pose proof (any_in_spec internet_keywords lowered) as Hi.
  pose proof (any_in_spec hardware_keywords lowered) as Hh.
  pose proof (any_in_spec student_keywords lowered) as Hs.
  pose proof (any_in_false internet_keywords lowered) as Hi'.
  pose proof (any_in_false hardware_keywords lowered) as Hh'.
  pose proof (any_in_false student_keywords lowered) as Hs'.
  destruct (any_in internet_keywords lowered), (any_in hardware_keywords lowered),
    (any_in student_keywords lowered);
    (repeat split; try done; try (intros _; tauto); try (intros; intuition discriminate));
    try (intros other H1 H2 H3; unfold pick_unit;
         by rewrite !decide_False).
Qed.

(** X23: the calendar step. A slot is proposed exactly when "randevu" or
    "danisman" occurs in the lowercased description. Without a configured
    calendar, and whenever the call fails or answers without a usable
    slot, the slot is the fixed stub. A description that gets a slot is
    never classified Genel by the fallback, since both words are
    student-services keywords. *)
Theorem calendar_flow_slot (lower : string -> string) (base : string)
    (response : option (option (list string))) (description : string) :
  let slot := mock_calendar_flow lower base response description in
  (is_Some slot <-> keyword_occurs calendar_keywords (lower description))
  /\ (slot = None <-> ~ keyword_occurs calendar_keywords (lower description))
  /\ (is_Some slot ->
      base = "" \/ response = None \/ response = Some None \/ response = Some (Some []) ->
      slot = Some stub_slot)
  /\ (is_Some slot -> heuristic_category lower description <> "Genel"
                      /\ pick_unit (heuristic_category lower description) <> "Genel").
Proof.
  intros slot. subst slot. unfold mock_calendar_flow.
  pose proof (any_in_spec calendar_keywords (lower description)) as Hc.
  pose proof (any_in_false calendar_keywords (lower description)) as Hc'.
  assert (Hstudent : keyword_occurs calendar_keywords (lower description) ->
                     keyword_occurs student_keywords (lower description)).
  { intros (k & Hk & Ho). exists k. split; [|done].
    simpl in Hk |- *. destruct Hk as [<-|[<-|[]]]; tauto. }
  destruct (any_in calendar_keywords (lower description)) eqn:Hany; simpl.
  - assert (Hocc : keyword_occurs calendar_keywords (lower description)) by tauto.
    assert (Hsome : forall o : option string,
              (o = Some stub_slot \/ exists s, o = Some s) -> is_Some o).
    { intros o [->|[s ->]]; by eexists. }
    split.
    { split; [done|]. intros _. case_decide; [by eexists|].
      destruct response as [[[|s l]|]|]; by eexists. }
    split.
    { split; [|tauto]. case_decide; [done|]. by destruct response as [[[|s l]|]|]. }
    split.
    { intros _ [-> | [-> | [-> | ->]]]; [by rewrite decide_True| | |]; by case_decide. }
    intros _.
    destruct (heuristic_category_facts lower description) as (Hgen & Hunit).
    split; [|rewrite Hunit]; intros Hg; apply Hgen in Hg as (_ & _ & Hn);
      apply Hn, Hstudent, Hocc.
  - split; [split; [intros [? ?]; done | intros H; apply Hc in H; done]|].
    split; [split; [intros _; by apply Hc' | done]|].
    split; intros [? ?]; done.
Qed.



(** ** The report beyond the null fields *)

Lemma fold_min_le_max (l : list Q) (a b : Q) :
  Qle a b -> Qle (fold_left Qmin l a) (fold_left Qmax l b).
Proof.
  revert a b. induction l as [|y l IH]; intros a b Hab; simpl; [done|].
  apply IH. eapply Qle_trans; [apply Q.le_min_r | apply Q.le_max_r].
Qed.

Lemma disjoint_filters_length {A} (f g : A -> bool) (l : list A) :
  (forall x, f x = true -> g x = false) ->
  (List.length (List.filter f l) + List.length (List.filter g l) <= List.length l)%nat.
Proof.
  intros Hdisj. induction l as [|x l IH]; simpl; [done|].
  destruct (f x) eqn:Hf.
  - rewrite (Hdisj x Hf). simpl. lia.
  - destruct (g x); simpl; lia.
Qed.

Lemma closed_in_week_not_open (sd we : date) (t : Ticket) :
  closed_in_week sd we t = true -> is_open_assigned t = false.
Proof.
  unfold closed_in_week, is_open_assigned.
  destruct (t_resolved_at t); [|done].
  rewrite andb_true_iff, !bool_decide_eq_true. intros [_ Hst].
  apply bool_decide_eq_false. intros [?|?]; destruct Hst; congruence.
Qed.

(** X25: the figures of a report hang together. The week of the report is
    seven days long and starts on the day asked for, or seven days before
    today when none is asked for. In every entry the tickets closed in the
    week and the tickets still open are different tickets, so the two
    counters together never exceed the number of tickets assigned to that
    support user; the fastest resolution is never slower than the slowest,
    and the two are null together. *)
Theorem report_figures (db : DB) (u : User) (did : Z) (ws : option date) (now : datetime)
    (rep : DepartmentReport) :
  department_report db u did ws now = Ok rep ->
  week_end rep = week_start rep + 7
  /\ week_start rep = default (date_of now - 7) ws
  /\ forall sr, sr ∈ supports rep ->
       (closed_this_week sr + open_assigned sr
        <= List.length (tickets_assigned_to db (support_user_id sr)))%nat
       /\ (fastest_resolution_minutes sr = None <-> slowest_resolution_minutes sr = None)
       /\ (forall f s, fastest_resolution_minutes sr = Some f ->
             slowest_resolution_minutes sr = Some s -> Qle f s).
Proof.
  unfold department_report, get_or_404.
  case_decide; [done|]. case_decide; [done|].
  destruct (departments db !! did); [|done]. simpl.
  intros [= <-]. simpl. split; [done|]. split; [by destruct ws|].
  intros sr Hsr. apply list_elem_of_fmap in Hsr as (su & -> & _).
  unfold support_report; simpl. split; [|split].
  - apply disjoint_filters_length. apply closed_in_week_not_open.
  - by destruct (omap resolution_time (tickets_assigned_to db (u_id su))).
  - destruct (omap resolution_time (tickets_assigned_to db (u_id su))) as [|x l];
      [done|]. simpl. intros f s [= <-] [= <-].
    apply fold_min_le_max. apply Qle_refl.
Qed.

Lemma report_figures_witness :
  let db1 := handle Example.db (AssignTicket Example.carol 1 2 500 501) in
  let db2 := handle db1 (UpdateTicketStatus Example.bob 1 resolved 900 901) in
  exists rep, department_report db2 Example.carol 1 (Some 0) 1000 = Ok rep
              /\ week_end rep = 7.
Proof.
  intros db1 db2.
  destruct (department_report db2 Example.carol 1 (Some 0) 1000) as [rep|e] eqn:E;
    [|vm_compute in E; discriminate].
  exists rep. split; [reflexivity|].
  destruct (report_figures _ _ _ _ _ _ E) as (Hend & Hstart & _).
  rewrite Hend, Hstart. reflexivity.
Defined.

(** ** Work flows *)

(** X26: an assignment hands the ticket over. After a successful
    assignment the assignee can read the ticket, can comment on it and can
    set its status; every other support user is refused a status change. *)
Theorem assignee_can_work (db db' : DB) (u : User) (tid : Z) (t t' : Ticket)
    (sid : Z) (now fl : datetime) :
  tickets db !! tid = Some t ->
  assign_ticket db u tid sid now fl = Ok (db', t') ->
  exists su,
    users db' !! sid = Some su
    /\ t_assigned_to_id t' = Some (u_id su)
    /\ get_ticket db' su tid = Ok t'
    /\ (forall content n1 n2 n3 n4, succeeds (add_comment db' su tid content n1 n2 n3 n4))
    /\ (forall st n1 n2, succeeds (update_ticket_status db' su tid st n1 n2))
    /\ (forall other st n1 n2, u_role other = support -> u_id other <> u_id su ->
          Forbidden (update_ticket_status db' other tid st n1 n2)).
Proof.
  intros Ht E.
  destruct (assign_ticket_ok_inv _ _ _ _ _ _ _ _ _ Ht E)
    as (su & Hsu & Hrole & Hdep & _ & Ht' & Hdb).
  set (pending := set_assigned_at (Some now) (set_assigned_to_id (Some (u_id su)) t))
    in *.
  assert (Hstored : tickets db' !! tid = Some t')
    by (rewrite Hdb, Ht'; apply commit_ticket_lookup).
  assert (Hassignee : t_assigned_to_id t' = Some (u_id su)).
  { rewrite Ht'. destruct (flush_ticket_frame fl t pending) as (_ & _ & _ & _ & _ & -> & _).
    subst pending. by destruct t. }
  assert (Hdept : t_department_id t' = t_department_id t).
  { rewrite Ht'.
    destruct (flush_ticket_same_but_updated_at fl t pending)
      as (_ & _ & _ & _ & _ & _ & -> & _).
    subst pending. by destruct t. }
  assert (Hview : ensure_ticket_visibility t' su = Ok tt).
  { apply ensure_ticket_visibility_ok. right; right. split; [by right|]. congruence. }
  exists su. split; [by rewrite Hdb|]. split; [done|]. split; [|split; [|split]].
  - unfold get_ticket. rewrite (get_or_404_found _ _ _ _ Hstored). simpl.
    by rewrite Hview.
  - intros content n1 n2 n3 n4. unfold add_comment.
    rewrite (get_or_404_found _ _ _ _ Hstored). simpl. by rewrite Hview.
  - intros st n1 n2.
    destruct (update_ticket_status_found db' su tid t' st n1 n2 Hstored) as [Hok _].
    rewrite Hok; [done|]. right; left. by split.
  - intros other st n1 n2 Hother Hne.
    destruct (update_ticket_status_found db' other tid t' st n1 n2 Hstored) as [_ Hno].
    apply Hno. intros [?|[[_ Ha]|[? _]]]; congruence.
Qed.

Lemma assignee_can_work_witness :
  exists db' t',
    assign_ticket Example.db Example.carol 1 2 500 501 = Ok (db', t')
    /\ succeeds (update_ticket_status db' Example.bob 1 in_progress 600 601)
    /\ Forbidden (update_ticket_status db' Example.erin 1 in_progress 600 601).
Proof.
  destruct (assign_ticket Example.db Example.carol 1 2 500 501) as [[db' t']|e] eqn:E;
    [|vm_compute in E; discriminate].
  destruct (assignee_can_work Example.db db' Example.carol 1 (Example.ticket 1 open 1 1)
              t' 2 500 501 eq_refl E) as (su & Hsu & _ & _ & _ & Hst & Hother).
  assert (su = Example.bob) as ->.
  { vm_compute in E. injection E as <- <-. vm_compute in Hsu. by injection Hsu as <-. }
  exists db', t'. split; [reflexivity|]. split; [apply Hst|].
  apply Hother; [reflexivity | discriminate].
Defined.

(** X27: a registered user can log in. After a successful registration,
    logging in with the registered email and a password the stored hash
    verifies succeeds, with a bearer token for the new user's identifier
    and role. A login is refused with 401 for an unknown email and for a
    password that does not verify, with one and the same message. *)
Theorem register_then_login (verify_password : string -> string -> bool)
    (encode : Z -> RoleEnum -> string) (db db' : DB) (user_in : UserCreate)
    (hashed : string) (created_now : datetime) (u : User) :
  register_user db user_in hashed created_now = Ok (db', u) ->
  (verify_password (uc_password user_in) hashed = true ->
   login_for_access_token verify_password encode db' (uc_email user_in) (uc_password user_in)
   = Ok {| access_token := encode (u_id u) (u_role u); token_type := "bearer" |})
  /\ (forall password, verify_password password hashed = false ->
        login_for_access_token verify_password encode db' (uc_email user_in) password
        = Raise {| status_code := HTTP_401_UNAUTHORIZED;
                   detail := "Incorrect email or password" |})
  /\ (forall email password,
        (forall k x, users db' !! k = Some x -> u_email x <> email) ->
        login_for_access_token verify_password encode db' email password
        = Raise {| status_code := HTTP_401_UNAUTHORIZED;
                   detail := "Incorrect email or password" |}).
Proof.
  intros E.
  assert (Hfind : first_user_by_email (uc_email user_in) (users db') = Some u).
  { revert E. unfold register_user.
    destruct (first_user_by_email (uc_email user_in) (users db)) eqn:Hnone; [done|].
    case_decide; [done|]. intros [= <- <-]. simpl.
    match goal with |- first_user_by_email ?e ?m = Some ?x =>
      destruct (first_user_by_email e m) as [y|] eqn:Hy end.
    - apply first_user_by_email_Some in Hy as (k & Hk & He).
      apply lookup_insert_Some in Hk as [[_ <-]|[_ Hk]]; [done|].
      exfalso. by apply (proj1 (first_user_by_email_None _ _) Hnone k y).
    - exfalso. apply (proj1 (first_user_by_email_None _ _) Hy (new_id (users db))
                        {| u_id := new_id (users db); u_email := uc_email user_in;
                           u_full_name := uc_full_name user_in;
                           u_hashed_password := hashed; u_role := uc_role user_in;
                           u_department_id := uc_department_id user_in;
                           u_is_active := true; u_created_at := Some created_now |});
        [apply lookup_insert_eq | done]. }
  assert (Hhash : u_hashed_password u = hashed).
  { revert E. unfold register_user.
    destruct (first_user_by_email (uc_email user_in) (users db)); [done|].
    case_decide; [done|]. by intros [= <- <-]. }
  unfold login_for_access_token. split; [|split].
  - intros Hv. by rewrite Hfind, Hhash, Hv.
  - intros password Hv. by rewrite Hfind, Hhash, Hv.
  - intros email password Hnone.
    by rewrite (proj2 (first_user_by_email_None email (users db')) Hnone).
Qed.

Lemma register_then_login_witness :
  succeeds
    (login_for_access_token (fun p h => String.eqb h ("h:" +:+ p)) (fun _ _ => "token")
       (db_after Example.db
          (register_user Example.db
             {| uc_email := "new@campus.test"; uc_full_name := None; uc_role := student;
                uc_department_id := None; uc_password := "pw123456" |} "h:pw123456" 500))
       "new@campus.test" "pw123456").
Proof.
  destruct (register_user Example.db
             {| uc_email := "new@campus.test"; uc_full_name := None; uc_role := student;
                uc_department_id := None; uc_password := "pw123456" |} "h:pw123456" 500)
    as [[db' u]|e] eqn:E; [|vm_compute in E; discriminate].
  destruct (register_then_login (fun p h => String.eqb h ("h:" +:+ p)) (fun _ _ => "token")
              _ _ _ _ _ _ E) as (Hok & _).
  simpl. simpl in Hok. rewrite Hok; [done|reflexivity].
Defined.

(** ** The classification step of the agent *)

Lemma split_on_cons (sep : ascii) (s : string) :
  exists p ps, split_on sep s = p :: ps.
Proof.
  destruct s as [|c s]; simpl; [by eexists _, _|].
  case_decide; [by eexists _, _|].
  destruct (split_on sep s); by eexists _, _.
Qed.

Lemma split_on_free (sep : ascii) (a : string) :
  free_of sep a -> split_on sep a = [a].
Proof.
  induction a as [|c a IH]; simpl; [done|].
  intros [Hc Ha]. rewrite decide_False by done. by rewrite IH.
Qed.

Lemma split_on_app (sep : ascii) (a b : string) :
  free_of sep a -> split_on sep (a +:+ String sep b) = a :: split_on sep b.
Proof.
  induction a as [|c a IH].
  - intros _. rewrite append_nil. simpl. by rewrite decide_True.
  - intros [Hc Ha]. rewrite append_cons. simpl.
    rewrite decide_False by done. by rewrite IH.
Qed.

Lemma free_of_no_sep (sep : ascii) (pre post : string) :
  free_of sep (pre +:+ String sep post) -> False.
Proof.
  induction pre as [|c pre IH].
  - rewrite append_nil. simpl. by intros [? _].
  - rewrite append_cons. simpl. intros [_ ?]. by apply IH.
Qed.

Lemma free_of_contains (text : string) :
  free_of comma text -> contains "," text = false.
Proof.
  intros Hfree. destruct (contains "," text) eqn:Hc; [|done].
  apply contains_spec in Hc as (pre & post & ->).
  exfalso. by apply (free_of_no_sep comma pre post).
Qed.

(** X28: how the agent classifies. Without a text from the oracle, with
    an empty one and with one that has no comma, the category and the
    priority are the keyword fallback, so the priority is one of low,
    medium and high. With a comma, the category is the stripped text
    before the first comma, or the fallback category when that is empty,
    and the priority is the stripped and lowercased text between the first
    and the second comma, taken as it is: it is not checked against the
    three priorities. The category is never empty and the unit is always
    the one [pick_unit] gives for the category. *)
Theorem classify_steps (lower strip : string -> string) (description : string) :
  (forall ai_text,
     ai_text = None \/ ai_text = Some "" \/ (exists text, ai_text = Some text
                                                          /\ free_of comma text) ->
     classify lower strip ai_text description
     = {| cl_category := heuristic_category lower description;
          cl_priority := heuristic_priority lower description;
          cl_assigned_unit := pick_unit (heuristic_category lower description) |}
     /\ In (cl_priority (classify lower strip ai_text description))
          ["low"; "medium"; "high"])
  /\ (forall a b text,
        free_of comma a -> free_of comma b ->
        text = a +:+ String comma b
        \/ (exists rest, text = a +:+ String comma (b +:+ String comma rest)) ->
        let c := classify lower strip (Some text) description in
        cl_category c = (if decide (strip a = "") then heuristic_category lower description
                         else strip a)
        /\ cl_priority c = lower (strip b))
  /\ (forall ai_text,
        let c := classify lower strip ai_text description in
        cl_category c <> "" /\ cl_assigned_unit c = pick_unit (cl_category c)).
Proof.
  assert (Hcat : heuristic_category lower description <> "").
  { unfold heuristic_category.
    by destruct (any_in internet_keywords (lower description)),
      (any_in hardware_keywords (lower description)),
      (any_in student_keywords (lower description)). }
  assert (Hprio : In (heuristic_priority lower description) ["low"; "medium"; "high"]).
  { unfold heuristic_priority.
    destruct (any_in urgency_keywords (lower description)),
      (any_in delay_keywords (lower description)); simpl; tauto. }
  split; [|split].
  - intros ai_text Hcase.
    assert (Heq : classify lower strip ai_text description
                  = {| cl_category := heuristic_category lower description;
                       cl_priority := heuristic_priority lower description;
                       cl_assigned_unit := pick_unit (heuristic_category lower description) |}).
    { unfold classify. destruct Hcase as [-> | [-> | (text & -> & Hfree)]]; [done|done|].
      rewrite (free_of_contains text Hfree). by rewrite andb_false_r. }
    by rewrite Heq.
  - intros a b text Ha Hb Htext c. subst c.
    assert (Hparts : exists tl ps, text = a +:+ String comma tl
                                   /\ split_on comma tl = b :: ps).
    { destruct Htext as [-> | (rest & ->)].
      - exists b, []. split; [done|]. by apply split_on_free.
      - eexists _, _. split; [done|]. by apply split_on_app. }
    destruct Hparts as (tl & ps & -> & Htl).
    assert (Hcontains : contains "," (a +:+ String comma tl) = true).
    { apply contains_spec. by exists a, tl. }
    assert (Hnonempty : a +:+ String comma tl <> "").
    { destruct a; [rewrite append_nil|rewrite append_cons]; discriminate. }
    unfold classify.
    rewrite Hcontains, bool_decide_eq_true_2 by done. simpl.
    rewrite (split_on_app comma a tl Ha), Htl. simpl.
    by case_decide.
  - intros ai_text c. subst c. unfold classify.
    destruct ai_text as [text|]; [|done].
    destruct (bool_decide (text <> "") && contains "," text); [|done].
    destruct (split_on_cons comma text) as (p & ps & ->). simpl.
    split; [by case_decide | done].
Qed.

(** The oracle's wording decides: a priority in another language passes
    through, and a category in lower case is routed to Genel. *)
Example classify_oracle_wording :
  classify ascii_lower (fun s => s) (Some "internet,Yuksek") "wifi kopuyor"
  = {| cl_category := "internet"; cl_priority := "yuksek"; cl_assigned_unit := "Genel" |}.
Proof. reflexivity. Qed.
